(** * Sleep tracker: storage hooks, weekly statistics and user settings

    A shallow embedding of
      - [src/hooks/useSleepStorage.ts] (two variants of the hook: the
        AsyncStorage one and the Supabase one),
      - the settings hook [useUserSettings] (in [src/types/auth.ts]),
      - [src/services/notifications.ts],
      - the handlers of the screens that call them (add, detail, statistics,
        settings, onboarding).

    Conventions of the embedding.
      - A JavaScript [number] is represented by a rational ([Q]); a rational
        that is not a binary64 value stands for the nearest one, as the
        literal [0.1] and the quotient [81 / 10] do in JavaScript.  The
        arithmetic of [calculateDuration] and [formatDuration] is exact.
        The sums, the quotient and the product of [getWeeklyStats] are
        rounded to binary64 as IEEE 754 prescribes ([Js.add], [Js.div],
        [Js.mul]): its totals and its average are the doubles the code
        computes.  Infinity and NaN are not represented, so numbers beyond
        the range of binary64 are outside the model.  [Math.round] rounds
        half up (towards plus infinity), [Math.floor] is the floor.
      - A valid [Date] is its time value, an integer count of milliseconds
        since the epoch.  An entry's [bedtime]/[wakeTime] ISO string is
        represented by the [Date] it denotes ([toISOString] and [new Date]
        are inverse on valid dates).
      - The local time zone of the device is a parameter ([Js.Zone]): the
        offset in force at each instant, and the offset by which each
        wall-clock time is read, as in ECMAScript's [LocalTime] and [UTC].
        Clock changes are thus covered; a zone with a fixed offset
        ([Js.fixedOffset], from the value of [getTimezoneOffset] in
        minutes) is one instance.
      - Calls to external services (AsyncStorage, Supabase, the OS
        notification service) take their response from an explicit
        environment and are recorded in a trace. *)

From Stdlib Require Import ZArith QArith Qround List String Ascii Bool Lia.
From Stdlib Require Import Sorting.Sorted Sorting.Permutation.
From Stdlib Require Import DecimalString Lqa Qabs Qpower.
Import ListNotations.

Open Scope Z_scope.

(** ** JavaScript numbers and dates *)

Module Js.

(** [Math.round]: nearest integer, halves go up. *)
Definition Math_round (x : Q) : Z := Qfloor (x + (1 # 2)).

(** [Math.floor]. *)
Definition Math_floor (x : Q) : Z := Qfloor x.

(** [a > b] on numbers. *)
Definition gt (a b : Q) : bool :=
  match Qcompare a b with Gt => true | _ => false end.

(** *** Arithmetic on doubles *)

(** The integer nearest to [n / d] ([d] positive), a tie going to the even
    one. *)
Definition roundHalfEven (n d : Z) : Z :=
  let q := n / d in
  match 2 * (n mod d) ?= d with
  | Lt => q
  | Gt => q + 1
  | Eq => if Z.even q then q else q + 1
  end.

(** The floor of the binary logarithm of [n / d], for positive [n], [d]. *)
Definition log2Floor (n d : Z) : Z :=
  let k := Z.log2 n - Z.log2 d in
  if (if 0 <=? k then d * 2 ^ k <=? n else d <=? n * 2 ^ (- k)) then k
  else k - 1.

(** The power [2 ^ e] of a whole exponent, as a rational. *)
Definition pow2 (e : Z) : Q :=
  if 0 <=? e then inject_Z (2 ^ e) else (1 # Z.to_pos (2 ^ (- e)))%Q.

(** The binary64 value nearest to [x] (round to nearest, ties to even): a
    significand [m] of at most 53 bits and an exponent [e] of at least
    -1074, with [m * 2 ^ e] nearest to the magnitude of [x].  The result is
    in lowest terms. *)
Definition binary64 (x : Q) : Q :=
  let r := Qred x in
  let n := Z.abs (Qnum r) in
  let d := Zpos (Qden r) in
  if n =? 0 then 0%Q
  else
    let e := Z.max (log2Floor n d - 52) (-1074) in
    let m := if 0 <=? e then roundHalfEven n (d * 2 ^ e)
             else roundHalfEven (n * 2 ^ (- e)) d in
    Qred (inject_Z (Z.sgn (Qnum r) * m) * pow2 e).

(** [a + b], [a * b] and [a / b] on numbers: the exact result of the
    operation on the two doubles, rounded to a double. *)
Definition add (a b : Q) : Q := binary64 (binary64 a + binary64 b)%Q.
Definition mul (a b : Q) : Q := binary64 (binary64 a * binary64 b)%Q.
Definition div (a b : Q) : Q := binary64 (binary64 a / binary64 b)%Q.

(** String conversion of an integral number, as in a template literal. *)
Definition showZ (z : Z) : string := NilZero.string_of_int (Z.to_int z).

(** A valid [Date]: milliseconds since the epoch. *)
Record Date : Type := mkDate { getTime : Z }.

Definition msPerDay : Z := 24 * 60 * 60 * 1000.

(** The local time zone of the device, as ECMAScript sees it
    ([LocalTZA(t, isUTC)]): [offsetAt t] is the offset of local time from
    UTC, in milliseconds, in force at the instant [t]; [offsetOfClock l] is
    the offset by which the wall-clock time [l] is read.  Where the clock is
    changed, the engine decides how a repeated or a skipped wall-clock time
    is read: that choice is part of the zone. *)
Record Zone : Type := mkZone {
  offsetAt : Z -> Z;
  offsetOfClock : Z -> Z
}.

(** The zone without clock changes whose [getTimezoneOffset] is [tzOffset]
    minutes: local = UTC - offset. *)
Definition fixedOffset (tzOffset : Z) : Zone :=
  mkZone (fun _ => - (tzOffset * 60000)) (fun _ => - (tzOffset * 60000)).

(** [LocalTime(t)]: the wall-clock reading of a date. *)
Definition localTime (zone : Zone) (d : Date) : Z :=
  getTime d + offsetAt zone (getTime d).

(** [UTC(t)]: the instant of a wall-clock reading. *)
Definition UTC (zone : Zone) (clock : Z) : Z :=
  clock - offsetOfClock zone clock.

(** Day number (days since the local epoch day) and time within the day. *)
Definition localDay (zone : Zone) (d : Date) : Z :=
  localTime zone d / msPerDay.

Definition timeWithinDay (zone : Zone) (d : Date) : Z :=
  localTime zone d mod msPerDay.

(** Rebuild a date from a local day number and a time within the day. *)
Definition ofLocal (zone : Zone) (day : Z) (time : Z) : Date :=
  mkDate (UTC zone (day * msPerDay + time)).

(** [date.setDate(date.getDate() - i)]: same local time of day, [i] local
    calendar days earlier. *)
Definition setDate_minus (zone : Zone) (d : Date) (i : Z) : Date :=
  ofLocal zone (localDay zone d - i) (timeWithinDay zone d).

(** [date.setHours(h, m, s, ms)]: same local day, given time of day. *)
Definition setHours (zone : Zone) (d : Date) (h m s ms : Z) : Date :=
  ofLocal zone (localDay zone d)
          (h * 3600000 + m * 60000 + s * 1000 + ms).

(** [a >= b] and [a <= b] on dates compare time values. *)
Definition date_ge (a b : Date) : bool := getTime b <=? getTime a.
Definition date_le (a b : Date) : bool := getTime a <=? getTime b.

(** [toLocaleDateString('en-US', { weekday: 'short' })].  Day 0 of the
    epoch (1 January 1970) was a Thursday. *)
Definition weekdayShort (zone : Zone) (d : Date) : string :=
  match (localDay zone d + 4) mod 7 with
  | 0 => "Sun" | 1 => "Mon" | 2 => "Tue" | 3 => "Wed"
  | 4 => "Thu" | 5 => "Fri" | _ => "Sat"
  end%string.

(** [String.prototype.trim], for the ASCII white space characters. *)
Definition isSpace (c : ascii) : bool :=
  let n := nat_of_ascii c in
  ((n =? 32) || (n =? 9) || (n =? 10) || (n =? 11) || (n =? 12) || (n =? 13))%nat.

Fixpoint trimStart (s : string) : string :=
  match s with
  | String c s' => if isSpace c then trimStart s' else s
  | EmptyString => EmptyString
  end.

Fixpoint trimEnd (s : string) : string :=
  match s with
  | String c s' =>
      match trimEnd s' with
      | EmptyString => if isSpace c then EmptyString else String c EmptyString
      | t => String c t
      end
  | EmptyString => EmptyString
  end.

Definition trim (s : string) : string := trimEnd (trimStart s).

(** [note?.trim() || undefined]: absent, empty or blank notes are absent. *)
Definition normalizeNote (note : option string) : option string :=
  match note with
  | Some s => match trim s with EmptyString => None | t => Some t end
  | None => None
  end.

(** [Array.prototype.sort(cmp)]: a stable sort; [cmp a b <= 0] keeps [a]
    before [b].  Modelled by stable insertion. *)
Section Sort.
Context {A : Type} (cmp : A -> A -> Z).

Fixpoint sort_insert (x : A) (l : list A) : list A :=
  match l with
  | [] => [x]
  | y :: l' => if cmp x y <=? 0 then x :: y :: l' else y :: sort_insert x l'
  end.

Definition sort (l : list A) : list A := fold_right sort_insert [] l.
End Sort.

(** [Array.prototype.findIndex]; [None] stands for -1. *)
Fixpoint findIndex {A : Type} (p : A -> bool) (l : list A) : option nat :=
  match l with
  | [] => None
  | x :: l' => if p x then Some O
               else match findIndex p l' with
                    | Some n => Some (S n)
                    | None => None
                    end
  end.

(** [arr[index] = v] for an index inside the array. *)
Fixpoint setAt {A : Type} (l : list A) (index : nat) (v : A) : list A :=
  match l, index with
  | [], _ => []
  | _ :: l', O => v :: l'
  | x :: l', S n => x :: setAt l' n v
  end.

End Js.

(** A number of minutes given where a zone is expected stands for the zone
    with that fixed offset. *)
Coercion Js.fixedOffset : Z >-> Js.Zone.

(** ** The data model ([types/sleep.ts]) *)

Record SleepEntry : Type := mkSleepEntry {
  id : string;
  bedtime : Js.Date;
  wakeTime : Js.Date;
  duration : Q;
  note : option string;
  quality : option Z
}.

Record WeeklyStats : Type := mkWeeklyStats {
  dailyDurations : list Q;
  dayLabels : list string;
  averageDuration : Q;
  totalEntries : nat
}.

(** ** Promises, exceptions and hook state *)

(** A thrown value: a backend error (with its [code]) or [new Error(message)]. *)
Record JsError : Type := mkJsError { code : string; message : string }.

(** The [{ data, error }] object a Supabase query resolves to. *)
Record PgResponse (A : Type) : Type := mkPgResponse {
  data : option A;
  error : option JsError
}.
Arguments mkPgResponse {A} _ _.
Arguments data {A} _.
Arguments error {A} _.

Definition notAuthenticated : JsError := mkJsError EmptyString "User not authenticated".

(** Reading a property of [null]/[undefined]. *)
Definition typeError : JsError := mkJsError EmptyString "TypeError".

Inductive Outcome (A : Type) : Type :=
| Return (a : A)
| Throw (e : JsError).
Arguments Return {A} _.
Arguments Throw {A} _.

(** An async function over a state [S]: it ends by returning or throwing,
    and leaves a new state. *)
Definition Hook (S A : Type) : Type := S -> Outcome A * S.

Definition ret {S A} (a : A) : Hook S A := fun s => (Return a, s).

Definition throw {S A} (e : JsError) : Hook S A := fun s => (Throw e, s).

Definition bind {S A B} (m : Hook S A) (k : A -> Hook S B) : Hook S B :=
  fun s => match m s with
           | (Return a, s') => k a s'
           | (Throw e, s') => (Throw e, s')
           end.

Definition getState {S} : Hook S S := fun s => (Return s, s).

Definition modify {S} (f : S -> S) : Hook S unit := fun s => (Return tt, f s).

(** [await p] for a promise already settled with outcome [o]. *)
Definition await {S A} (o : Outcome A) : Hook S A := fun s => (o, s).

(** [try { body } catch (e) { handler e }]. *)
Definition tryCatch {S A} (body : Hook S A) (handler : JsError -> Hook S A)
  : Hook S A :=
  fun s => match body s with
           | (Throw e, s') => handler e s'
           | r => r
           end.

(** [try { body } finally { fin }]. *)
Definition tryFinally {S A} (body : Hook S A) (fin : Hook S unit) : Hook S A :=
  fun s => match body s with
           | (r, s') => match fin s' with
                        | (Return _, s'') => (r, s'')
                        | (Throw e, s'') => (Throw e, s'')
                        end
           end.

Declare Scope hook_scope.
Delimit Scope hook_scope with hook.
Notation "x <- m ;; k" := (bind m (fun x => k))
  (at level 100, m at next level, right associativity) : hook_scope.
Notation "m ;; k" := (bind m (fun _ => k))
  (at level 100, right associativity) : hook_scope.

(** [const { data, error } = await query; if (error) throw error], then the
    use of [data]. *)
Definition unwrap {S A} (r : PgResponse A) : Hook S (option A) :=
  match error r with
  | Some e => throw e
  | None => ret (data r)
  end.

(** The React state of [useSleepStorage]. *)
Record StorageState : Type := mkStorageState {
  entries : list SleepEntry;
  loading : bool;
  errorMsg : option string
}.

Definition setEntries (f : list SleepEntry -> list SleepEntry) : Hook StorageState unit :=
  modify (fun s => mkStorageState (f (entries s)) (loading s) (errorMsg s)).

Definition setLoading (b : bool) : Hook StorageState unit :=
  modify (fun s => mkStorageState (entries s) b (errorMsg s)).

Definition setError (e : option string) : Hook StorageState unit :=
  modify (fun s => mkStorageState (entries s) (loading s) e).

(** ** useSleepStorage, AsyncStorage variant *)

Module Local.

(** AsyncStorage, as far as the hook uses it.  [getItem] resolves to the
    parsed collection ([None]: no item stored) or fails (storage failure or
    malformed JSON, both caught by the same handler); [setItem] and
    [removeItem] resolve or fail. *)
Record AsyncStorage : Type := mkAsyncStorage {
  getItem : Outcome (option (list SleepEntry));
  setItem : list SleepEntry -> Outcome unit;
  removeItem : Outcome unit
}.

Definition calculateDuration (bedtime wakeTime : Js.Date) : Q :=
  let diff := Js.getTime wakeTime - Js.getTime bedtime in
  let diff := if diff <? 0 then diff + 24 * 60 * 60 * 1000 else diff in
  (inject_Z (Js.Math_round ((inject_Z diff / inject_Z (1000 * 60 * 60)) * 10)) / 10)%Q.

Definition formatDuration (hours : Q) : string :=
  let h := Js.Math_floor hours in
  let m := Js.Math_round ((hours - inject_Z h) * 60)%Q in
  if m =? 0 then (Js.showZ h ++ "h")%string
  else (Js.showZ h ++ "h " ++ Js.showZ m ++ "m")%string.

(** The comparator [(a, b) => new Date(b.bedtime).getTime() -
    new Date(a.bedtime).getTime()]. *)
Definition byBedtimeDesc (a b : SleepEntry) : Z :=
  Js.getTime (bedtime b) - Js.getTime (bedtime a).

Section WithStorage.
Variable storage : AsyncStorage.
Open Scope hook_scope.

Definition loadEntries : Hook StorageState unit :=
  tryFinally
    (tryCatch
       (setLoading true ;;
        setError None ;;
        data <- await (getItem storage) ;;
        match data with
        | Some parsed => setEntries (fun _ => Js.sort byBedtimeDesc parsed)
        | None => setEntries (fun _ => [])
        end)
       (fun e => setError (Some "Failed to load sleep data"%string)))
    (setLoading false).

Definition saveEntries (newEntries : list SleepEntry) : Hook StorageState unit :=
  tryCatch
    (await (setItem storage newEntries) ;;
     setEntries (fun _ => newEntries))
    (fun e => setError (Some "Failed to save sleep data"%string) ;; throw e).

(** [newId] is the value [generateId()] returns for this call. *)
Definition addEntry (newId : string) (bedtime wakeTime : Js.Date)
           (note : option string) : Hook StorageState SleepEntry :=
  s <- getState ;;
  let duration := calculateDuration bedtime wakeTime in
  let newEntry :=
    mkSleepEntry newId bedtime wakeTime duration (Js.normalizeNote note) None in
  let updatedEntries := newEntry :: entries s in
  saveEntries updatedEntries ;;
  ret newEntry.

Definition updateEntry (eid : string) (bedtime wakeTime : Js.Date)
           (note : option string) : Hook StorageState (option SleepEntry) :=
  s <- getState ;;
  match Js.findIndex (fun e => String.eqb (id e) eid) (entries s) with
  | None => ret None
  | Some index =>
      let duration := calculateDuration bedtime wakeTime in
      let updatedEntry :=
        mkSleepEntry eid bedtime wakeTime duration (Js.normalizeNote note) None in
      let updatedEntries := Js.setAt (entries s) index updatedEntry in
      let updatedEntries := Js.sort byBedtimeDesc updatedEntries in
      saveEntries updatedEntries ;;
      ret (Some updatedEntry)
  end.

Definition deleteEntry (eid : string) : Hook StorageState bool :=
  s <- getState ;;
  let updatedEntries := filter (fun e => negb (String.eqb (id e) eid)) (entries s) in
  if (List.length updatedEntries =? List.length (entries s))%nat then ret false
  else (saveEntries updatedEntries ;; ret true).

Definition clearAllData : Hook StorageState unit :=
  tryCatch
    (await (removeItem storage) ;;
     setEntries (fun _ => []))
    (fun e => setError (Some "Failed to clear sleep data"%string) ;; throw e).

End WithStorage.

Definition getEntry (s : StorageState) (eid : string) : option SleepEntry :=
  find (fun e => String.eqb (id e) eid) (entries s).

Definition getLatestEntry (s : StorageState) : option SleepEntry :=
  hd_error (entries s).

(** One turn of the loop [for (let i = 6; i >= 0; i--)]: pushes the label
    and the total of the day [i] days before [now]. *)
Definition weekStep (zone : Js.Zone) (now : Js.Date) (entries : list SleepEntry)
           (acc : list string * list Q) (i : Z) : list string * list Q :=
  let date := Js.setDate_minus zone now i in
  let label := Js.weekdayShort zone date in
  let dayStart := Js.setHours zone date 0 0 0 0 in
  let dayEnd := Js.setHours zone date 23 59 59 999 in
  let dayEntries :=
    filter (fun entry =>
              let bedtime := bedtime entry in
              Js.date_ge bedtime dayStart && Js.date_le bedtime dayEnd)
           entries in
  let totalDuration :=
    fold_left (fun sum entry => Js.add sum (duration entry)) dayEntries 0%Q in
  (fst acc ++ [label], snd acc ++ [totalDuration]).

(** [zone] and [now] are the device's time zone and [new Date()].  The
    last quotient, of a whole number by 10, is kept as it is: it stands for
    the double nearest to it. *)
Definition getWeeklyStats (zone : Js.Zone) (now : Js.Date)
           (entries : list SleepEntry) : WeeklyStats :=
  let '(dayLabels, dailyDurations) :=
    fold_left (weekStep zone now entries) [6; 5; 4; 3; 2; 1; 0] ([], []) in
  let daysWithData := filter (fun d => Js.gt d 0) dailyDurations in
  let averageDuration :=
    if (0 <? List.length daysWithData)%nat
    then Js.div (fold_left Js.add daysWithData 0%Q)
                (inject_Z (Z.of_nat (List.length daysWithData)))
    else 0%Q in
  mkWeeklyStats dailyDurations dayLabels
                (inject_Z (Js.Math_round (Js.mul averageDuration 10)) / 10)%Q
                (List.length entries).

End Local.

(** ** useSleepStorage, Supabase variant *)

Module Auth.
(** The signed-in user, as far as the hooks read it ([user.id]). *)
Record User : Type := mkUser { id : string }.
End Auth.

Module Remote.

(** A row of [sleep_entries] ([lib/supabase.ts]; the hook also reads
    [quality]). *)
Record DbSleepEntry : Type := mkDbSleepEntry {
  db_id : string;
  user_id : string;
  db_bedtime : Js.Date;
  wake_time : Js.Date;
  db_duration : Q;
  db_note : option string;
  db_quality : option Z;
  created_at : string
}.

(** The object given to [insert] and to [update]. *)
Record SleepInsert : Type := mkSleepInsert {
  ins_user_id : string;
  ins_bedtime : Js.Date;
  ins_wake_time : Js.Date;
  ins_duration : Q;
  ins_note : option string;
  ins_quality : option Z
}.

Record SleepUpdate : Type := mkSleepUpdate {
  upd_bedtime : Js.Date;
  upd_wake_time : Js.Date;
  upd_duration : Q;
  upd_note : option string;
  upd_quality : option Z
}.

(** The Supabase queries the hook issues, each with the response it gets:
    select of the user's rows ordered by bedtime descending, insert,
    update by id and user, delete by id and user, delete by user. *)
Record Supabase : Type := mkSupabase {
  selectEntries : string -> PgResponse (list DbSleepEntry);
  insertRow : SleepInsert -> PgResponse DbSleepEntry;
  updateRow : string -> string -> SleepUpdate -> PgResponse DbSleepEntry;
  deleteRow : string -> string -> PgResponse unit;
  deleteRows : string -> PgResponse unit
}.

Definition calculateDuration (bedtime wakeTime : Js.Date) : Q :=
  let diff := Js.getTime wakeTime - Js.getTime bedtime in
  let diff := if diff <? 0 then diff + 24 * 60 * 60 * 1000 else diff in
  (inject_Z (Js.Math_round ((inject_Z diff / inject_Z (1000 * 60 * 60)) * 10)) / 10)%Q.

Definition formatDuration (hours : Q) : string :=
  let h := Js.Math_floor hours in
  let m := Js.Math_round ((hours - inject_Z h) * 60)%Q in
  if m =? 0 then (Js.showZ h ++ "h")%string
  else (Js.showZ h ++ "h " ++ Js.showZ m ++ "m")%string.

(** [x || undefined] on a string and on a number. *)
Definition truthyString (x : option string) : option string :=
  match x with
  | Some EmptyString => None
  | other => other
  end.

Definition truthyNumber (x : option Z) : option Z :=
  match x with
  | Some 0 => None
  | other => other
  end.

Definition toSleepEntry (dbEntry : DbSleepEntry) : SleepEntry :=
  mkSleepEntry (db_id dbEntry) (db_bedtime dbEntry) (wake_time dbEntry)
               (db_duration dbEntry) (truthyString (db_note dbEntry))
               (truthyNumber (db_quality dbEntry)).

Definition byBedtimeDesc (a b : SleepEntry) : Z :=
  Js.getTime (bedtime b) - Js.getTime (bedtime a).

Section WithBackend.
Variable supabase : Supabase.
Variable user : option Auth.User.
Open Scope hook_scope.

Definition loadEntries : Hook StorageState unit :=
  match user with
  | None => ret tt
  | Some u =>
      tryFinally
        (tryCatch
           (setLoading true ;;
            setError None ;;
            data <- unwrap (selectEntries supabase (Auth.id u)) ;;
            let sleepEntries :=
              map toSleepEntry (match data with Some rows => rows | None => [] end) in
            setEntries (fun _ => sleepEntries))
           (fun e => setError (Some "Failed to load sleep data"%string)))
        (setLoading false)
  end.

Definition addEntry (bedtime wakeTime : Js.Date) (note : option string)
           (quality : option Z) : Hook StorageState SleepEntry :=
  match user with
  | None => throw notAuthenticated
  | Some u =>
      let duration := calculateDuration bedtime wakeTime in
      data <- unwrap (insertRow supabase
                        (mkSleepInsert (Auth.id u) bedtime wakeTime duration
                                       (Js.normalizeNote note)
                                       (truthyNumber quality))) ;;
      match data with
      | None => throw typeError
      | Some row =>
          let newEntry := toSleepEntry row in
          setEntries (fun prev => newEntry :: prev) ;;
          ret newEntry
      end
  end.

Definition updateEntry (eid : string) (bedtime wakeTime : Js.Date)
           (note : option string) (quality : option Z)
  : Hook StorageState (option SleepEntry) :=
  match user with
  | None => throw notAuthenticated
  | Some u =>
      let duration := calculateDuration bedtime wakeTime in
      data <- unwrap (updateRow supabase eid (Auth.id u)
                        (mkSleepUpdate bedtime wakeTime duration
                                       (Js.normalizeNote note)
                                       (truthyNumber quality))) ;;
      match data with
      | None => ret None
      | Some row =>
          let updatedEntry := toSleepEntry row in
          setEntries (fun prev =>
                        let updated :=
                          map (fun e => if String.eqb (id e) eid
                                        then updatedEntry else e) prev in
                        Js.sort byBedtimeDesc updated) ;;
          ret (Some updatedEntry)
      end
  end.

Definition deleteEntry (eid : string) : Hook StorageState bool :=
  match user with
  | None => throw notAuthenticated
  | Some u =>
      match error (deleteRow supabase eid (Auth.id u)) with
      | Some deleteError => throw deleteError
      | None =>
          setEntries (fun prev =>
                        filter (fun e => negb (String.eqb (id e) eid)) prev) ;;
          ret true
      end
  end.

Definition clearAllData : Hook StorageState unit :=
  match user with
  | None => throw notAuthenticated
  | Some u =>
      match error (deleteRows supabase (Auth.id u)) with
      | Some deleteError => throw deleteError
      | None => setEntries (fun _ => [])
      end
  end.

End WithBackend.

Definition getEntry (s : StorageState) (eid : string) : option SleepEntry :=
  find (fun e => String.eqb (id e) eid) (entries s).

Definition getLatestEntry (s : StorageState) : option SleepEntry :=
  hd_error (entries s).

Definition weekStep (zone : Js.Zone) (now : Js.Date) (entries : list SleepEntry)
           (acc : list string * list Q) (i : Z) : list string * list Q :=
  let date := Js.setDate_minus zone now i in
  let label := Js.weekdayShort zone date in
  let dayStart := Js.setHours zone date 0 0 0 0 in
  let dayEnd := Js.setHours zone date 23 59 59 999 in
  let dayEntries :=
    filter (fun entry =>
              let bedtime := bedtime entry in
              Js.date_ge bedtime dayStart && Js.date_le bedtime dayEnd)
           entries in
  let totalDuration :=
    fold_left (fun sum entry => Js.add sum (duration entry)) dayEntries 0%Q in
  (fst acc ++ [label], snd acc ++ [totalDuration]).

Definition getWeeklyStats (zone : Js.Zone) (now : Js.Date)
           (entries : list SleepEntry) : WeeklyStats :=
  let '(dayLabels, dailyDurations) :=
    fold_left (weekStep zone now entries) [6; 5; 4; 3; 2; 1; 0] ([], []) in
  let daysWithData := filter (fun d => Js.gt d 0) dailyDurations in
  let averageDuration :=
    if (0 <? List.length daysWithData)%nat
    then Js.div (fold_left Js.add daysWithData 0%Q)
                (inject_Z (Z.of_nat (List.length daysWithData)))
    else 0%Q in
  mkWeeklyStats dailyDurations dayLabels
                (inject_Z (Js.Math_round (Js.mul averageDuration 10)) / 10)%Q
                (List.length entries).

End Remote.

(** ** The notification service ([services/notifications.ts]) *)

Module Notifications.

(** What the service is asked to do, in order: calls of its two exported
    functions and the requests these make to the OS notification API. *)
Inductive Event : Type :=
| CallScheduleBedtimeReminder (reminderTime : string) (targetHours : Q)
| CallCancelBedtimeReminder
| OsCancelAllScheduled
| OsScheduleDaily (hour minute : option Z) (targetHours : Q).

(** The OS notification API: each request resolves or throws. *)
Record Os : Type := mkOs {
  cancelAllScheduledNotificationsAsync : Outcome unit;
  scheduleNotificationAsync : option Z -> option Z -> Q -> Outcome string
}.

Definition emit (e : Event) : Hook (list Event) unit :=
  modify (fun trace => trace ++ [e]).

(** [s.split(sep)] for a one-character separator. *)
Fixpoint split (sep : ascii) (s : string) : list string :=
  match s with
  | EmptyString => [EmptyString]
  | String c s' =>
      if Ascii.eqb c sep then EmptyString :: split sep s'
      else match split sep s' with
           | p :: ps => String c p :: ps
           | [] => [String c EmptyString]
           end
  end.

(** [Number(s)] on a string of decimal digits (blank is 0); [None] is
    [NaN].  Signs, fractions and exponents are not modelled. *)
Fixpoint digitsValue (acc : Z) (s : string) : option Z :=
  match s with
  | EmptyString => Some acc
  | String c s' =>
      let n := Z.of_nat (nat_of_ascii c) in
      if (48 <=? n) && (n <=? 57) then digitsValue (acc * 10 + (n - 48)) s'
      else None
  end.

Definition Number (s : string) : option Z := digitsValue 0 (Js.trim s).

(** Array destructuring: a missing element is [undefined]. *)
Definition element (l : list (option Z)) (n : nat) : option Z :=
  match nth_error l n with
  | Some v => v
  | None => None
  end.

Section WithOs.
Variable os : Os.
Open Scope hook_scope.

Definition cancelBedtimeReminder : Hook (list Event) unit :=
  emit CallCancelBedtimeReminder ;;
  tryCatch
    (emit OsCancelAllScheduled ;;
     await (cancelAllScheduledNotificationsAsync os))
    (fun _ => ret tt).

Definition scheduleBedtimeReminder (reminderTime : string) (targetHours : Q)
  : Hook (list Event) (option string) :=
  emit (CallScheduleBedtimeReminder reminderTime targetHours) ;;
  tryCatch
    (cancelBedtimeReminder ;;
     let parts := map Number (split ":" reminderTime) in
     let hours := element parts 0 in
     let minutes := element parts 1 in
     emit (OsScheduleDaily hours minutes targetHours) ;;
     identifier <- await (scheduleNotificationAsync os hours minutes targetHours) ;;
     ret (Some identifier))
    (fun _ => ret None).
End WithOs.

Definition isScheduleCall (e : Event) : bool :=
  match e with CallScheduleBedtimeReminder _ _ => true | _ => false end.

Definition isCancelCall (e : Event) : bool :=
  match e with CallCancelBedtimeReminder => true | _ => false end.

Definition isOsCancelAll (e : Event) : bool :=
  match e with OsCancelAllScheduled => true | _ => false end.

Definition isOsSchedule (e : Event) : bool :=
  match e with OsScheduleDaily _ _ _ => true | _ => false end.

Definition count (p : Event -> bool) (trace : list Event) : nat :=
  List.length (filter p trace).

End Notifications.

(** ** useUserSettings *)

Module Settings.

Record UserSettings : Type := mkUserSettings {
  id : string;
  userId : string;
  targetHours : Q;
  reminderEnabled : bool;
  reminderTime : string;
  onboardingCompleted : bool;
  createdAt : string;
  updatedAt : string
}.

Record DbUserSettings : Type := mkDbUserSettings {
  row_id : string;
  user_id : string;
  target_hours : Q;
  reminder_enabled : bool;
  reminder_time : string;
  onboarding_completed : bool;
  created_at : string;
  updated_at : string
}.

Record UpdateSettingsInput : Type := mkUpdateSettingsInput {
  in_targetHours : option Q;
  in_reminderEnabled : option bool;
  in_reminderTime : option string;
  in_onboardingCompleted : option bool
}.

(** The object given to [insert]. *)
Record SettingsInsert : Type := mkSettingsInsert {
  ins_user_id : string;
  ins_target_hours : Q;
  ins_reminder_enabled : bool;
  ins_reminder_time : string;
  ins_onboarding_completed : bool
}.

(** [Partial<DbUserSettings>] as built by [updateSettings]. *)
Record SettingsPatch : Type := mkSettingsPatch {
  set_target_hours : option Q;
  set_reminder_enabled : option bool;
  set_reminder_time : option string;
  set_onboarding_completed : option bool;
  set_updated_at : option string
}.

(** The Supabase queries on [user_settings], each with its response. *)
Record Supabase : Type := mkSupabase {
  selectSingle : string -> PgResponse DbUserSettings;
  insertSingle : SettingsInsert -> PgResponse DbUserSettings;
  updateSingle : string -> SettingsPatch -> PgResponse DbUserSettings
}.

Inductive DbRequest : Type :=
| Select (user_id : string)
| Insert (row : SettingsInsert)
| Update (user_id : string) (patch : SettingsPatch).

Definition toUserSettings (db : DbUserSettings) : UserSettings :=
  mkUserSettings (row_id db) (user_id db) (target_hours db)
                 (reminder_enabled db) (reminder_time db)
                 (onboarding_completed db) (created_at db) (updated_at db).

Module DEFAULT_SETTINGS.
Definition targetHours : Q := 8.
Definition reminderEnabled : bool := false.
Definition reminderTime : string := "22:00".
Definition onboardingCompleted : bool := false.
End DEFAULT_SETTINGS.

(** The hook's React state, together with the requests sent to the
    database and the notification trace. *)
Record State : Type := mkState {
  settings : option UserSettings;
  loading : bool;
  errorMsg : option string;
  requests : list DbRequest;
  notifications : list Notifications.Event
}.

Definition setSettings (v : option UserSettings) : Hook State unit :=
  modify (fun s => mkState v (loading s) (errorMsg s) (requests s) (notifications s)).

Definition setLoading (b : bool) : Hook State unit :=
  modify (fun s => mkState (settings s) b (errorMsg s) (requests s) (notifications s)).

Definition setError (e : option string) : Hook State unit :=
  modify (fun s => mkState (settings s) (loading s) e (requests s) (notifications s)).

Definition request (r : DbRequest) : Hook State unit :=
  modify (fun s => mkState (settings s) (loading s) (errorMsg s)
                           (requests s ++ [r]) (notifications s)).

(** A call into the notification service, run on the notification trace. *)
Definition notify {A} (m : Hook (list Notifications.Event) A) : Hook State A :=
  fun s => match m (notifications s) with
           | (r, trace) =>
               (r, mkState (settings s) (loading s) (errorMsg s) (requests s) trace)
           end.

Section WithCollaborators.
Variable supabase : Supabase.
Variable os : Notifications.Os.
Variable user : option Auth.User.
Open Scope hook_scope.

Definition createDefaultSettings : Hook State (option UserSettings) :=
  match user with
  | None => ret None
  | Some u =>
      tryCatch
        (let row := mkSettingsInsert (Auth.id u)
                                     DEFAULT_SETTINGS.targetHours
                                     DEFAULT_SETTINGS.reminderEnabled
                                     DEFAULT_SETTINGS.reminderTime
                                     DEFAULT_SETTINGS.onboardingCompleted in
         request (Insert row) ;;
         data <- unwrap (insertSingle supabase row) ;;
         match data with
         | Some d => ret (Some (toUserSettings d))
         | None => throw typeError
         end)
        (fun e => ret None)
  end.

Definition fetchSettings : Hook State unit :=
  match user with
  | None => setSettings None ;; setLoading false
  | Some u =>
      tryFinally
        (tryCatch
           (setLoading true ;;
            setError None ;;
            request (Select (Auth.id u)) ;;
            let r := selectSingle supabase (Auth.id u) in
            match error r with
            | Some fetchError =>
                if String.eqb (code fetchError) "PGRST116"
                then (newSettings <- createDefaultSettings ;;
                      setSettings newSettings)
                else throw fetchError
            | None =>
                match data r with
                | Some d => setSettings (Some (toUserSettings d))
                | None => throw typeError
                end
            end)
           (fun e => setError (Some "Failed to load settings"%string)))
        (setLoading false)
  end.

(** [nowIso] is [new Date().toISOString()] at the time of the call. *)
Definition updateSettings (nowIso : string) (updates : UpdateSettingsInput)
  : Hook State bool :=
  s <- getState ;;
  match user, settings s with
  | Some u, Some _ =>
      tryCatch
        (let dbUpdates :=
           mkSettingsPatch (in_targetHours updates)
                           (in_reminderEnabled updates)
                           (in_reminderTime updates)
                           (in_onboardingCompleted updates)
                           (Some nowIso) in
         request (Update (Auth.id u) dbUpdates) ;;
         data <- unwrap (updateSingle supabase (Auth.id u) dbUpdates) ;;
         match data with
         | None => throw typeError
         | Some d =>
             let updatedSettings := toUserSettings d in
             setSettings (Some updatedSettings) ;;
             (if reminderEnabled updatedSettings
              then (notify (Notifications.scheduleBedtimeReminder
                              os
                              (reminderTime updatedSettings)
                              (targetHours updatedSettings)) ;;
                    ret tt)
              else notify (Notifications.cancelBedtimeReminder os)) ;;
             ret true
         end)
        (fun e => setError (Some "Failed to update settings"%string) ;;
                  ret false)
  | _, _ => ret false
  end.

Definition completeOnboarding (nowIso : string) (targetHours : Q)
           (reminderEnabled : bool) (reminderTime : string) : Hook State bool :=
  updateSettings nowIso
    (mkUpdateSettingsInput (Some targetHours) (Some reminderEnabled)
                           (Some reminderTime) (Some true)).

End WithCollaborators.

Definition needsOnboarding (s : State) : bool :=
  match settings s with
  | Some v => negb (onboardingCompleted v)
  | None => false
  end.

End Settings.

(** ** Vocabulary of the statements *)

(** A duration given in milliseconds, in hours. *)
Definition hoursOfMs (ms : Z) : Q := (inject_Z ms / inject_Z 3600000)%Q.

(** [r] is [x] rounded to one decimal place: a whole number of tenths, the
    nearest to [x], a tie going to the greater one. *)
Definition roundedToOneDecimal (x r : Q) : Prop :=
  exists n : Z,
    (r == inject_Z n / 10)%Q /\
    (inject_Z n - (1 # 2) <= x * 10)%Q /\ (x * 10 < inject_Z n + (1 # 2))%Q.

(** The fractional part of a number. *)
Definition fractionalPart (x : Q) : Q := (x - inject_Z (Qfloor x))%Q.

(** [a] may stand before [b] in the snapshot: its bedtime is not earlier. *)
Definition notEarlier (a b : SleepEntry) : Prop :=
  Js.getTime (bedtime b) <= Js.getTime (bedtime a).

(** The snapshot is sorted by bedtime, most recent first. *)
Definition sortedByBedtimeDesc (l : list SleepEntry) : Prop := Sorted notEarlier l.

(** The local calendar day on which an entry's bedtime falls. *)
Definition bedtimeDay (zone : Js.Zone) (e : SleepEntry) : Z :=
  Js.localDay zone (bedtime e).

(** The sum of the durations of [l]: the durations added to 0 one after the
    other, in the order of the list, in double arithmetic. *)
Definition total (l : list SleepEntry) : Q :=
  fold_left (fun sum e => Js.add sum (duration e)) l 0%Q.

(** The sum of the durations of the entries whose bedtime falls on [day]. *)
Definition dayTotal (zone : Js.Zone) (entries : list SleepEntry) (day : Z) : Q :=
  total (filter (fun e => bedtimeDay zone e =? day) entries).

(** The seven calendar days ending today, oldest first. *)
Definition weekDays (zone : Js.Zone) (now : Js.Date) : list Z :=
  let today := Js.localDay zone now in
  [today - 6; today - 5; today - 4; today - 3; today - 2; today - 1; today - 0].

(** The short English name of a day, day 0 being a Thursday. *)
Definition weekdayName (day : Z) : string :=
  match (day + 4) mod 7 with
  | 0 => "Sun" | 1 => "Mon" | 2 => "Tue" | 3 => "Wed"
  | 4 => "Thu" | 5 => "Fri" | _ => "Sat"
  end%string.

(** The entry [e] is put in the bucket filled for the date [i] days before
    [now]: its bedtime lies between the instant read 00:00:00.000 and the
    instant read 23:59:59.999 on that date. *)
Definition inBucket (zone : Js.Zone) (now : Js.Date) (i : Z) (e : SleepEntry) : bool :=
  let date := Js.setDate_minus zone now i in
  Js.date_ge (bedtime e) (Js.setHours zone date 0 0 0 0)
  && Js.date_le (bedtime e) (Js.setHours zone date 23 59 59 999).

(** The entries of that bucket, in the order of the snapshot. *)
Definition bucket (zone : Js.Zone) (now : Js.Date) (entries : list SleepEntry)
           (i : Z) : list SleepEntry :=
  filter (inBucket zone now i) entries.

(** The loop counter of [getWeeklyStats], from six days ago to today. *)
Definition daysBack : list Z := [6; 5; 4; 3; 2; 1; 0].

(** The calendar day [day] is whole on the clock of [zone]: the instants
    from the one read 00:00:00.000 on that day to the one read 23:59:59.999
    are exactly the instants of the day.  It may last 23 or 25 hours; it is
    not whole when the clock is changed at midnight. *)
Definition wholeDay (zone : Js.Zone) (day : Z) : Prop :=
  forall t : Js.Date,
    Js.localDay zone t = day <->
    Js.getTime (Js.ofLocal zone day 0) <= Js.getTime t
    <= Js.getTime (Js.ofLocal zone day (Js.msPerDay - 1)).

(** Going back [i] days from [now], at the same wall-clock time, lands on
    the calendar day [i] days before today: that wall-clock time is not
    skipped into another day. *)
Definition landsOnDay (zone : Js.Zone) (now : Js.Date) (i : Z) : Prop :=
  Js.localDay zone (Js.setDate_minus zone now i) = Js.localDay zone now - i.

(** No clock change touches the midnights of the seven days ending today. *)
Definition wholeWeek (zone : Js.Zone) (now : Js.Date) : Prop :=
  forall i, 0 <= i <= 6 ->
            landsOnDay zone now i /\ wholeDay zone (Js.localDay zone now - i).

(** The mean of [l] as the code computes it: the numbers added to 0 one
    after the other, the sum divided by their count, in double arithmetic. *)
Definition mean (l : list Q) : Q :=
  Js.div (fold_left Js.add l 0%Q) (inject_Z (Z.of_nat (List.length l))).

Definition isPositive (d : Q) : bool := negb (Qle_bool d 0).

Definition isNonzero (d : Q) : bool := negb (Qeq_bool d 0).

(** The average of the counted day totals, 0 when none is counted. *)
Definition averageOf (counted : list Q) : Q :=
  match counted with
  | [] => 0%Q
  | _ :: _ => mean counted
  end.

(** [r] is [x] rounded to one decimal place the way [Math.round(x * 10) / 10]
    does it: a whole number [n] of tenths, [n] being the integer nearest to
    the double [x * 10], a tie going to the greater one. *)
Definition roundedTenths (x r : Q) : Prop :=
  exists n : Z,
    (r == inject_Z n / 10)%Q /\
    (inject_Z n - (1 # 2) <= Js.mul x 10)%Q /\ (Js.mul x 10 < inject_Z n + (1 # 2))%Q.

(** The row the database returns carries the fields that were inserted. *)
Definition storedAs (p : Settings.SettingsInsert) (row : Settings.DbUserSettings) : Prop :=
  Settings.user_id row = Settings.ins_user_id p /\
  (Settings.target_hours row == Settings.ins_target_hours p)%Q /\
  Settings.reminder_enabled row = Settings.ins_reminder_enabled p /\
  Settings.reminder_time row = Settings.ins_reminder_time p /\
  Settings.onboarding_completed row = Settings.ins_onboarding_completed p.

(** The select of the user's settings answers with the error [e], whose
    code says that no row exists. *)
Definition noSettingsRow (supabase : Settings.Supabase) (u : Auth.User)
           (e : JsError) : Prop :=
  error (Settings.selectSingle supabase (Auth.id u)) = Some e /\
  code e = "PGRST116"%string.

(** The row [createDefaultSettings] inserts for a user. *)
Definition defaultRow (u : Auth.User) : Settings.SettingsInsert :=
  Settings.mkSettingsInsert (Auth.id u) 8 false "22:00" false.

(** The hour and minute the OS is given for a reminder time. *)
Definition reminderHour (reminderTime : string) : option Z :=
  Notifications.element
    (map Notifications.Number (Notifications.split ":" reminderTime)) 0.

Definition reminderMinute (reminderTime : string) : option Z :=
  Notifications.element
    (map Notifications.Number (Notifications.split ":" reminderTime)) 1.

(** What a successful update asks of the notification service, given the
    merged record. *)
Definition reminderEvents (merged : Settings.UserSettings) : list Notifications.Event :=
  if Settings.reminderEnabled merged
  then [Notifications.CallScheduleBedtimeReminder
          (Settings.reminderTime merged) (Settings.targetHours merged);
        Notifications.CallCancelBedtimeReminder;
        Notifications.OsCancelAllScheduled;
        Notifications.OsScheduleDaily
          (reminderHour (Settings.reminderTime merged))
          (reminderMinute (Settings.reminderTime merged))
          (Settings.targetHours merged)]
  else [Notifications.CallCancelBedtimeReminder;
        Notifications.OsCancelAllScheduled].

(** ** Concrete collaborators and data used in the examples *)

Module Scenario.

(** A device storage holding [stored] on which every operation succeeds. *)
Definition workingStorage (stored : option (list SleepEntry)) : Local.AsyncStorage :=
  Local.mkAsyncStorage (Return stored) (fun _ => Return tt) (Return tt).

(** A device storage that rejects every write with [e]. *)
Definition readOnlyStorage (e : JsError) : Local.AsyncStorage :=
  Local.mkAsyncStorage (Return None) (fun _ => Throw e) (Return tt).

Definition quotaExceeded : JsError := mkJsError "QUOTA" "Quota exceeded".

(** The hook's state at mount. *)
Definition mounted : StorageState := mkStorageState [] true None.

(** Day 100 at 22:00 to day 101 at 06:00 (UTC). *)
Definition lastNight : SleepEntry :=
  mkSleepEntry "a" (Js.mkDate 8719200000) (Js.mkDate 8748000000) 8 None None.

(** Day 99 at 22:00 and day 100 at 07:00 (UTC). *)
Definition nightBeforeBed : Js.Date := Js.mkDate 8632800000.
Definition nightBeforeWake : Js.Date := Js.mkDate 8665200000.

(** Day 100 at 23:00 (UTC), and a wake time two days before the bedtime
    of [lastNight]. *)
Definition lateEvening : Js.Date := Js.mkDate 8722800000.
Definition twoDaysBefore : Js.Date := Js.mkDate 8546400000.

Definition someUser : Auth.User := Auth.mkUser "u1".

(** A database on which deletes succeed, whatever they match; the other
    queries answer without data. *)
Definition quietSupabase : Remote.Supabase :=
  Remote.mkSupabase (fun _ => mkPgResponse None None)
                    (fun _ => mkPgResponse None None)
                    (fun _ _ _ => mkPgResponse None None)
                    (fun _ _ => mkPgResponse None None)
                    (fun _ => mkPgResponse None None).

(** A database that rejects every insert with [e]. *)
Definition rejectingSupabase (e : JsError) : Remote.Supabase :=
  Remote.mkSupabase (fun _ => mkPgResponse None None)
                    (fun _ => mkPgResponse None (Some e))
                    (fun _ _ _ => mkPgResponse None None)
                    (fun _ _ => mkPgResponse None None)
                    (fun _ => mkPgResponse None None).

(** A [user_settings] table.  [stored] is the user's row, if any: a select
    without a row answers with the code PGRST116; an insert stores the
    given fields; an update merges the given fields into the row. *)
Definition noRows : JsError :=
  mkJsError "PGRST116" "JSON object requested, multiple (or no) rows returned".

(** A [user_settings] table without a row that rejects every insert. *)
Definition permissionDenied : JsError := mkJsError "42501" "permission denied".

Definition closedSettingsTable : Settings.Supabase :=
  Settings.mkSupabase
    (fun _ => mkPgResponse None (Some noRows))
    (fun _ => mkPgResponse None (Some permissionDenied))
    (fun _ _ => mkPgResponse None None).

Definition insertedRow (p : Settings.SettingsInsert) : Settings.DbUserSettings :=
  Settings.mkDbUserSettings
    "s1" (Settings.ins_user_id p) (Settings.ins_target_hours p)
    (Settings.ins_reminder_enabled p) (Settings.ins_reminder_time p)
    (Settings.ins_onboarding_completed p) "t0" "t0".

Definition orElse {A} (o : option A) (d : A) : A :=
  match o with Some v => v | None => d end.

Definition mergedRow (row : Settings.DbUserSettings) (p : Settings.SettingsPatch)
  : Settings.DbUserSettings :=
  Settings.mkDbUserSettings
    (Settings.row_id row) (Settings.user_id row)
    (orElse (Settings.set_target_hours p) (Settings.target_hours row))
    (orElse (Settings.set_reminder_enabled p) (Settings.reminder_enabled row))
    (orElse (Settings.set_reminder_time p) (Settings.reminder_time row))
    (orElse (Settings.set_onboarding_completed p) (Settings.onboarding_completed row))
    (Settings.created_at row)
    (orElse (Settings.set_updated_at p) (Settings.updated_at row)).

Definition settingsTable (stored : option Settings.DbUserSettings) : Settings.Supabase :=
  Settings.mkSupabase
    (fun _ => match stored with
              | Some row => mkPgResponse (Some row) None
              | None => mkPgResponse None (Some noRows)
              end)
    (fun p => mkPgResponse (Some (insertedRow p)) None)
    (fun _ p => match stored with
                | Some row => mkPgResponse (Some (mergedRow row p)) None
                | None => mkPgResponse None (Some noRows)
                end).

(** An OS notification service that works, and one on which every request
    throws. *)
Definition workingOs : Notifications.Os :=
  Notifications.mkOs (Return tt) (fun _ _ _ => Return "n1"%string).

Definition brokenOs : Notifications.Os :=
  Notifications.mkOs (Throw (mkJsError "E" "unavailable"))
                     (fun _ _ _ => Throw (mkJsError "E" "unavailable")).

(** The settings hook at mount, and once the default record is loaded. *)
Definition settingsMounted : Settings.State :=
  Settings.mkState None true None [] [].

Definition defaultsLoaded : Settings.State :=
  snd (Settings.fetchSettings (settingsTable None) (Some someUser) settingsMounted).

Definition enableReminderAtSeven : Settings.UpdateSettingsInput :=
  Settings.mkUpdateSettingsInput None (Some true) (Some "07:00"%string) None.

(** The table once the default row of [someUser] is stored. *)
Definition tableWithDefaults : Settings.Supabase :=
  settingsTable (Some (insertedRow (defaultRow someUser))).

End Scenario.

(** ** The rest of the hooks and the screens *)

Module RemoteEffects.

(** The effect [useEffect(() => { if (user) loadEntries(); else {
    setEntries([]); setLoading(false); } }, [user])] of the Supabase
    variant, run when the user changes. *)
Definition onUserChange (supabase : Remote.Supabase) (user : option Auth.User)
  : Hook StorageState unit :=
  match user with
  | Some _ => Remote.loadEntries supabase user
  | None => bind (setEntries (fun _ => [])) (fun _ => setLoading false)
  end.

End RemoteEffects.

(** ** More of the JavaScript library *)

Module JsLib.

(** [a < b], [a >= b] and [a <= b] on numbers. *)
Definition lt (a b : Q) : bool :=
  match Qcompare a b with Lt => true | _ => false end.

Definition ge (a b : Q) : bool := negb (lt a b).

Definition le (a b : Q) : bool := negb (Js.gt a b).

(** The character class [\d]. *)
Definition isDigit (c : ascii) : bool :=
  let n := nat_of_ascii c in ((48 <=? n) && (n <=? 57))%nat.

(** The longest prefix of [s] whose characters satisfy [p], and the rest. *)
Fixpoint span (p : ascii -> bool) (s : string) : string * string :=
  match s with
  | String c s' =>
      if p c then let (run, rest) := span p s' in (String c run, rest)
      else (EmptyString, s)
  | EmptyString => (EmptyString, EmptyString)
  end.

Fixpoint repeatChar (n : nat) (c : ascii) : string :=
  match n with
  | O => EmptyString
  | S n' => String c (repeatChar n' c)
  end.

(** [s.padStart(targetLength, fill)] for a one-character [fill]. *)
Definition padStart (targetLength : nat) (fill : ascii) (s : string) : string :=
  (repeatChar (targetLength - String.length s) fill ++ s)%string.

(** [s.toUpperCase()], for the ASCII letters. *)
Definition upperChar (c : ascii) : ascii :=
  let n := nat_of_ascii c in
  if ((97 <=? n) && (n <=? 122))%nat then ascii_of_nat (n - 32) else c.

Fixpoint toUpperCase (s : string) : string :=
  match s with
  | String c s' => String (upperChar c) (toUpperCase s')
  | EmptyString => EmptyString
  end.

(** [parseInt(s)] for a string that starts with decimal digits: the value of
    its leading digits. *)
Fixpoint leadingDigits (acc : Z) (s : string) : Z :=
  match s with
  | String c s' =>
      if isDigit c then leadingDigits (acc * 10 + (Z.of_nat (nat_of_ascii c) - 48)) s'
      else acc
  | EmptyString => acc
  end.

Definition parseInt (s : string) : Z := leadingDigits 0 s.

(** [arr.indexOf(x)] on an array of numbers (strict equality): the first
    index holding [x], or -1. *)
Fixpoint indexOfFrom (l : list Q) (x : Q) (i : Z) : Z :=
  match l with
  | [] => -1
  | y :: l' => if Qeq_bool y x then i else indexOfFrom l' x (i + 1)
  end.

Definition indexOf (l : list Q) (x : Q) : Z := indexOfFrom l x 0.

(** [arr[i]]: [None] is [undefined]. *)
Definition at_ (l : list Q) (i : Z) : option Q :=
  if i <? 0 then None else nth_error l (Z.to_nat i).

(** [date.getHours()] and [date.getMinutes()], in local time. *)
Definition getHours (zone : Js.Zone) (d : Js.Date) : Z :=
  Js.timeWithinDay zone d / 3600000.

Definition getMinutes (zone : Js.Zone) (d : Js.Date) : Z :=
  (Js.timeWithinDay zone d mod 3600000) / 60000.

End JsLib.

(** ** Reminder times ([services/notifications.ts]) *)

Module ReminderFormat.

(** [formatReminderTime]: "22:00" to "10:00 PM".  A time without a colon
    makes [minutes] undefined, and [minutes.toString()] throws; a part that
    is not a number prints as [NaN] (and an hour that is not a number counts
    as 12 AM).  Parts are read by [Notifications.Number]. *)
Definition formatReminderTime (time : string) : Outcome string :=
  let parts := map Notifications.Number (Notifications.split ":" time) in
  let hours := Notifications.element parts 0 in
  let period :=
    match hours with
    | Some h => if 12 <=? h then "PM"%string else "AM"%string
    | None => "AM"%string
    end in
  let displayHours :=
    match hours with
    | Some h => if Z.rem h 12 =? 0 then 12 else Z.rem h 12
    | None => 12
    end in
  match nth_error parts 1 with
  | None => Throw typeError
  | Some minutes =>
      let minutesText :=
        match minutes with
        | Some m => Js.showZ m
        | None => "NaN"%string
        end in
      Return (Js.showZ displayHours ++ ":" ++ JsLib.padStart 2 "0" minutesText
              ++ " " ++ period)%string
  end.

(** One attempt of the regular expression [/(\d+):(\d+)\s*(AM|PM)/i] at the
    start of [s]: the three groups.  Each run is taken as long as possible;
    a shorter run cannot lead to a match, since the character after a
    shorter run of digits is a digit (neither a colon, a blank nor a
    letter) and the character after a shorter run of blanks is a blank. *)
Definition matchHere (s : string) : option (string * string * string) :=
  let (hours, afterHours) := JsLib.span JsLib.isDigit s in
  match hours, afterHours with
  | String _ _, String ":" afterColon =>
      let (minutes, afterMinutes) := JsLib.span JsLib.isDigit afterColon in
      match minutes with
      | String _ _ =>
          let (_, afterBlanks) := JsLib.span Js.isSpace afterMinutes in
          match afterBlanks with
          | String a (String m _) =>
              let period := String a (String m EmptyString) in
              if String.eqb (JsLib.toUpperCase period) "AM"
                 || String.eqb (JsLib.toUpperCase period) "PM"
              then Some (hours, minutes, period)
              else None
          | _ => None
          end
      | EmptyString => None
      end
  | _, _ => None
  end.

(** [displayTime.match(...)]: the first position at which the expression
    matches. *)
Fixpoint firstMatch (s : string) : option (string * string * string) :=
  match matchHere s with
  | Some groups => Some groups
  | None =>
      match s with
      | String _ s' => firstMatch s'
      | EmptyString => None
      end
  end.

(** [parseDisplayTime]: "10:00 PM" to "22:00"; "22:00" when the text does
    not match. *)
Definition parseDisplayTime (displayTime : string) : string :=
  match firstMatch displayTime with
  | None => "22:00"%string
  | Some (h, minutes, p) =>
      let hours := JsLib.parseInt h in
      let period := JsLib.toUpperCase p in
      let hours :=
        if String.eqb period "PM" && negb (hours =? 12) then hours + 12 else hours in
      let hours :=
        if String.eqb period "AM" && (hours =? 12) then 0 else hours in
      (JsLib.padStart 2 "0" (Js.showZ hours) ++ ":" ++ minutes)%string
  end.

End ReminderFormat.

(** ** Notification permissions ([services/notifications.ts]) *)

Module Permissions.

(** The permission API of the OS and the platform; each request resolves
    (with a status, for the first two) or throws. *)
Record Api : Type := mkApi {
  getPermissionsAsync : Outcome string;
  requestPermissionsAsync : Outcome string;
  platformOS : string;
  setNotificationChannelAsync : string -> Outcome unit
}.

Inductive Event : Type :=
| GetPermissions
| RequestPermissions
| SetNotificationChannel (name : string).

Definition emit (e : Event) : Hook (list Event) unit :=
  modify (fun trace => trace ++ [e]).

Definition requestNotificationPermissions (api : Api) : Hook (list Event) bool :=
  bind (emit GetPermissions) (fun _ =>
  bind (await (getPermissionsAsync api)) (fun existingStatus =>
  bind (if String.eqb existingStatus "granted" then ret existingStatus
        else bind (emit RequestPermissions) (fun _ =>
             await (requestPermissionsAsync api))) (fun finalStatus =>
  if negb (String.eqb finalStatus "granted") then ret false
  else
    bind (if String.eqb (platformOS api) "android"
          then bind (emit (SetNotificationChannel "bedtime-reminders")) (fun _ =>
               await (setNotificationChannelAsync api "bedtime-reminders"))
          else ret tt) (fun _ =>
    ret true)))).

End Permissions.

(** ** The screens *)

(** The state of the add and detail screens that their handlers touch, with
    the state of the storage hook they use. *)
Record ScreenState : Type := mkScreenState {
  hook : StorageState;
  isSaving : bool;
  isEditing : bool;
  alerts : list (string * string);
  wentBack : bool
}.

Module Screen.

Definition setIsSaving (b : bool) : Hook ScreenState unit :=
  modify (fun s => mkScreenState (hook s) b (isEditing s) (alerts s) (wentBack s)).

Definition setIsEditing (b : bool) : Hook ScreenState unit :=
  modify (fun s => mkScreenState (hook s) (isSaving s) b (alerts s) (wentBack s)).

(** [Alert.alert(title, message)]. *)
Definition alert (title message : string) : Hook ScreenState unit :=
  modify (fun s => mkScreenState (hook s) (isSaving s) (isEditing s)
                                 (alerts s ++ [(title, message)]) (wentBack s)).

(** [router.back()]. *)
Definition routerBack : Hook ScreenState unit :=
  modify (fun s => mkScreenState (hook s) (isSaving s) (isEditing s) (alerts s) true).

(** A call of a function of the storage hook. *)
Definition onHook {A} (m : Hook StorageState A) : Hook ScreenState A :=
  fun s => match m (hook s) with
           | (r, h) => (r, mkScreenState h (isSaving s) (isEditing s) (alerts s) (wentBack s))
           end.

End Screen.

(** The add screen ([app/sleep/add.tsx]). *)
Module AddScreen.

Section WithHook.
Variable addEntry :
  Js.Date -> Js.Date -> option string -> option Z -> Hook StorageState SleepEntry.
Open Scope hook_scope.

Definition handleSave (bedtime wakeTime : Js.Date) (note : string) (quality : Z)
  : Hook ScreenState unit :=
  let duration := Remote.calculateDuration bedtime wakeTime in
  if JsLib.lt duration (1 # 2) then
    Screen.alert "Invalid Duration"
      "Sleep duration should be at least 30 minutes. Please check your times."
  else if Js.gt duration 24 then
    Screen.alert "Invalid Duration"
      "Sleep duration cannot exceed 24 hours. Please check your times."
  else
    tryFinally
      (tryCatch
         (Screen.setIsSaving true ;;
          _ <- Screen.onHook (addEntry bedtime wakeTime (Some note) (Some quality)) ;;
          Screen.routerBack)
         (fun _ => Screen.alert "Error" "Failed to save sleep entry. Please try again."))
      (Screen.setIsSaving false).

End WithHook.
End AddScreen.

(** The detail screen (sleep/[id]). *)
Module DetailScreen.

Section WithHook.
Variable updateEntry :
  string -> Js.Date -> Js.Date -> option string -> Hook StorageState (option SleepEntry).
Open Scope hook_scope.

(** [entryId] is the route parameter [id]; absent or empty, it is falsy. *)
Definition handleSave (entryId : option string) (bedtime wakeTime : Js.Date)
           (note : string) : Hook ScreenState unit :=
  match entryId with
  | None | Some EmptyString => ret tt
  | Some eid =>
      let duration := Remote.calculateDuration bedtime wakeTime in
      if JsLib.lt duration (1 # 2) || Js.gt duration 24 then
        Screen.alert "Invalid Duration"
          "Sleep duration should be between 30 minutes and 24 hours."
      else
        tryFinally
          (tryCatch
             (Screen.setIsSaving true ;;
              _ <- Screen.onHook (updateEntry eid bedtime wakeTime (Some note)) ;;
              Screen.setIsEditing false ;;
              Screen.alert "Success" "Sleep entry updated successfully.")
             (fun _ => Screen.alert "Error"
                         "Failed to update sleep entry. Please try again."))
          (Screen.setIsSaving false)
  end.

End WithHook.
End DetailScreen.

(** The statistics screen. *)
Module StatsScreen.

Record Quality : Type := mkQuality { label : string; color : string; icon : string }.

Definition getSleepQuality (avg : Q) : Quality :=
  if JsLib.ge avg 7 && JsLib.le avg 9 then mkQuality "Excellent" "#4CAF50" "happy"
  else if JsLib.ge avg 6 && JsLib.lt avg 7 then mkQuality "Good" "#8B85FF" "happy-outline"
  else if JsLib.ge avg 5 && JsLib.lt avg 6 then mkQuality "Fair" "#FFC107" "sad-outline"
  else mkQuality "Poor" "#FF5252" "sad".

End StatsScreen.

(** The settings screen. *)
Module SettingsScreen.

Definition HOUR_OPTIONS : list Q :=
  [5; 11 # 2; 6; 13 # 2; 7; 15 # 2; 8; 17 # 2; 9; 19 # 2; 10]%Q.

Section WithHook.
Variable supabase : Settings.Supabase.
Variable os : Notifications.Os.
Variable user : option Auth.User.
Open Scope hook_scope.

Definition handleTargetHoursChange (nowIso : string) (increment : Z)
  : Hook Settings.State unit :=
  s <- getState ;;
  match Settings.settings s with
  | None => ret tt
  | Some settings =>
      let currentIndex := JsLib.indexOf HOUR_OPTIONS (Settings.targetHours settings) in
      let newIndex := currentIndex + increment in
      if (0 <=? newIndex) && (newIndex <? Z.of_nat (List.length HOUR_OPTIONS)) then
        _ <- Settings.updateSettings
               supabase os user nowIso
               (Settings.mkUpdateSettingsInput (JsLib.at_ HOUR_OPTIONS newIndex)
                                               None None None) ;;
        ret tt
      else ret tt
  end.

Definition handleReminderToggle (nowIso : string) (enabled : bool)
  : Hook Settings.State unit :=
  _ <- Settings.updateSettings
         supabase os user nowIso
         (Settings.mkUpdateSettingsInput None (Some enabled) None None) ;;
  ret tt.

End WithHook.

(** [parseTimeToDate]: today at the given time; [None] is an invalid date (a
    part that is missing or not a number). *)
Definition parseTimeToDate (zone : Js.Zone) (now : Js.Date) (time : string)
  : option Js.Date :=
  let parts := map Notifications.Number (Notifications.split ":" time) in
  match Notifications.element parts 0, Notifications.element parts 1 with
  | Some hours, Some minutes => Some (Js.setHours zone now hours minutes 0 0)
  | _, _ => None
  end.

End SettingsScreen.

(** The onboarding dialog. *)
Module Onboarding.

Definition HOUR_OPTIONS : list Q :=
  [5; 11 # 2; 6; 13 # 2; 7; 15 # 2; 8; 17 # 2; 9; 19 # 2; 10]%Q.

(** [formatTimeFor24h]: the local hour and minute, two digits each. *)
Definition formatTimeFor24h (zone : Js.Zone) (date : Js.Date) : string :=
  let hours := JsLib.padStart 2 "0" (Js.showZ (JsLib.getHours zone date)) in
  let minutes := JsLib.padStart 2 "0" (Js.showZ (JsLib.getMinutes zone date)) in
  (hours ++ ":" ++ minutes)%string.

(** [decreaseHours] and [increaseHours], as functions of the state
    [targetHours]; [setTargetHours(undefined)] cannot happen, the index being
    checked. *)
Definition decreaseHours (targetHours : Q) : Q :=
  let currentIndex := JsLib.indexOf HOUR_OPTIONS targetHours in
  if 0 <? currentIndex then
    match JsLib.at_ HOUR_OPTIONS (currentIndex - 1) with
    | Some v => v
    | None => targetHours
    end
  else targetHours.

Definition increaseHours (targetHours : Q) : Q :=
  let currentIndex := JsLib.indexOf HOUR_OPTIONS targetHours in
  if currentIndex <? Z.of_nat (List.length HOUR_OPTIONS) - 1 then
    match JsLib.at_ HOUR_OPTIONS (currentIndex + 1) with
    | Some v => v
    | None => targetHours
    end
  else targetHours.

(** The dialog's state that [handleComplete] touches, the permission trace
    and the calls of [onComplete]. *)
Record State : Type := mkState {
  isLoading : bool;
  permissionTrace : list Permissions.Event;
  completed : list (Q * bool * string)
}.

Definition setIsLoading (b : bool) : Hook State unit :=
  modify (fun s => mkState b (permissionTrace s) (completed s)).

Definition onComplete (targetHours : Q) (reminderEnabled : bool) (reminderTime : string)
  : Hook State unit :=
  modify (fun s => mkState (isLoading s) (permissionTrace s)
                           (completed s ++ [(targetHours, reminderEnabled, reminderTime)])).

Definition askPermissions (api : Permissions.Api) : Hook State bool :=
  fun s => match Permissions.requestNotificationPermissions api (permissionTrace s) with
           | (r, trace) => (r, mkState (isLoading s) trace (completed s))
           end.

Definition handleComplete (api : Permissions.Api) (zone : Js.Zone)
           (targetHours : Q) (reminderEnabled : bool) (reminderTime : Js.Date)
  : Hook State unit :=
  bind (setIsLoading true) (fun _ =>
  bind (if reminderEnabled
        then bind (askPermissions api) (fun _ => ret tt)
        else ret tt) (fun _ =>
  bind (onComplete targetHours reminderEnabled (formatTimeFor24h zone reminderTime))
       (fun _ =>
  setIsLoading false))).

End Onboarding.

(** The text "HH:MM" of an hour and a minute, two digits each. *)
Definition time24 (h m : Z) : string :=
  (JsLib.padStart 2 "0" (Js.showZ h) ++ ":" ++ JsLib.padStart 2 "0" (Js.showZ m))%string.

(** The text "H:MM AM" or "H:MM PM" of a 12-hour time. *)
Definition time12 (h m : Z) (pm : bool) : string :=
  (Js.showZ h ++ ":" ++ JsLib.padStart 2 "0" (Js.showZ m) ++ " "
   ++ (if pm then "PM" else "AM"))%string.

(** The 12-hour reading of an hour of the day. *)
Definition hour12 (h : Z) : Z := if h mod 12 =? 0 then 12 else h mod 12.

(** A number is one of the target-hour options. *)
Definition isHourOption (q : Q) : bool :=
  existsb (fun v => Qeq_bool v q) Onboarding.HOUR_OPTIONS.

(** A press on the plus ([true]) or minus ([false]) button of the dialog. *)
Definition pressHours (targetHours : Q) (plus : bool) : Q :=
  if plus then Onboarding.increaseHours targetHours
  else Onboarding.decreaseHours targetHours.

(** All pairs of an hour below [hours] and a minute below [minutes] pass
    the check. *)
Definition allTimes (hours minutes : nat) (check : Z -> Z -> bool) : bool :=
  forallb (fun h => forallb (fun m => check (Z.of_nat h) (Z.of_nat m)) (seq 0 minutes))
          (seq 0 hours).

(** The text of an outcome is the expected one. *)
Definition returnsText (o : Outcome string) (expected : string) : bool :=
  match o with
  | Return text => String.eqb text expected
  | Throw _ => false
  end.

(** The notification permission is granted in the end: it was already, or
    the user grants it when asked. *)
Definition permissionGranted (api : Permissions.Api) : Prop :=
  Permissions.getPermissionsAsync api = Return "granted"%string \/
  (exists status,
      Permissions.getPermissionsAsync api = Return status /\
      status <> "granted"%string /\
      Permissions.requestPermissionsAsync api = Return "granted"%string).

(** Every character of [s] satisfies [p]. *)
Fixpoint allChars (p : ascii -> bool) (s : string) : bool :=
  match s with
  | String c s' => p c && allChars p s'
  | EmptyString => true
  end.

(** The hour of the day of a 12-hour reading, as [parseDisplayTime] computes
    it: 12 AM is 0, 12 PM is 12, other PM hours are 12 more. *)
Definition hour24 (h : Z) (pm : bool) : Z :=
  if pm then (if h =? 12 then h else h + 12)
  else (if h =? 12 then 0 else h).

(** An entry has the id [eid]. *)
Definition hasId (eid : string) (e : SleepEntry) : bool := String.eqb (id e) eid.

(** The rows are in the order the select asks for: bedtime descending. *)
Definition rowsByBedtimeDesc (rows : list Remote.DbSleepEntry) : Prop :=
  Sorted (fun a b => Js.getTime (Remote.db_bedtime b) <= Js.getTime (Remote.db_bedtime a))
         rows.

(** The bedtime of an entry falls in the seven-day window ending today. *)
Definition inWindow (zone : Js.Zone) (now : Js.Date) (e : SleepEntry) : bool :=
  (Js.localDay zone now - 6 <=? bedtimeDay zone e)
  && (bedtimeDay zone e <=? Js.localDay zone now).

(** The text for a duration of [n] tenths of an hour: six minutes a tenth. *)
Definition tenthsText (n : Z) : string :=
  if n mod 10 =? 0 then (Js.showZ (n / 10) ++ "h")%string
  else (Js.showZ (n / 10) ++ "h " ++ Js.showZ (6 * (n mod 10)) ++ "m")%string.

(** ** Time zones used in the examples *)

Module Zones.

(** A zone with one clock change: the offset is [before] until the instant
    [change] and [after] from then on.  A wall-clock time that the change
    skips or repeats is read with the offset in force before the change, as
    ECMAScript prescribes ([LocalTZA(t, false)]); the wall-clock times up to
    the later of the two readings of the change are those read with
    [before]. *)
Definition oneChange (change before after : Z) : Js.Zone :=
  Js.mkZone
    (fun t => if t <? change then before else after)
    (fun clock => if clock <? change + Z.max before after then before else after).

(** The change is away from midnight: the wall-clock times it skips or
    repeats lie within one calendar day, at least the length of the change
    after its beginning and before its end (a change of an hour between
    01:00 and 23:00). *)
Definition awayFromMidnight (change before after : Z) : Prop :=
  exists day : Z,
    day * Js.msPerDay + Z.abs (after - before) <= change + Z.min before after /\
    change + Z.max before after + Z.abs (after - before) <= (day + 1) * Js.msPerDay.

(** America/New_York around 10 March 2024: at 07:00:00 UTC the clock goes
    from 02:00 (UTC-5) to 03:00 (UTC-4). *)
Definition springForward : Z := 1710054000000.

Definition newYork : Js.Zone :=
  oneChange springForward (- (5 * 3600000)) (- (4 * 3600000)).

(** Tuesday 12 March 2024 at 12:00 in New York (16:00 UTC). *)
Definition noonInNewYork : Js.Date := Js.mkDate 1710259200000.

(** Two nights in New York: to bed on Saturday 9 March at 23:30 (UTC-5) for
    six hours, across the change, and on Sunday 10 March at 22:00 (UTC-4)
    for eight hours. *)
Definition saturdayNight : SleepEntry :=
  mkSleepEntry "sat" (Js.mkDate 1710045000000) (Js.mkDate 1710066600000) 6 None None.

Definition sundayNight : SleepEntry :=
  mkSleepEntry "sun" (Js.mkDate 1710122400000) (Js.mkDate 1710151200000) 8 None None.

(** America/Santiago around 7 April 2019: at 03:00:00 UTC the clock goes
    back from 24:00 (UTC-3) to 23:00 (UTC-4) of Saturday 6 April.  The
    wall-clock times from 23:00 to 24:00 of that Saturday occur twice; they
    are read as their first occurrence. *)
Definition fallBack : Z := 1554606000000.

Definition santiago : Js.Zone :=
  oneChange fallBack (- (3 * 3600000)) (- (4 * 3600000)).

(** Tuesday 9 April 2019 at 12:00 in Santiago (16:00 UTC). *)
Definition noonInSantiago : Js.Date := Js.mkDate 1554825600000.

(** To bed on Saturday 6 April 2019 at 23:30, after the clock has gone back
    (03:30 UTC), for eight hours. *)
Definition longSaturdayNight : SleepEntry :=
  mkSleepEntry "sat" (Js.mkDate 1554607800000) (Js.mkDate 1554636600000) 8 None None.

(** America/Santiago around 8 September 2019: at 04:00:00 UTC the clock goes
    from 24:00 of Saturday 7 September (UTC-4) to 01:00 of the Sunday
    (UTC-3).  Here a wall-clock time is read as ECMAScript 5 prescribed
    ([UTC(t) = t - LocalTZA - DaylightSavingTA(t - LocalTZA)]): as standard
    time first, the summer hour being taken off when summer time is in force
    at the instant found. *)
Definition midnightForward : Z := 1567915200000.

Definition santiagoInSpring : Js.Zone :=
  Js.mkZone
    (fun t => if t <? midnightForward then - (4 * 3600000) else - (3 * 3600000))
    (fun clock => if clock + 4 * 3600000 <? midnightForward
                  then - (4 * 3600000) else - (3 * 3600000)).

(** Tuesday 10 September 2019 at 12:00 in Santiago (15:00 UTC). *)
Definition noonInSpring : Js.Date := Js.mkDate 1568127600000.

(** To bed on Saturday 7 September 2019 at 23:30 (03:30 UTC), for eight
    hours. *)
Definition lastWinterNight : SleepEntry :=
  mkSleepEntry "sat" (Js.mkDate 1567913400000) (Js.mkDate 1567942200000) 8 None None.

End Zones.

(** ** Collaborators used in the further examples *)

Module RemoteScenario.

(** The row of the night of [Scenario.lastNight], as the database holds it,
    and the row of the night before. *)
Definition lastNightRow : Remote.DbSleepEntry :=
  Remote.mkDbSleepEntry "a" "u1" (Js.mkDate 8719200000) (Js.mkDate 8748000000)
                        8 None None "t0".

Definition nightBeforeRow : Remote.DbSleepEntry :=
  Remote.mkDbSleepEntry "b" "u1" Scenario.nightBeforeBed Scenario.nightBeforeWake
                        9 None None "t0".

(** A database holding the two rows: the select returns them most recent
    first, an update answers with the row of the night before, deletes
    succeed. *)
Definition twoNights : Remote.Supabase :=
  Remote.mkSupabase
    (fun _ => mkPgResponse (Some [lastNightRow; nightBeforeRow]) None)
    (fun _ => mkPgResponse None None)
    (fun _ _ _ => mkPgResponse (Some nightBeforeRow) None)
    (fun _ _ => mkPgResponse None None)
    (fun _ => mkPgResponse None None).

(** The snapshot after loading [twoNights]. *)
Definition loaded : StorageState :=
  snd (Remote.loadEntries twoNights (Some Scenario.someUser) Scenario.mounted).

(** An Android device on which the permission is granted already. *)
Definition grantedAndroid : Permissions.Api :=
  Permissions.mkApi (Return "granted"%string) (Return "granted"%string)
                    "android" (fun _ => Return tt).

End RemoteScenario.

(** * Properties *)

(** ** Rounding *)

Lemma Qfloor_unique (x : Q) (n : Z) :
  (inject_Z n <= x)%Q -> (x < inject_Z (n + 1))%Q -> Qfloor x = n.
Proof.
  intros Hlo Hhi.
  assert (H1 : n <= Qfloor x).
  { rewrite <- (Qfloor_Z n). now apply Qfloor_resp_le. }
  assert (H2 : Qfloor x < n + 1).
  { rewrite Zlt_Qlt. eapply Qle_lt_trans; [apply Qfloor_le | exact Hhi]. }
  lia.
Qed.

Lemma Math_round_bounds (y : Q) :
  (inject_Z (Js.Math_round y) - (1 # 2) <= y)%Q /\
  (y < inject_Z (Js.Math_round y) + (1 # 2))%Q.
Proof.
  unfold Js.Math_round.
  pose proof (Qfloor_le (y + (1 # 2))) as Hlo.
  pose proof (Qlt_floor (y + (1 # 2))) as Hhi.
  rewrite inject_Z_plus in Hhi.
  split.
  - apply (Qplus_le_l _ _ (1 # 2)). ring_simplify. ring_simplify in Hlo. exact Hlo.
  - apply (Qplus_lt_l _ _ (1 # 2)).
    eapply Qlt_le_trans; [exact Hhi |].
    setoid_replace (inject_Z (Qfloor (y + (1 # 2))) + (1 # 2) + (1 # 2))%Q
      with (inject_Z (Qfloor (y + (1 # 2))) + inject_Z 1)%Q by ring.
    apply Qle_refl.
Qed.

Lemma Math_round_nonneg (y : Q) : (0 <= y)%Q -> 0 <= Js.Math_round y.
Proof.
  intros Hy. unfold Js.Math_round.
  change 0 with (Qfloor 0). apply Qfloor_resp_le.
  apply Qle_trans with y; [exact Hy |].
  rewrite <- (Qplus_0_r y) at 1. apply Qplus_le_r. discriminate.
Qed.

Lemma round_tenths_spec (x : Q) :
  roundedToOneDecimal x (inject_Z (Js.Math_round (x * 10)) / 10)%Q.
Proof.
  exists (Js.Math_round (x * 10)). split; [reflexivity |].
  apply Math_round_bounds.
Qed.

Lemma hoursOfMs_nonneg (ms : Z) : 0 <= ms -> (0 <= hoursOfMs ms * 10)%Q.
Proof.
  intros H. unfold hoursOfMs.
  apply Qmult_le_0_compat; [| discriminate].
  apply Qle_shift_div_l; [reflexivity |].
  rewrite Qmult_0_l. change 0%Q with (inject_Z 0). now rewrite <- Zle_Qle.
Qed.

(** ** Time utilities *)

(** C1 (amended).  [calculateDuration] is the difference in hours rounded to
    one decimal place when the wake time is not before the bedtime, and the
    difference plus 24 hours, rounded likewise, when it is before; equal
    instants give 0; the result is not negative as long as the wake time is
    at most 24 hours before the bedtime. *)
Theorem calculateDuration_spec (bedtime wakeTime : Js.Date) :
  (Js.getTime bedtime <= Js.getTime wakeTime ->
   roundedToOneDecimal (hoursOfMs (Js.getTime wakeTime - Js.getTime bedtime))
                       (Local.calculateDuration bedtime wakeTime)) /\
  (Js.getTime wakeTime < Js.getTime bedtime ->
   roundedToOneDecimal
     (hoursOfMs (Js.getTime wakeTime - Js.getTime bedtime + Js.msPerDay))
     (Local.calculateDuration bedtime wakeTime)) /\
  (Js.getTime bedtime - Js.msPerDay <= Js.getTime wakeTime ->
   (0 <= Local.calculateDuration bedtime wakeTime)%Q) /\
  (Js.getTime wakeTime = Js.getTime bedtime ->
   (Local.calculateDuration bedtime wakeTime == 0)%Q).
Proof.
  unfold Local.calculateDuration, Js.msPerDay.
  repeat split.
  - intros H.
    destruct (Z.ltb_spec (Js.getTime wakeTime - Js.getTime bedtime) 0); [lia |].
    apply round_tenths_spec.
  - intros H.
    destruct (Z.ltb_spec (Js.getTime wakeTime - Js.getTime bedtime) 0); [| lia].
    apply round_tenths_spec.
  - intros H.
    apply Qle_shift_div_l; [reflexivity |]. rewrite Qmult_0_l.
    change 0%Q with (inject_Z 0). rewrite <- Zle_Qle.
    apply Math_round_nonneg.
    destruct (Z.ltb_spec (Js.getTime wakeTime - Js.getTime bedtime) 0);
      apply hoursOfMs_nonneg; lia.
  - intros H. rewrite H, Z.sub_diag. reflexivity.
Qed.

Lemma calculateDuration_spec_witness :
  roundedToOneDecimal (hoursOfMs (27000000 - 0))
                      (Local.calculateDuration (Js.mkDate 0) (Js.mkDate 27000000)) /\
  roundedToOneDecimal (hoursOfMs (25200000 - 79200000 + Js.msPerDay))
                      (Local.calculateDuration (Js.mkDate 79200000) (Js.mkDate 25200000)) /\
  (0 <= Local.calculateDuration (Js.mkDate 79200000) (Js.mkDate 25200000))%Q /\
  (Local.calculateDuration (Js.mkDate 79200000) (Js.mkDate 79200000) == 0)%Q.
Proof.
  split; [| split; [| split]].
  - apply (proj1 (calculateDuration_spec (Js.mkDate 0) (Js.mkDate 27000000))).
    simpl. lia.
  - apply (proj1 (proj2 (calculateDuration_spec (Js.mkDate 79200000)
                                                (Js.mkDate 25200000)))).
    simpl. lia.
  - apply (proj1 (proj2 (proj2 (calculateDuration_spec (Js.mkDate 79200000)
                                                       (Js.mkDate 25200000))))).
    vm_compute. discriminate.
  - apply (proj2 (proj2 (proj2 (calculateDuration_spec (Js.mkDate 79200000)
                                                       (Js.mkDate 79200000))))).
    reflexivity.
Defined.

(** C1 as stated fails: a wake time more than 24 hours before the bedtime
    gives a negative duration (here two days before: -24). *)
Lemma calculateDuration_negative :
  (Local.calculateDuration (Js.mkDate 172800000) (Js.mkDate 0) == -24)%Q /\
  ~ (0 <= Local.calculateDuration (Js.mkDate 172800000) (Js.mkDate 0))%Q.
Proof.
  split.
  - reflexivity.
  - intros H. vm_compute in H. apply H. reflexivity.
Qed.

(** C10.  When the fractional part of [hours] is at least 59.5/60, the
    rounded minutes are 60 and [formatDuration] prints [<h>h 60m]: the
    minutes are not carried into the hour part. *)
Theorem formatDuration_sixty_minutes (hours : Q) :
  (0 <= hours)%Q ->
  ((595 # 10) / 60 <= fractionalPart hours)%Q ->
  Js.Math_round ((hours - inject_Z (Js.Math_floor hours)) * 60) = 60 /\
  Local.formatDuration hours = (Js.showZ (Js.Math_floor hours) ++ "h 60m")%string.
Proof.
  intros _ Hfrac. unfold fractionalPart in Hfrac.
  assert (Hm : Js.Math_round ((hours - inject_Z (Js.Math_floor hours)) * 60) = 60).
  { unfold Js.Math_round, Js.Math_floor. apply Qfloor_unique.
    - apply Qle_trans with ((595 # 10) / 60 * 60 + (1 # 2))%Q; [discriminate |].
      apply Qplus_le_l. apply Qmult_le_compat_r; [exact Hfrac | discriminate].
    - pose proof (Qlt_floor hours) as Hlt. rewrite inject_Z_plus in Hlt.
      apply Qlt_le_trans with (1 * 60 + (1 # 2))%Q; [| discriminate].
      apply Qplus_lt_l. apply Qmult_lt_compat_r; [reflexivity |].
      apply (Qplus_lt_l _ _ (inject_Z (Qfloor hours))).
      setoid_replace (hours - inject_Z (Qfloor hours) + inject_Z (Qfloor hours))%Q
        with hours by ring.
      setoid_replace (1 + inject_Z (Qfloor hours))%Q
        with (inject_Z (Qfloor hours) + inject_Z 1)%Q by ring.
      exact Hlt. }
  split; [exact Hm |].
  unfold Local.formatDuration. rewrite Hm. reflexivity.
Qed.

Lemma formatDuration_sixty_minutes_witness :
  Js.Math_round (((7995 # 1000) - inject_Z (Js.Math_floor (7995 # 1000))) * 60) = 60 /\
  Local.formatDuration (7995 # 1000) = "7h 60m"%string.
Proof.
  apply (formatDuration_sixty_minutes (7995 # 1000)).
  - discriminate.
  - vm_compute. discriminate.
Defined.

(** C6.  The two variants of the hook agree on [calculateDuration],
    [formatDuration] and [getWeeklyStats], for every input and in every
    time zone. *)
Theorem local_remote_agree :
  (forall bedtime wakeTime,
      Local.calculateDuration bedtime wakeTime
      = Remote.calculateDuration bedtime wakeTime) /\
  (forall hours, Local.formatDuration hours = Remote.formatDuration hours) /\
  (forall zone now entries,
      Local.getWeeklyStats zone now entries
      = Remote.getWeeklyStats zone now entries).
Proof.
  split; [| split].
  - intros bedtime wakeTime. reflexivity.
  - intros hours. reflexivity.
  - intros zone now entries.
    unfold Local.getWeeklyStats, Remote.getWeeklyStats.
    replace (Remote.weekStep zone now entries)
      with (Local.weekStep zone now entries) by reflexivity.
    reflexivity.
Qed.

(** ** The entry repository *)

Lemma sort_insert_sorted (x : SleepEntry) (l : list SleepEntry) :
  sortedByBedtimeDesc l ->
  sortedByBedtimeDesc (Js.sort_insert Local.byBedtimeDesc x l).
Proof.
  unfold sortedByBedtimeDesc.
  induction l as [| y l IH]; intros Hs; simpl.
  - repeat constructor.
  - inversion Hs as [| ? ? Hl Hhd]; subst.
    destruct (Z.leb_spec (Local.byBedtimeDesc x y) 0) as [Hle | Hgt].
    + constructor; [exact Hs |].
      constructor. unfold notEarlier, Local.byBedtimeDesc in *. lia.
    + constructor; [now apply IH |].
      destruct l as [| z l']; simpl.
      * constructor. unfold notEarlier, Local.byBedtimeDesc in *. lia.
      * destruct (Z.leb_spec (Local.byBedtimeDesc x z) 0).
        -- constructor. unfold notEarlier, Local.byBedtimeDesc in *. lia.
        -- constructor. now inversion Hhd.
Qed.

Lemma sort_sorted (l : list SleepEntry) :
  sortedByBedtimeDesc (Js.sort Local.byBedtimeDesc l).
Proof.
  induction l as [| x l IH]; simpl.
  - constructor.
  - now apply sort_insert_sorted.
Qed.

Lemma sort_insert_perm (x : SleepEntry) (l : list SleepEntry) :
  Permutation (x :: l) (Js.sort_insert Local.byBedtimeDesc x l).
Proof.
  induction l as [| y l IH]; simpl.
  - reflexivity.
  - destruct (Local.byBedtimeDesc x y <=? 0).
    + reflexivity.
    + rewrite perm_swap. now constructor.
Qed.

Lemma sort_perm (l : list SleepEntry) :
  Permutation l (Js.sort Local.byBedtimeDesc l).
Proof.
  induction l as [| x l IH]; simpl.
  - constructor.
  - rewrite <- sort_insert_perm. now constructor.
Qed.

(** Loading sorts the snapshot. *)
Lemma loadEntries_sorted (stored : list SleepEntry) (s : StorageState) :
  sortedByBedtimeDesc
    (entries (snd (Local.loadEntries (Scenario.workingStorage (Some stored)) s))).
Proof. simpl. apply sort_sorted. Qed.

(** A successful update leaves the snapshot sorted, whatever it was before. *)
Lemma updateEntry_sorted (storage : Local.AsyncStorage) (eid : string)
      (bedtime wakeTime : Js.Date) (note : option string)
      (s s' : StorageState) (updated : SleepEntry) :
  Local.updateEntry storage eid bedtime wakeTime note s = (Return (Some updated), s') ->
  sortedByBedtimeDesc (entries s').
Proof.
  unfold Local.updateEntry, Local.saveEntries, bind, getState, tryCatch, await,
    setEntries, setError, modify, ret, throw.
  destruct (Js.findIndex _ (entries s)) as [index |]; [| discriminate].
  destruct (Local.setItem storage _) as [[] | e]; simpl; [| discriminate].
  intros H. inversion H; subst; simpl. apply sort_sorted.
Qed.

(** C2, at the failing input.  The snapshot is loaded with one entry (bedtime
    on day 100); [addEntry] is then given a bedtime on day 99.  The new entry
    is put first: the snapshot is no longer sorted by bedtime descending, and
    [getLatestEntry] returns the older night. *)
Theorem addEntry_backfill_not_sorted :
  let storage := Scenario.workingStorage (Some [Scenario.lastNight]) in
  let loaded := snd (Local.loadEntries storage Scenario.mounted) in
  let backfilled :=
    mkSleepEntry "b" Scenario.nightBeforeBed Scenario.nightBeforeWake
                 (Local.calculateDuration Scenario.nightBeforeBed
                                          Scenario.nightBeforeWake)
                 None None in
  let after :=
    Local.addEntry storage "b" Scenario.nightBeforeBed Scenario.nightBeforeWake
                   None loaded in
  entries loaded = [Scenario.lastNight] /\
  sortedByBedtimeDesc (entries loaded) /\
  fst after = Return backfilled /\
  entries (snd after) = [backfilled; Scenario.lastNight] /\
  ~ sortedByBedtimeDesc (entries (snd after)) /\
  Local.getLatestEntry (snd after) = Some backfilled.
Proof.
  cbv zeta. repeat split.
  - repeat constructor.
  - simpl. intros Hs. inversion Hs as [| ? ? _ Hhd]; subst.
    inversion Hhd as [| ? ? Hrel]; subst.
    unfold notEarlier in Hrel. simpl in Hrel. lia.
Qed.

(** The Supabase variant prepends as well, without sorting. *)
Lemma remote_addEntry_prepends (supabase : Remote.Supabase) (u : Auth.User)
      (bedtime wakeTime : Js.Date) (note : option string) (quality : option Z)
      (s s' : StorageState) (created : SleepEntry) :
  Remote.addEntry supabase (Some u) bedtime wakeTime note quality s
  = (Return created, s') ->
  entries s' = created :: entries s.
Proof.
  unfold Remote.addEntry, unwrap, bind, setEntries, modify, ret, throw.
  destruct (error _); [discriminate |].
  destruct (data _); [| discriminate].
  intros H. inversion H; subst. reflexivity.
Qed.

Lemma filter_absent_id (eid : string) (l : list SleepEntry) :
  (forall e, In e l -> id e <> eid) ->
  filter (fun e => negb (String.eqb (id e) eid)) l = l.
Proof.
  induction l as [| x l IH]; intros Habs; simpl.
  - reflexivity.
  - destruct (String.eqb_spec (id x) eid) as [Heq | Hne]; simpl.
    + exfalso. apply (Habs x); [now left | exact Heq].
    + f_equal. apply IH. intros e He. apply Habs. now right.
Qed.

(** The AsyncStorage variant reports a missing id: [false], and no change. *)
Lemma local_deleteEntry_absent (storage : Local.AsyncStorage) (eid : string)
      (s : StorageState) :
  (forall e, In e (entries s) -> id e <> eid) ->
  Local.deleteEntry storage eid s = (Return false, s).
Proof.
  intros Habs. unfold Local.deleteEntry, bind, getState.
  rewrite (filter_absent_id eid (entries s) Habs), Nat.eqb_refl. reflexivity.
Qed.

(** The Supabase variant never returns [false]. *)
Lemma remote_deleteEntry_never_false (supabase : Remote.Supabase)
      (user : option Auth.User) (eid : string) (s : StorageState) :
  fst (Remote.deleteEntry supabase user eid s) <> Return false.
Proof.
  unfold Remote.deleteEntry, bind, setEntries, modify, ret, throw.
  destruct user as [u |]; [| discriminate].
  destruct (error _); discriminate.
Qed.

(** C3, at the failing input.  The snapshot holds entry [a] only and the
    database accepts the delete of the unknown id [zz] (it matches no row).
    The AsyncStorage variant returns [false]; the Supabase variant returns
    [true].  Both leave the snapshot as it was. *)
Theorem remote_deleteEntry_absent_reports_success :
  let s := mkStorageState [Scenario.lastNight] false None in
  Local.deleteEntry (Scenario.workingStorage (Some [Scenario.lastNight])) "zz" s
  = (Return false, s) /\
  Remote.deleteEntry Scenario.quietSupabase (Some Scenario.someUser) "zz" s
  = (Return true, s).
Proof. split; reflexivity. Qed.

(** C7.  When the write to the backend fails with [e], [addEntry] throws [e]
    and the snapshot is the one before the call.  In the AsyncStorage variant
    the error flag is raised; in the Supabase variant the whole state is
    unchanged. *)
Theorem addEntry_write_failure
        (storage : Local.AsyncStorage) (supabase : Remote.Supabase)
        (u : Auth.User) (newId : string) (bedtime wakeTime : Js.Date)
        (note : option string) (quality : option Z)
        (s : StorageState) (e : JsError) :
  (Local.setItem storage
     (mkSleepEntry newId bedtime wakeTime
                   (Local.calculateDuration bedtime wakeTime)
                   (Js.normalizeNote note) None :: entries s) = Throw e ->
   Local.addEntry storage newId bedtime wakeTime note s
   = (Throw e,
      mkStorageState (entries s) (loading s) (Some "Failed to save sleep data"%string))) /\
  (error (Remote.insertRow supabase
            (Remote.mkSleepInsert (Auth.id u) bedtime wakeTime
                                  (Remote.calculateDuration bedtime wakeTime)
                                  (Js.normalizeNote note)
                                  (Remote.truthyNumber quality))) = Some e ->
   Remote.addEntry supabase (Some u) bedtime wakeTime note quality s = (Throw e, s)).
Proof.
  split; intros H.
  - unfold Local.addEntry, Local.saveEntries, bind, getState, tryCatch, await.
    rewrite H. reflexivity.
  - unfold Remote.addEntry, unwrap, bind. rewrite H. reflexivity.
Qed.

Lemma addEntry_write_failure_witness :
  Local.addEntry (Scenario.readOnlyStorage Scenario.quotaExceeded) "b"
                 Scenario.nightBeforeBed Scenario.nightBeforeWake None
                 (mkStorageState [Scenario.lastNight] false None)
  = (Throw Scenario.quotaExceeded,
     mkStorageState [Scenario.lastNight] false (Some "Failed to save sleep data"%string)) /\
  Remote.addEntry (Scenario.rejectingSupabase Scenario.quotaExceeded)
                  (Some Scenario.someUser)
                  Scenario.nightBeforeBed Scenario.nightBeforeWake None None
                  (mkStorageState [Scenario.lastNight] false None)
  = (Throw Scenario.quotaExceeded, mkStorageState [Scenario.lastNight] false None).
Proof.
  pose proof (addEntry_write_failure
                (Scenario.readOnlyStorage Scenario.quotaExceeded)
                (Scenario.rejectingSupabase Scenario.quotaExceeded)
                Scenario.someUser "b"
                Scenario.nightBeforeBed Scenario.nightBeforeWake None None
                (mkStorageState [Scenario.lastNight] false None)
                Scenario.quotaExceeded) as [Hlocal Hremote].
  split.
  - apply Hlocal. reflexivity.
  - apply Hremote. reflexivity.
Defined.

(** ** Weekly statistics *)

(** *** Doubles *)

Lemma roundHalfEven_nonneg (n d : Z) : 0 <= n -> 0 < d -> 0 <= Js.roundHalfEven n d.
Proof.
  intros Hn Hd. unfold Js.roundHalfEven.
  assert (Hq : 0 <= n / d) by (apply Z.div_pos; lia).
  destruct (2 * (n mod d) ?= d); [destruct (Z.even (n / d)) | |]; lia.
Qed.

Lemma Qred_nonneg (x : Q) : (0 <= x)%Q -> (0 <= Qred x)%Q.
Proof. intros H. now rewrite Qred_correct. Qed.

(** Rounding to a double keeps the sign: a number that is not negative has a
    double that is not negative. *)
Lemma binary64_nonneg (x : Q) : (0 <= x)%Q -> (0 <= Js.binary64 x)%Q.
Proof.
  intros Hx. unfold Js.binary64.
  apply Qred_nonneg in Hx.
  destruct (Qred x) as [n d]. unfold Qle in Hx. simpl in Hx.
  cbn [Qnum Qden].
  destruct (Z.eqb_spec (Z.abs n) 0) as [_ | Hn]; [apply Qle_refl |].
  apply Qred_nonneg.
  assert (Hpos : 0 < n) by lia.
  rewrite Z.sgn_pos, Z.mul_1_l by exact Hpos.
  rewrite Z.abs_eq by lia.
  set (e := Z.max (Js.log2Floor n (Z.pos d) - 52) (-1074)).
  apply Qmult_le_0_compat.
  - change 0%Q with (inject_Z 0). rewrite <- Zle_Qle.
    destruct (Z.leb_spec 0 e).
    + apply roundHalfEven_nonneg; [lia |].
      apply Z.mul_pos_pos; [lia | now apply Z.pow_pos_nonneg].
    + apply roundHalfEven_nonneg; [| lia].
      apply Z.mul_nonneg_nonneg; [lia | apply Z.pow_nonneg; lia].
  - unfold Js.pow2. destruct (0 <=? e).
    + change 0%Q with (inject_Z 0). rewrite <- Zle_Qle. apply Z.pow_nonneg. lia.
    + discriminate.
Qed.

(** Numbers that are equal as rationals have the same double. *)
Lemma binary64_comp (x y : Q) : (x == y)%Q -> Js.binary64 x = Js.binary64 y.
Proof.
  intros H. unfold Js.binary64. now rewrite (Qred_complete x y H).
Qed.

Lemma add_nonneg (a b : Q) : (0 <= a)%Q -> (0 <= b)%Q -> (0 <= Js.add a b)%Q.
Proof.
  intros Ha Hb. unfold Js.add. apply binary64_nonneg.
  rewrite <- (Qplus_0_r 0). apply Qplus_le_compat; now apply binary64_nonneg.
Qed.

Lemma total_from_nonneg (l : list SleepEntry) (a : Q) :
  (0 <= a)%Q ->
  (forall e, In e l -> (0 <= duration e)%Q) ->
  (0 <= fold_left (fun sum e => Js.add sum (duration e)) l a)%Q.
Proof.
  revert a. induction l as [| x l IH]; intros a Ha Hl; simpl.
  - exact Ha.
  - apply IH.
    + apply add_nonneg; [exact Ha |]. apply Hl. now left.
    + intros e He. apply Hl. now right.
Qed.

Lemma total_nonneg (l : list SleepEntry) :
  (forall e, In e l -> (0 <= duration e)%Q) -> (0 <= total l)%Q.
Proof. apply total_from_nonneg. apply Qle_refl. Qed.

(** Ties go to the even significand, above 2^53 and among the subnormal
    numbers; whole numbers up to 2^53 are doubles. *)
Example binary64_ties :
  Js.binary64 (inject_Z (2 ^ 53 + 1)) = inject_Z (2 ^ 53) /\
  Js.binary64 (inject_Z (2 ^ 53 + 3)) = inject_Z (2 ^ 53 + 4) /\
  Js.binary64 (1 # Z.to_pos (2 ^ 1075)) = 0%Q /\
  Js.binary64 (3 # Z.to_pos (2 ^ 1075)) = (1 # Z.to_pos (2 ^ 1073))%Q /\
  Js.binary64 (1 # Z.to_pos (2 ^ 1074)) = (1 # Z.to_pos (2 ^ 1074))%Q /\
  Js.binary64 (inject_Z (2 ^ 53 - 1)) = inject_Z (2 ^ 53 - 1) /\
  Js.binary64 (-240) = (-240)%Q.
Proof. vm_compute. repeat split. Qed.

(** The doubles of JavaScript at work: [0.1 + 0.2] is not [0.3], and the
    mean of 8.1 and 8.2, times 10, falls below 81.5. *)
Example doubles_at_work :
  Js.binary64 (1 # 10) = (3602879701896397 # 36028797018963968)%Q /\
  Js.add (1 # 10) (2 # 10) = (1351079888211149 # 4503599627370496)%Q /\
  ~ (Js.add (1 # 10) (2 # 10) == Js.binary64 (3 # 10))%Q /\
  (Js.mul (Js.div (Js.add (81 # 10) (82 # 10)) 2) 10 < 815 # 10)%Q /\
  Js.add 3 2 = 5%Q /\ Js.div 13 2 = (13 # 2)%Q.
Proof. vm_compute. intuition discriminate. Qed.

(** *** Correct rounding *)

Lemma roundHalfEven_nearest (n d : Z) :
  0 < d -> Z.abs (2 * (n - Js.roundHalfEven n d * d)) <= d.
Proof.
  intros Hd. unfold Js.roundHalfEven.
  pose proof (Z.div_mod n d ltac:(lia)) as Hn.
  pose proof (Z.mod_pos_bound n d Hd) as Hr.
  destruct (Z.compare_spec (2 * (n mod d)) d) as [Heq | Hlt | Hgt];
    [destruct (Z.even (n / d)) | |]; nia.
Qed.

Lemma roundHalfEven_between (n d a b : Z) :
  0 < d -> a * d <= n -> n <= b * d -> a <= Js.roundHalfEven n d <= b.
Proof.
  intros Hd Ha Hb. unfold Js.roundHalfEven.
  pose proof (Z.div_mod n d ltac:(lia)) as Hn.
  pose proof (Z.mod_pos_bound n d Hd) as Hr.
  assert (Hq : a <= n / d) by (apply Z.div_le_lower_bound; lia).
  assert (Hq' : n / d <= b) by (apply Z.div_le_upper_bound; lia).
  destruct (Z.compare_spec (2 * (n mod d)) d) as [Heq | Hlt | Hgt];
    [destruct (Z.even (n / d)) | |]; try lia.
  - destruct (Z.eq_dec (n / d) b) as [Hb' |]; [| lia]. nia.
  - destruct (Z.eq_dec (n / d) b) as [Hb' |]; [| lia]. nia.
Qed.

Lemma log2Floor_spec (n d : Z) :
  0 < n -> 0 < d ->
  let k := Js.log2Floor n d in
  if 0 <=? k then d * 2 ^ k <= n < d * 2 ^ (k + 1)
  else d <= n * 2 ^ (- k) < 2 * d.
Proof.
  intros Hn Hd. cbv zeta. unfold Js.log2Floor.
  destruct (Z.log2_spec n Hn) as [Hn1 Hn2].
  destruct (Z.log2_spec d Hd) as [Hd1 Hd2].
  pose proof (Z.log2_nonneg n) as Hln. pose proof (Z.log2_nonneg d) as Hld.
  set (ln := Z.log2 n) in *. set (ld := Z.log2 d) in *.
  rewrite <- !Z.add_1_r in *.
  destruct (Z.leb_spec 0 (ln - ld)) as [Hk | Hk].
  - (* ln = ld + k0 *)
    assert (Hpow : 2 ^ ln = 2 ^ ld * 2 ^ (ln - ld))
      by (rewrite <- Z.pow_add_r by lia; f_equal; lia).
    assert (Hpos : 0 < 2 ^ (ln - ld)) by (apply Z.pow_pos_nonneg; lia).
    assert (Hs : forall j, 0 <= j -> 2 ^ (j + 1) = 2 * 2 ^ j)
      by (intros j Hj; rewrite Z.pow_add_r by lia; lia).
    rewrite (Hs ln) in Hn2 by lia. rewrite (Hs ld) in Hd2 by lia.
    destruct (Z.leb_spec (d * 2 ^ (ln - ld)) n) as [Ht | Ht].
    + destruct (Z.leb_spec 0 (ln - ld)); [| lia].
      rewrite (Hs (ln - ld)) by lia. nia.
    + destruct (Z.leb_spec 0 (ln - ld - 1)) as [Hk1 | Hk1].
      * replace (ln - ld - 1 + 1) with (ln - ld) by lia.
        assert (Hh : 2 ^ (ln - ld) = 2 * 2 ^ (ln - ld - 1)).
        { rewrite <- (Hs (ln - ld - 1)) by lia. f_equal. lia. }
        assert (0 < 2 ^ (ln - ld - 1)) by (apply Z.pow_pos_nonneg; lia).
        nia.
      * assert (Hz : ln - ld = 0) by lia. rewrite Hz in *.
        change (- (0 - 1)) with 1. change (2 ^ 1) with 2. change (2 ^ 0) with 1 in *.
        nia.
  - assert (Hpow : 2 ^ ld = 2 ^ ln * 2 ^ (- (ln - ld)))
      by (rewrite <- Z.pow_add_r by lia; f_equal; lia).
    assert (Hpos : 0 < 2 ^ (- (ln - ld))) by (apply Z.pow_pos_nonneg; lia).
    assert (Hs : forall j, 0 <= j -> 2 ^ (j + 1) = 2 * 2 ^ j)
      by (intros j Hj; rewrite Z.pow_add_r by lia; lia).
    rewrite (Hs ln) in Hn2 by lia. rewrite (Hs ld) in Hd2 by lia.
    destruct (Z.leb_spec d (n * 2 ^ (- (ln - ld)))) as [Ht | Ht].
    + destruct (Z.leb_spec 0 (ln - ld)); [lia |]. nia.
    + destruct (Z.leb_spec 0 (ln - ld - 1)); [lia |].
      replace (- (ln - ld - 1)) with (- (ln - ld) + 1) by lia.
      rewrite (Hs (- (ln - ld))) by lia. nia.
Qed.

Lemma significand_bounds (n d : Z) :
  0 < n -> 0 < d ->
  let e := Z.max (Js.log2Floor n d - 52) (-1074) in
  let m := if 0 <=? e then Js.roundHalfEven n (d * 2 ^ e)
           else Js.roundHalfEven (n * 2 ^ (- e)) d in
  0 <= m <= 2 ^ 53 /\ (-1074 < e -> 2 ^ 52 <= m) /\
  (-1074 < e ->
   if 0 <=? e + 52 then d * 2 ^ (e + 52) <= n else d <= n * 2 ^ (- (e + 52))).
Proof.
  intros Hn Hd. cbv zeta.
  pose proof (log2Floor_spec n d Hn Hd) as Hk. cbv zeta in Hk.
  set (k := Js.log2Floor n d) in *.
  assert (Hlink : -1074 < Z.max (k - 52) (-1074) ->
                  if 0 <=? Z.max (k - 52) (-1074) + 52
                  then d * 2 ^ (Z.max (k - 52) (-1074) + 52) <= n
                  else d <= n * 2 ^ (- (Z.max (k - 52) (-1074) + 52))).
  { intros He. replace (Z.max (k - 52) (-1074) + 52) with k by lia.
    destruct (0 <=? k); lia. }
  cut (0 <= (if 0 <=? Z.max (k - 52) (-1074)
             then Js.roundHalfEven n (d * 2 ^ Z.max (k - 52) (-1074))
             else Js.roundHalfEven (n * 2 ^ (- Z.max (k - 52) (-1074))) d) <= 2 ^ 53 /\
       (-1074 < Z.max (k - 52) (-1074) ->
        2 ^ 52 <= (if 0 <=? Z.max (k - 52) (-1074)
                   then Js.roundHalfEven n (d * 2 ^ Z.max (k - 52) (-1074))
                   else Js.roundHalfEven (n * 2 ^ (- Z.max (k - 52) (-1074))) d)));
    [tauto |].
  clear Hlink.
  assert (Hs : forall a b, 0 <= a -> 0 <= b -> 2 ^ (a + b) = 2 ^ a * 2 ^ b)
    by (intros a b Ha Hb; now apply Z.pow_add_r).
  assert (Hp : forall a, 0 <= a -> 0 < 2 ^ a) by (intros a Ha; now apply Z.pow_pos_nonneg).
  destruct (Z.max_spec (k - 52) (-1074)) as [[Hlt He] | [Hge He]]; rewrite He.
  - (* subnormal: e = -1074 *)
    change (0 <=? -1074) with false. cbv iota. change (- -1074) with 1074.
    split; [| lia].
    destruct (Z.leb_spec 0 k) as [Hk0 | Hk0]; [lia |].
    assert (Hm : 0 <= Js.roundHalfEven (n * 2 ^ 1074) d <= 2 ^ 52).
    { apply roundHalfEven_between; [lia | |].
      - pose proof (Hp 1074 ltac:(lia)). nia.
      - destruct (Z.le_gt_cases 1074 (- k)) as [Hbig | Hsmall].
        + assert (Hsplit : 2 ^ (- k) = 2 ^ 1074 * 2 ^ (- k - 1074))
            by (rewrite <- Hs by lia; f_equal; lia).
          pose proof (Hp (- k - 1074) ltac:(lia)).
          pose proof (Hp 1074 ltac:(lia)).
          assert (n * 2 ^ 1074 <= n * 2 ^ (- k)) by nia.
          assert (2 <= 2 ^ 52) by (vm_compute; discriminate).
          nia.
        + assert (Hsplit : 2 ^ 1074 = 2 ^ (- k) * 2 ^ (1074 + k))
            by (rewrite <- Hs by lia; f_equal; lia).
          assert (Hle : 2 * 2 ^ (1074 + k) <= 2 ^ 52).
          { change (2 ^ 52) with (2 * 2 ^ 51). apply Z.mul_le_mono_nonneg_l; [lia |].
            apply Z.pow_le_mono_r; lia. }
          pose proof (Hp (1074 + k) ltac:(lia)).
          rewrite Hsplit. nia. }
    lia.
  - (* normal: e = k - 52 *)
    assert (Hm : 2 ^ 52 <= (if 0 <=? k - 52 then Js.roundHalfEven n (d * 2 ^ (k - 52))
                            else Js.roundHalfEven (n * 2 ^ (- (k - 52))) d) <= 2 ^ 53).
    { destruct (Z.leb_spec 0 (k - 52)) as [He0 | He0].
      - destruct (Z.leb_spec 0 k) as [Hk0 | Hk0]; [| lia].
        assert (Hsplit : 2 ^ k = 2 ^ 52 * 2 ^ (k - 52))
          by (rewrite <- Hs by lia; f_equal; lia).
        assert (Hsplit' : 2 ^ (k + 1) = 2 ^ 53 * 2 ^ (k - 52))
          by (rewrite <- Hs by lia; f_equal; lia).
        pose proof (Hp (k - 52) ltac:(lia)).
        apply roundHalfEven_between; [nia | |]; nia.
      - destruct (Z.leb_spec 0 k) as [Hk0 | Hk0].
        + assert (Hsplit : 2 ^ 52 = 2 ^ k * 2 ^ (- (k - 52)))
            by (rewrite <- Hs by lia; f_equal; lia).
          assert (Hk1 : 2 ^ (k + 1) = 2 * 2 ^ k) by (rewrite Hs by lia; lia).
          pose proof (Hp (- (k - 52)) ltac:(lia)). pose proof (Hp k Hk0).
          change (2 ^ 53) with (2 * 2 ^ 52).
          apply roundHalfEven_between; [lia | |]; nia.
        + assert (Hsplit : 2 ^ (- (k - 52)) = 2 ^ (- k) * 2 ^ 52)
            by (rewrite <- Hs by lia; f_equal; lia).
          pose proof (Hp (- k) ltac:(lia)).
          change (2 ^ 53) with (2 * 2 ^ 52).
          apply roundHalfEven_between; [lia | |]; nia. }
    split; [| intros _]; lia.
Qed.

Lemma roundHalfEven_tie (n d : Z) :
  0 < d -> Z.abs (2 * (n - Js.roundHalfEven n d * d)) = d ->
  Z.even (Js.roundHalfEven n d) = true.
Proof.
  intros Hd. unfold Js.roundHalfEven.
  pose proof (Z.div_mod n d ltac:(lia)) as Hn.
  pose proof (Z.mod_pos_bound n d Hd) as Hr.
  destruct (Z.compare_spec (2 * (n mod d)) d) as [Heq | Hlt | Hgt].
  - intros _. destruct (Z.even (n / d)) eqn:Hev; [exact Hev |].
    rewrite Z.even_add, Hev. reflexivity.
  - intros H. nia.
  - intros H. nia.
Qed.

(** The distance from [a / d] to the multiple [m] of the step [p / q], in
    whole numbers. *)
Lemma Qabs_grid (a m d p q : Z) :
  0 < d -> 0 < q ->
  (Qabs (inject_Z a / inject_Z d - inject_Z m * (inject_Z p / inject_Z q))
   == inject_Z (Z.abs (a * q - m * (d * p))) / inject_Z (d * q))%Q.
Proof.
  intros Hd Hq.
  assert (Hdq : (0 < inject_Z d)%Q) by (change 0%Q with (inject_Z 0); now rewrite <- Zlt_Qlt).
  assert (Hqq : (0 < inject_Z q)%Q) by (change 0%Q with (inject_Z 0); now rewrite <- Zlt_Qlt).
  assert (Hd0 : ~ (inject_Z d == 0)%Q)
    by (intros H; rewrite H in Hdq; now apply (Qlt_irrefl 0)).
  assert (Hq0 : ~ (inject_Z q == 0)%Q)
    by (intros H; rewrite H in Hqq; now apply (Qlt_irrefl 0)).
  setoid_replace (inject_Z a / inject_Z d - inject_Z m * (inject_Z p / inject_Z q))%Q
    with (inject_Z (a * q - m * (d * p)) * / inject_Z (d * q))%Q
    by (unfold Z.sub; rewrite inject_Z_plus, inject_Z_opp, !inject_Z_mult; now field).
  rewrite Qabs_Qmult.
  rewrite (Qabs_pos (/ inject_Z (d * q))).
  - reflexivity.
  - apply Qinv_le_0_compat. change 0%Q with (inject_Z 0). rewrite <- Zle_Qle. nia.
Qed.

Lemma Qabs_grid_le (a m d p q : Z) :
  0 < d -> 0 < q ->
  (Qabs (inject_Z a / inject_Z d - inject_Z m * (inject_Z p / inject_Z q))
   <= inject_Z p / inject_Z q / 2)%Q
  <-> Z.abs (2 * (a * q - m * (d * p))) <= d * p.
Proof.
  intros Hd Hq. rewrite Qabs_grid by assumption.
  assert (Hdq : (0 < inject_Z (d * q))%Q)
    by (change 0%Q with (inject_Z 0); rewrite <- Zlt_Qlt; nia).
  assert (Hqq : (0 < inject_Z q)%Q) by (change 0%Q with (inject_Z 0); now rewrite <- Zlt_Qlt).
  assert (Hq0 : ~ (inject_Z q == 0)%Q)
    by (intros H; rewrite H in Hqq; now apply (Qlt_irrefl 0)).
  assert (Hdd : (0 < inject_Z d)%Q) by (change 0%Q with (inject_Z 0); now rewrite <- Zlt_Qlt).
  assert (Hd0 : ~ (inject_Z d == 0)%Q)
    by (intros H; rewrite H in Hdd; now apply (Qlt_irrefl 0)).
  assert (H2 : (0 < 2 * inject_Z (d * q))%Q) by lra.
  rewrite <- (Qmult_le_r _ _ _ H2).
  set (u := a * q - m * (d * p)).
  setoid_replace (inject_Z (Z.abs u) / inject_Z (d * q) * (2 * inject_Z (d * q)))%Q
    with (inject_Z (Z.abs (2 * u)))
    by (rewrite Z.abs_mul, !inject_Z_mult; change (inject_Z (Z.abs 2)) with 2%Q;
        field; now split).
  setoid_replace (inject_Z p / inject_Z q / 2 * (2 * inject_Z (d * q)))%Q
    with (inject_Z (d * p))
    by (rewrite !inject_Z_mult; now field).
  now rewrite <- Zle_Qle.
Qed.

Lemma Qabs_grid_eq (a m d p q : Z) :
  0 < d -> 0 < q ->
  (Qabs (inject_Z a / inject_Z d - inject_Z m * (inject_Z p / inject_Z q))
   == inject_Z p / inject_Z q / 2)%Q
  <-> Z.abs (2 * (a * q - m * (d * p))) = d * p.
Proof.
  intros Hd Hq. rewrite Qabs_grid by assumption.
  assert (Hdq : (0 < inject_Z (d * q))%Q)
    by (change 0%Q with (inject_Z 0); rewrite <- Zlt_Qlt; nia).
  assert (Hqq : (0 < inject_Z q)%Q) by (change 0%Q with (inject_Z 0); now rewrite <- Zlt_Qlt).
  assert (Hq0 : ~ (inject_Z q == 0)%Q)
    by (intros H; rewrite H in Hqq; now apply (Qlt_irrefl 0)).
  assert (Hdd : (0 < inject_Z d)%Q) by (change 0%Q with (inject_Z 0); now rewrite <- Zlt_Qlt).
  assert (Hd0 : ~ (inject_Z d == 0)%Q)
    by (intros H; rewrite H in Hdd; now apply (Qlt_irrefl 0)).
  assert (H2 : ~ (2 * inject_Z (d * q) == 0)%Q) by lra.
  rewrite <- (Qmult_inj_r _ _ _ H2).
  set (u := a * q - m * (d * p)).
  setoid_replace (inject_Z (Z.abs u) / inject_Z (d * q) * (2 * inject_Z (d * q)))%Q
    with (inject_Z (Z.abs (2 * u)))
    by (rewrite Z.abs_mul, !inject_Z_mult; change (inject_Z (Z.abs 2)) with 2%Q;
        field; now split).
  setoid_replace (inject_Z p / inject_Z q / 2 * (2 * inject_Z (d * q)))%Q
    with (inject_Z (d * p))
    by (rewrite !inject_Z_mult; now field).
  apply inject_Z_injective.
Qed.

(** The powers of two as quotients of whole numbers. *)
Lemma pow2_quotient (e : Z) :
  (Js.pow2 e == inject_Z (if 0 <=? e then 2 ^ e else 1)
                / inject_Z (if 0 <=? e then 1 else 2 ^ (- e)))%Q.
Proof.
  unfold Js.pow2. destruct (Z.leb_spec 0 e).
  - field.
  - rewrite Qmake_Qdiv. rewrite Z2Pos.id; [reflexivity |].
    apply Z.pow_pos_nonneg; lia.
Qed.

Lemma binary64_zero (x : Q) : (x == 0)%Q -> Js.binary64 x = 0%Q.
Proof. intros H. now rewrite (binary64_comp x 0 H). Qed.

(** [Js.binary64] rounds correctly.  The double of a number other than 0 is
    a multiple [m * 2 ^ e] of a power of two, of exponent -1074 at least,
    with a significand [m] of 2^53 at most, and of 2^52 at least unless the
    exponent is the least one; no other multiple of [2 ^ e] is nearer to
    the number, and of two nearest ones the even one is taken. *)
Theorem binary64_nearest (x : Q) :
  ~ (x == 0)%Q ->
  exists m e : Z,
    (Js.binary64 x == inject_Z m * Js.pow2 e)%Q /\
    -1074 <= e /\
    Z.abs m <= 2 ^ 53 /\
    (-1074 < e -> 2 ^ 52 <= Z.abs m) /\
    (-1074 < e -> (Js.pow2 (e + 52) <= Qabs x)%Q) /\
    (Qabs (x - Js.binary64 x) <= Js.pow2 e / 2)%Q /\
    ((Qabs (x - Js.binary64 x) == Js.pow2 e / 2)%Q -> Z.even m = true).
Proof.
  intros Hx. unfold Js.binary64.
  pose proof (Qred_correct x) as Hr.
  destruct (Qred x) as [n0 d]. cbn [Qnum Qden].
  assert (Hn0 : n0 <> 0).
  { intros ->. apply Hx. rewrite <- Hr. reflexivity. }
  destruct (Z.eqb_spec (Z.abs n0) 0) as [Habs | _]; [lia |].
  destruct (significand_bounds (Z.abs n0) (Z.pos d)) as (Hm & Hnorm & Hlink);
    [lia | lia |].
  cbv zeta in Hm, Hnorm, Hlink.
  set (e := Z.max (Js.log2Floor (Z.abs n0) (Z.pos d) - 52) (-1074)) in *.
  set (m := if 0 <=? e then Js.roundHalfEven (Z.abs n0) (Z.pos d * 2 ^ e)
            else Js.roundHalfEven (Z.abs n0 * 2 ^ (- e)) (Z.pos d)) in *.
  assert (Hsgn : Z.abs (Z.sgn n0 * m) = m).
  { destruct (Z.lt_total n0 0) as [Hneg | [Hz | Hpos]]; [| lia |];
      [rewrite (Z.sgn_neg n0 Hneg) | rewrite (Z.sgn_pos n0 Hpos)]; lia. }
  exists (Z.sgn n0 * m), e.
  split; [apply Qred_correct |].
  split; [unfold e; lia |].
  split; [lia |].
  split; [intros He; specialize (Hnorm He); lia |].
  split.
  { intros He. specialize (Hlink He).
    rewrite <- Hr, (Qmake_Qdiv n0 d), (pow2_quotient (e + 52)).
    assert (Hdq : (0 < inject_Z (Z.pos d))%Q) by reflexivity.
    setoid_replace (Qabs (inject_Z n0 / inject_Z (Z.pos d)))
      with (inject_Z (Z.abs n0) / inject_Z (Z.pos d))%Q
      by (unfold Qdiv; rewrite Qabs_Qmult, (Qabs_pos (/ inject_Z (Z.pos d)));
          [reflexivity | apply Qinv_le_0_compat; discriminate]).
    destruct (Z.leb_spec 0 (e + 52)) as [Hk | Hk].
    - apply Qle_shift_div_l; [exact Hdq |].
      setoid_replace (inject_Z (2 ^ (e + 52)) / inject_Z 1 * inject_Z (Z.pos d))%Q
        with (inject_Z (Z.pos d * 2 ^ (e + 52)))
        by (rewrite inject_Z_mult; field).
      now rewrite <- Zle_Qle.
    - assert (Hpos : 0 < 2 ^ (- (e + 52))) by (apply Z.pow_pos_nonneg; lia).
      assert (Hpq : (0 < inject_Z (2 ^ (- (e + 52))))%Q)
        by (change 0%Q with (inject_Z 0); now rewrite <- Zlt_Qlt).
      apply Qle_shift_div_l; [exact Hdq |].
      setoid_replace (inject_Z 1 / inject_Z (2 ^ (- (e + 52))) * inject_Z (Z.pos d))%Q
        with (inject_Z (Z.pos d) / inject_Z (2 ^ (- (e + 52))))%Q
        by (field; intros H0; rewrite H0 in Hpq; now apply (Qlt_irrefl 0)).
      apply Qle_shift_div_r; [exact Hpq |].
      rewrite <- !inject_Z_mult, <- Zle_Qle. lia. }
  set (p := if 0 <=? e then 2 ^ e else 1).
  set (q := if 0 <=? e then 1 else 2 ^ (- e)).
  assert (Hq : 0 < q).
  { unfold q. destruct (0 <=? e) eqn:He; [lia |].
    apply Z.pow_pos_nonneg; [lia |]. apply Z.leb_gt in He. lia. }
  assert (Hp : 0 < p).
  { unfold p. destruct (0 <=? e) eqn:He; [| lia].
    apply Z.pow_pos_nonneg; [lia |]. now apply Z.leb_le. }
  assert (Hnear : Z.abs (2 * (Z.abs n0 * q - m * (Z.pos d * p))) <= Z.pos d * p /\
                  (Z.abs (2 * (Z.abs n0 * q - m * (Z.pos d * p))) = Z.pos d * p ->
                   Z.even m = true)).
  { unfold m, p, q. destruct (0 <=? e).
    - rewrite Z.mul_1_r. split.
      + apply roundHalfEven_nearest. nia.
      + apply roundHalfEven_tie. nia.
    - rewrite Z.mul_1_r. split.
      + apply roundHalfEven_nearest. lia.
      + apply roundHalfEven_tie. lia. }
  assert (Hdist : (Qabs (x - Qred (inject_Z (Z.sgn n0 * m) * Js.pow2 e))
                   == Qabs (inject_Z n0 / inject_Z (Z.pos d)
                            - inject_Z (Z.sgn n0 * m) * (inject_Z p / inject_Z q)))%Q).
  { rewrite Qred_correct, <- Hr, (Qmake_Qdiv n0 d), (pow2_quotient e). reflexivity. }
  assert (Hflip : Z.abs (2 * (n0 * q - Z.sgn n0 * m * (Z.pos d * p)))
                  = Z.abs (2 * (Z.abs n0 * q - m * (Z.pos d * p)))).
  { destruct (Z.lt_total n0 0) as [Hneg | [Hz | Hpos]]; [| lia |].
    - rewrite (Z.sgn_neg n0 Hneg), (Z.abs_neq n0) by lia. lia.
    - rewrite (Z.sgn_pos n0 Hpos), (Z.abs_eq n0) by lia. f_equal. lia. }
  assert (Heven : Z.even (Z.sgn n0 * m) = Z.even m).
  { rewrite Z.even_mul.
    destruct (Z.lt_total n0 0) as [Hneg | [Hz | Hpos]]; [| lia |].
    - now rewrite (Z.sgn_neg n0 Hneg).
    - now rewrite (Z.sgn_pos n0 Hpos). }
  rewrite Hdist, (pow2_quotient e). fold p q.
  split.
  - apply Qabs_grid_le; [lia | exact Hq |]. rewrite Hflip. apply Hnear.
  - intros Htie. apply Qabs_grid_eq in Htie; [| lia | exact Hq].
    rewrite Heven. apply Hnear. now rewrite <- Hflip.
Qed.


Lemma pow2_Qpower (e : Z) : (Js.pow2 e == 2 ^ e)%Q.
Proof.
  unfold Js.pow2. destruct (Z.leb_spec 0 e) as [He | He].
  - now rewrite Zpower_Qpower.
  - replace e with (- (- e)) at 2 by lia.
    rewrite Qpower_opp.
    change 2%Q with (inject_Z 2). rewrite <- Zpower_Qpower by lia.
    rewrite Qmake_Qdiv, Z2Pos.id by (apply Z.pow_pos_nonneg; lia).
    unfold Qdiv. now rewrite Qmult_1_l.
Qed.

Lemma pow2_pos (e : Z) : (0 < Js.pow2 e)%Q.
Proof. rewrite pow2_Qpower. now apply Qpower_0_lt. Qed.

Lemma pow2_le (a b : Z) : a <= b -> (Js.pow2 a <= Js.pow2 b)%Q.
Proof.
  intros H. rewrite !pow2_Qpower. apply Qpower_le_compat_l; [exact H | discriminate].
Qed.

Lemma pow2_lt_inv (a b : Z) : (Js.pow2 a < Js.pow2 b)%Q -> a < b.
Proof.
  rewrite !pow2_Qpower. intros H. now apply (Qpower_lt_compat_l_inv 2).
Qed.

Lemma pow2_half (e : Z) : (Js.pow2 e / 2 == Js.pow2 (e - 1))%Q.
Proof.
  rewrite !pow2_Qpower. unfold Z.sub.
  rewrite Qpower_plus by discriminate. reflexivity.
Qed.

(** The rounding error of a number below [2 ^ K] in magnitude. *)
Lemma binary64_error (x : Q) (K : Z) :
  -1021 <= K -> (Qabs x < Js.pow2 K)%Q ->
  (Qabs (x - Js.binary64 x) <= Js.pow2 (K - 54))%Q.
Proof.
  intros HK Hx.
  destruct (Qeq_dec x 0) as [Hz | Hnz].
  - rewrite (binary64_zero x Hz), Hz. apply Qlt_le_weak, pow2_pos.
  - destruct (binary64_nearest x Hnz) as (m & e & _ & He & _ & _ & Hlink & Herr & _).
    eapply Qle_trans; [exact Herr |].
    rewrite pow2_half. apply pow2_le.
    destruct (Z.eq_dec e (-1074)) as [-> | Hne]; [lia |].
    assert (Hlt : e + 52 < K).
    { apply pow2_lt_inv. eapply Qle_lt_trans; [apply Hlink; lia | exact Hx]. }
    lia.
Qed.

Lemma Qred_inject_Z (z : Z) : Qred (inject_Z z) = inject_Z z.
Proof.
  unfold Qred, inject_Z. cbn [Qnum Qden].
  pose proof (Z.ggcd_gcd z 1) as Hg. pose proof (Z.ggcd_correct_divisors z 1) as Hc.
  destruct (Z.ggcd z 1) as [g [a b]]. cbn [fst snd] in *.
  rewrite Z.gcd_1_r in Hg. subst g. destruct Hc as [Ha Hb].
  rewrite !Z.mul_1_l in *. subst a. subst b. reflexivity.
Qed.

(** A double is in lowest terms. *)
Lemma binary64_reduced (x : Q) : Qred (Js.binary64 x) = Js.binary64 x.
Proof.
  unfold Js.binary64.
  destruct (Z.abs (Qnum (Qred x)) =? 0); [reflexivity |].
  cbv zeta. apply Qred_complete, Qred_correct.
Qed.

Lemma binary64_canonical (x y : Q) :
  (Js.binary64 x == y)%Q -> Qred y = y -> Js.binary64 x = y.
Proof.
  intros Heq Hy. rewrite <- (binary64_reduced x), <- Hy. now apply Qred_complete.
Qed.

(** Whole numbers below 2^53 in magnitude are doubles. *)
Lemma binary64_int (z : Z) : Z.abs z < 2 ^ 53 -> Js.binary64 (inject_Z z) = inject_Z z.
Proof.
  intros Hz.
  destruct (Z.eq_dec z 0) as [-> | Hnz]; [reflexivity |].
  assert (Hx : ~ (inject_Z z == 0)%Q).
  { intros H. apply Hnz. change 0%Q with (inject_Z 0) in H.
    rewrite inject_Z_injective in H. exact H. }
  destruct (binary64_nearest (inject_Z z) Hx)
    as (m & e & Hval & He & _ & _ & Hlink & Herr & _).
  assert (He0 : e <= 0).
  { destruct (Z.eq_dec e (-1074)) as [-> | Hne]; [lia |].
    assert (Hlt : e + 52 < 53).
    { apply pow2_lt_inv. eapply Qle_lt_trans; [apply Hlink; lia |].
      change (Qabs (inject_Z z)) with (inject_Z (Z.abs z)).
      change (Js.pow2 53) with (inject_Z (2 ^ 53)). now rewrite <- Zlt_Qlt. }
    lia. }
  assert (Hq : 0 < 2 ^ (- e)) by (apply Z.pow_pos_nonneg; lia).
  assert (Hpow : (Js.pow2 e == inject_Z 1 / inject_Z (2 ^ (- e)))%Q).
  { rewrite pow2_quotient.
    destruct (Z.leb_spec 0 e) as [H0 | H0]; [| reflexivity].
    assert (e = 0) by lia. subst e. reflexivity. }
  rewrite Hval, Hpow in Herr.
  setoid_replace (inject_Z z) with (inject_Z z / inject_Z 1)%Q in Herr at 1
    by (now field).
  apply Qabs_grid_le in Herr; [| lia | exact Hq].
  assert (Hm : m = z * 2 ^ (- e)) by nia.
  assert (Heq : (Js.binary64 (inject_Z z) == inject_Z z)%Q).
  { rewrite Hval, Hpow, Hm, inject_Z_mult. field.
    intros H. change 0%Q with (inject_Z 0) in H.
    rewrite inject_Z_injective in H. lia. }
  apply binary64_canonical; [exact Heq | apply Qred_inject_Z].
Qed.

(** *** Buckets *)

Lemma weekStep_spec (zone : Js.Zone) (now : Js.Date) (entries : list SleepEntry)
      (acc : list string * list Q) (i : Z) :
  Local.weekStep zone now entries acc i
  = (fst acc ++ [Js.weekdayShort zone (Js.setDate_minus zone now i)],
     snd acc ++ [total (bucket zone now entries i)]).
Proof. reflexivity. Qed.

Lemma week_fold (zone : Js.Zone) (now : Js.Date) (entries : list SleepEntry) :
  fold_left (Local.weekStep zone now entries) [6; 5; 4; 3; 2; 1; 0] ([], [])
  = (map (fun i => Js.weekdayShort zone (Js.setDate_minus zone now i)) daysBack,
     map (fun i => total (bucket zone now entries i)) daysBack).
Proof.
  cbn [fold_left]. rewrite !weekStep_spec. reflexivity.
Qed.

(** The totals are those of the seven buckets, whatever the zone. *)
Lemma dailyDurations_buckets (zone : Js.Zone) (now : Js.Date)
      (entries : list SleepEntry) :
  dailyDurations (Local.getWeeklyStats zone now entries)
  = map (fun i => total (bucket zone now entries i)) daysBack.
Proof. unfold Local.getWeeklyStats. rewrite week_fold. reflexivity. Qed.

Lemma dayLabels_dates (zone : Js.Zone) (now : Js.Date) (entries : list SleepEntry) :
  dayLabels (Local.getWeeklyStats zone now entries)
  = map (fun i => Js.weekdayShort zone (Js.setDate_minus zone now i)) daysBack.
Proof. unfold Local.getWeeklyStats. rewrite week_fold. reflexivity. Qed.

Lemma weekdayShort_name (zone : Js.Zone) (d : Js.Date) :
  Js.weekdayShort zone d = weekdayName (Js.localDay zone d).
Proof. reflexivity. Qed.

(** On a whole day the test of the loop selects the bedtimes of that day. *)
Lemma within_day_iff (zone : Js.Zone) (date b : Js.Date) :
  wholeDay zone (Js.localDay zone date) ->
  Js.date_ge b (Js.setHours zone date 0 0 0 0)
  && Js.date_le b (Js.setHours zone date 23 59 59 999)
  = (Js.localDay zone b =? Js.localDay zone date).
Proof.
  intros Hwhole. specialize (Hwhole b).
  change (Js.setHours zone date 0 0 0 0)
    with (Js.ofLocal zone (Js.localDay zone date) 0).
  change (Js.setHours zone date 23 59 59 999)
    with (Js.ofLocal zone (Js.localDay zone date) (Js.msPerDay - 1)).
  unfold Js.date_ge, Js.date_le.
  destruct (Z.eqb_spec (Js.localDay zone b) (Js.localDay zone date)) as [Heq | Hne].
  - apply Hwhole in Heq. apply andb_true_iff. split; apply Z.leb_le; lia.
  - apply not_true_is_false. intros Hin. apply Hne, Hwhole.
    apply andb_true_iff in Hin. destruct Hin as [Hlo Hhi].
    apply Z.leb_le in Hlo, Hhi. lia.
Qed.

Lemma inBucket_day (zone : Js.Zone) (now : Js.Date) (i : Z) (e : SleepEntry) :
  landsOnDay zone now i -> wholeDay zone (Js.localDay zone now - i) ->
  inBucket zone now i e = (bedtimeDay zone e =? Js.localDay zone now - i).
Proof.
  intros Hland Hwhole. unfold inBucket. cbv zeta.
  rewrite within_day_iff; rewrite Hland; [reflexivity | exact Hwhole].
Qed.

Lemma bucket_day (zone : Js.Zone) (now : Js.Date) (entries : list SleepEntry) (i : Z) :
  landsOnDay zone now i -> wholeDay zone (Js.localDay zone now - i) ->
  total (bucket zone now entries i) = dayTotal zone entries (Js.localDay zone now - i).
Proof.
  intros Hland Hwhole. unfold bucket, dayTotal. f_equal.
  apply filter_ext. intros e. now apply inBucket_day.
Qed.

Lemma wholeWeek_lands (zone : Js.Zone) (now : Js.Date) (i : Z) :
  wholeWeek zone now -> 0 <= i <= 6 -> landsOnDay zone now i.
Proof. intros Hweek Hi. exact (proj1 (Hweek i Hi)). Qed.

Lemma wholeWeek_whole (zone : Js.Zone) (now : Js.Date) (i : Z) :
  wholeWeek zone now -> 0 <= i <= 6 -> wholeDay zone (Js.localDay zone now - i).
Proof. intros Hweek Hi. exact (proj2 (Hweek i Hi)). Qed.

Lemma dailyDurations_spec (zone : Js.Zone) (now : Js.Date) (entries : list SleepEntry) :
  wholeWeek zone now ->
  dailyDurations (Local.getWeeklyStats zone now entries)
  = map (dayTotal zone entries) (weekDays zone now).
Proof.
  intros Hweek. rewrite dailyDurations_buckets.
  unfold daysBack, weekDays. cbn [map].
  rewrite !bucket_day; try reflexivity;
    (apply wholeWeek_lands || apply wholeWeek_whole); (assumption || lia).
Qed.

Lemma dayLabels_spec (zone : Js.Zone) (now : Js.Date) (entries : list SleepEntry) :
  wholeWeek zone now ->
  dayLabels (Local.getWeeklyStats zone now entries)
  = map weekdayName (weekDays zone now).
Proof.
  intros Hweek. rewrite dayLabels_dates.
  unfold daysBack, weekDays. cbn [map].
  rewrite !weekdayShort_name.
  assert (Hland : forall i, 0 <= i <= 6 ->
                            Js.localDay zone (Js.setDate_minus zone now i)
                            = Js.localDay zone now - i)
    by (intros i Hi; now apply wholeWeek_lands).
  rewrite !Hland by lia. reflexivity.
Qed.

Lemma day_number (a day : Z) :
  a / 86400000 = day <-> day * 86400000 <= a < (day + 1) * 86400000.
Proof. split; intros H; Z.div_mod_to_equations; lia. Qed.

(** In a zone with a fixed offset every day is whole. *)
Lemma wholeWeek_fixedOffset (tzOffset : Z) (now : Js.Date) :
  wholeWeek (Js.fixedOffset tzOffset) now.
Proof.
  intros i _. split.
  - unfold landsOnDay, Js.setDate_minus, Js.ofLocal, Js.UTC, Js.localDay,
      Js.timeWithinDay, Js.localTime, Js.fixedOffset; simpl.
    change Js.msPerDay with 86400000.
    generalize (Js.getTime now + - (tzOffset * 60000)). intros t.
    Z.div_mod_to_equations. lia.
  - intros t.
    unfold Js.ofLocal, Js.UTC, Js.localDay, Js.localTime, Js.fixedOffset; simpl.
    change Js.msPerDay with 86400000.
    generalize (Js.getTime now + - (tzOffset * 60000)). intros n.
    generalize (Js.getTime t). intros b.
    split; intros H; Z.div_mod_to_equations; lia.
Qed.

(** A clock change away from midnight leaves every day whole, whatever the
    day lasts: 23 or 25 hours for a change of an hour. *)
Lemma wholeWeek_oneChange (change before after : Z) (now : Js.Date) :
  Zones.awayFromMidnight change before after ->
  wholeWeek (Zones.oneChange change before after) now.
Proof.
  intros (D & Hlo & Hhi) i _.
  change Js.msPerDay with 86400000 in *.
  split.
  - unfold landsOnDay, Js.setDate_minus, Js.ofLocal, Js.UTC, Js.localDay,
      Js.timeWithinDay, Js.localTime, Zones.oneChange.
    cbn [Js.getTime Js.offsetAt Js.offsetOfClock].
    change Js.msPerDay with 86400000.
    set (l := Js.getTime now + (if Js.getTime now <? change then before else after)).
    clearbody l.
    replace ((l / 86400000 - i) * 86400000 + l mod 86400000) with (l - i * 86400000)
      by (Z.div_mod_to_equations; lia).
    assert (Hday : (l - i * 86400000) / 86400000 = l / 86400000 - i)
      by (Z.div_mod_to_equations; lia).
    rewrite <- Hday. set (c := l - i * 86400000). clearbody c. clear Hday l.
    rewrite day_number.
    assert (Hc := proj1 (day_number c (c / 86400000)) eq_refl).
    destruct (Z.ltb_spec c (change + Z.max before after));
      match goal with
      | |- context [if ?b <? change then _ else _] => destruct (Z.ltb_spec b change)
      end; lia.
  - intros [t].
    unfold Js.ofLocal, Js.UTC, Js.localDay, Js.localTime, Zones.oneChange.
    cbn [Js.getTime Js.offsetAt Js.offsetOfClock].
    change Js.msPerDay with 86400000.
    set (d := (Js.getTime now + (if Js.getTime now <? change then before else after))
              / 86400000 - i).
    clearbody d.
    rewrite day_number.
    destruct (Z.ltb_spec t change);
      destruct (Z.ltb_spec (d * 86400000 + 0) (change + Z.max before after));
      destruct (Z.ltb_spec (d * 86400000 + (86400000 - 1)) (change + Z.max before after));
      lia.
Qed.

(** New York in the week of the change to summer time: the change is at
    02:00 on a Sunday, which lasts 23 hours, and the seven days are whole. *)
Lemma wholeWeek_newYork : wholeWeek Zones.newYork Zones.noonInNewYork.
Proof.
  apply wholeWeek_oneChange. exists 19792. vm_compute. split; discriminate.
Qed.

(** C5 (amended).  The weekly statistics always have seven buckets, with
    seven labels.  When no clock change touches the midnights of the seven
    days ending today, the buckets are those of the seven calendar days from
    six days ago to today, oldest first: the value of a day is the sum of
    the durations of the entries whose bedtime falls on it, and the labels
    are the names of these days.  For an empty repository: seven zeros,
    average 0, no entry. *)
Theorem getWeeklyStats_buckets (zone : Js.Zone) (now : Js.Date)
        (entries : list SleepEntry) :
  let w := Local.getWeeklyStats zone now entries in
  let empty := Local.getWeeklyStats zone now [] in
  (wholeWeek zone now ->
   dailyDurations w = map (dayTotal zone entries) (weekDays zone now) /\
   dayLabels w = map weekdayName (weekDays zone now)) /\
  List.length (dailyDurations w) = 7%nat /\
  List.length (dayLabels w) = 7%nat /\
  dailyDurations empty = [0; 0; 0; 0; 0; 0; 0]%Q /\
  (averageDuration empty == 0)%Q /\
  totalEntries empty = 0%nat.
Proof.
  cbv zeta. split; [| split; [| split; [| split; [| split]]]].
  - intros Hweek. split; [now apply dailyDurations_spec | now apply dayLabels_spec].
  - now rewrite dailyDurations_buckets.
  - now rewrite dayLabels_dates.
  - now rewrite dailyDurations_buckets.
  - unfold Local.getWeeklyStats. rewrite week_fold. reflexivity.
  - reflexivity.
Qed.

(** In New York, in the week of the change to summer time, the night begun
    on Saturday at 23:30 is counted on Saturday and the night begun on Sunday
    at 22:00 on Sunday, a day of 23 hours. *)
Lemma getWeeklyStats_buckets_witness :
  dailyDurations (Local.getWeeklyStats Zones.newYork Zones.noonInNewYork
                                       [Zones.sundayNight; Zones.saturdayNight])
  = [0; 0; 0; 6; 8; 0; 0]%Q /\
  dayLabels (Local.getWeeklyStats Zones.newYork Zones.noonInNewYork
                                  [Zones.sundayNight; Zones.saturdayNight])
  = ["Wed"; "Thu"; "Fri"; "Sat"; "Sun"; "Mon"; "Tue"]%string.
Proof.
  destruct (getWeeklyStats_buckets Zones.newYork Zones.noonInNewYork
                                   [Zones.sundayNight; Zones.saturdayNight])
    as [Hdays _].
  destruct (Hdays wholeWeek_newYork) as [Htotals Hlabels].
  split.
  - rewrite Htotals. vm_compute. reflexivity.
  - rewrite Hlabels. vm_compute. reflexivity.
Defined.

(** C5 as stated fails where the clock is changed at midnight.  In Santiago
    the clock went back from 24:00 to 23:00 on Saturday 6 April 2019.  A
    night begun at 23:30 after the change has its bedtime on that Saturday,
    a day of the window, and lasts 8 hours; but the Saturday bucket ends at
    the first 23:59:59.999 and the Sunday bucket begins at 00:00, so the
    night is in no bucket and the value of the Saturday is 0, not 8. *)
Lemma getWeeklyStats_midnight_change_loses_entry :
  let zone := Zones.santiago in
  let now := Zones.noonInSantiago in
  let entries := [Zones.longSaturdayNight] in
  let saturday := Js.localDay zone now - 3 in
  bedtimeDay zone Zones.longSaturdayNight = saturday /\
  nth 3 (weekDays zone now) 0 = saturday /\
  weekdayName saturday = "Sat"%string /\
  dayTotal zone entries saturday = 8%Q /\
  dayLabels (Local.getWeeklyStats zone now entries)
  = ["Wed"; "Thu"; "Fri"; "Sat"; "Sun"; "Mon"; "Tue"]%string /\
  dailyDurations (Local.getWeeklyStats zone now entries) = [0; 0; 0; 0; 0; 0; 0]%Q /\
  dailyDurations (Local.getWeeklyStats zone now entries)
  <> map (dayTotal zone entries) (weekDays zone now).
Proof.
  cbv zeta. vm_compute. repeat split; discriminate.
Qed.

(** With the other reading of wall-clock times the same defect shows where
    the clock goes forward at midnight, as in Santiago on 8 September 2019:
    the Sunday bucket begins at the instant read 23:00 on Saturday, and a
    night begun on Saturday at 23:30 is counted on both days. *)
Example getWeeklyStats_midnight_change_counts_twice :
  let zone := Zones.santiagoInSpring in
  let now := Zones.noonInSpring in
  let entries := [Zones.lastWinterNight] in
  weekDays zone now = map (fun i => Js.localDay zone (Js.setDate_minus zone now i)) daysBack /\
  map weekdayName (weekDays zone now)
  = ["Wed"; "Thu"; "Fri"; "Sat"; "Sun"; "Mon"; "Tue"]%string /\
  map (dayTotal zone entries) (weekDays zone now) = [0; 0; 0; 8; 0; 0; 0]%Q /\
  dailyDurations (Local.getWeeklyStats zone now entries) = [0; 0; 0; 8; 8; 0; 0]%Q.
Proof. vm_compute. repeat split. Qed.

(** *** The average *)

Lemma gt_zero_isPositive (d : Q) : Js.gt d 0 = isPositive d.
Proof.
  unfold Js.gt, isPositive, Qle_bool, Qcompare, Z.leb.
  destruct (Qnum d * QDen 0 ?= Qnum 0 * QDen d); reflexivity.
Qed.

Lemma isPositive_iff (d : Q) : isPositive d = true <-> (0 < d)%Q.
Proof.
  unfold isPositive. rewrite negb_true_iff, <- not_true_iff_false, Qle_bool_iff.
  split; [apply Qnot_le_lt | apply Qlt_not_le].
Qed.

Lemma isNonzero_iff (d : Q) : isNonzero d = true <-> ~ (d == 0)%Q.
Proof.
  unfold isNonzero. rewrite negb_true_iff, <- not_true_iff_false, Qeq_bool_iff.
  reflexivity.
Qed.

Lemma isPositive_isNonzero (d : Q) : (0 <= d)%Q -> isPositive d = isNonzero d.
Proof.
  intros Hd. apply eq_true_iff_eq. rewrite isPositive_iff, isNonzero_iff.
  split.
  - intros Hlt Heq. rewrite Heq in Hlt. now apply (Qlt_irrefl 0).
  - intros Hne. apply Qnot_le_lt. intros Hle. apply Hne.
    now apply Qle_antisym.
Qed.

Lemma dayTotal_no_entry (zone : Js.Zone) (entries : list SleepEntry) (day : Z) :
  (forall e, In e entries -> bedtimeDay zone e <> day) ->
  dayTotal zone entries day = 0%Q.
Proof.
  intros H. unfold dayTotal.
  replace (filter (fun e => bedtimeDay zone e =? day) entries) with (@nil SleepEntry);
    [reflexivity |].
  symmetry. induction entries as [| x l IH]; simpl; [reflexivity |].
  destruct (Z.eqb_spec (bedtimeDay zone x) day) as [Heq | _].
  - exfalso. apply (H x); [now left | exact Heq].
  - apply IH. intros e He. apply H. now right.
Qed.

(** The average before rounding, as the code computes it from the totals. *)
Lemma average_counted (totals : list Q) :
  let daysWithData := filter (fun d => Js.gt d 0) totals in
  (if (0 <? List.length daysWithData)%nat
   then Js.div (fold_left Js.add daysWithData 0%Q)
               (inject_Z (Z.of_nat (List.length daysWithData)))
   else 0%Q)
  = averageOf (filter isPositive totals).
Proof.
  cbv zeta.
  rewrite (filter_ext _ isPositive gt_zero_isPositive).
  now destruct (filter isPositive totals).
Qed.

(** The average of the statistics, from the totals of the statistics. *)
Lemma averageDuration_spec (zone : Js.Zone) (now : Js.Date) (entries : list SleepEntry) :
  let w := Local.getWeeklyStats zone now entries in
  averageDuration w
  = (inject_Z (Js.Math_round
                 (Js.mul (averageOf (filter isPositive (dailyDurations w))) 10)) / 10)%Q.
Proof.
  cbv zeta. rewrite dailyDurations_buckets.
  unfold Local.getWeeklyStats. rewrite week_fold. cbn [averageDuration].
  now rewrite average_counted.
Qed.

Lemma round_product_spec (x : Q) :
  roundedTenths x (inject_Z (Js.Math_round (Js.mul x 10)) / 10)%Q.
Proof.
  exists (Js.Math_round (Js.mul x 10)). split; [reflexivity |].
  apply Math_round_bounds.
Qed.

(** C4 (amended).  The totals are those of the seven buckets, and a bucket
    without an entry has no positive total.  The average is the mean of the
    totals that are strictly positive, rounded to one decimal place, and 0
    when there is none, in particular when every bucket is empty.  When no
    duration is negative, the strictly positive totals are the nonzero ones.
    [totalEntries] is the size of the whole repository. *)
Theorem getWeeklyStats_average (zone : Js.Zone) (now : Js.Date)
        (entries : list SleepEntry) :
  let w := Local.getWeeklyStats zone now entries in
  let counted := filter isPositive (dailyDurations w) in
  dailyDurations w = map (fun i => total (bucket zone now entries i)) daysBack /\
  (forall i, bucket zone now entries i = [] ->
             isPositive (total (bucket zone now entries i)) = false) /\
  roundedTenths (averageOf counted) (averageDuration w) /\
  (counted = [] -> (averageDuration w == 0)%Q) /\
  ((forall i, In i daysBack -> bucket zone now entries i = []) -> counted = []) /\
  ((forall e, In e entries -> (0 <= duration e)%Q) ->
   counted = filter isNonzero (dailyDurations w)) /\
  totalEntries w = List.length entries.
Proof.
  cbv zeta. split; [| split; [| split; [| split; [| split; [| split]]]]].
  - apply dailyDurations_buckets.
  - intros i Hempty. now rewrite Hempty.
  - rewrite averageDuration_spec. apply round_product_spec.
  - intros Hnone. rewrite averageDuration_spec, Hnone. reflexivity.
  - intros Hempty. rewrite dailyDurations_buckets.
    unfold daysBack in *. cbn [map].
    rewrite !Hempty; [reflexivity | ..]; simpl; tauto.
  - intros Hpos. rewrite dailyDurations_buckets.
    apply filter_ext_in. intros d Hd.
    apply in_map_iff in Hd. destruct Hd as (i & <- & _).
    apply isPositive_isNonzero, total_nonneg.
    intros e He. apply Hpos. unfold bucket in He. apply filter_In in He. tauto.
  - unfold Local.getWeeklyStats. rewrite week_fold. reflexivity.
Qed.

(** Two nights in New York, in the week of the change to summer time: both
    days are counted.  A repository whose only night is years old: no day is
    counted and the average is 0. *)
Lemma getWeeklyStats_average_witness :
  let recent := Local.getWeeklyStats Zones.newYork Zones.noonInNewYork
                                     [Zones.sundayNight; Zones.saturdayNight] in
  let old := Local.getWeeklyStats
               0 Scenario.lateEvening
               [mkSleepEntry "old" (Js.mkDate 0) (Js.mkDate 28800000) 8 None None] in
  filter isPositive (dailyDurations recent) = filter isNonzero (dailyDurations recent) /\
  (averageDuration old == 0)%Q.
Proof.
  cbv zeta. split.
  - pose proof (getWeeklyStats_average Zones.newYork Zones.noonInNewYork
                  [Zones.sundayNight; Zones.saturdayNight]) as H.
    cbv zeta in H. destruct H as (_ & _ & _ & _ & _ & Hnonneg & _).
    apply Hnonneg. intros e [<- | [<- | []]]; discriminate.
  - pose proof (getWeeklyStats_average
                  0 Scenario.lateEvening
                  [mkSleepEntry "old" (Js.mkDate 0) (Js.mkDate 28800000) 8 None None])
      as H.
    cbv zeta in H. destruct H as (_ & _ & _ & Hnone & Hempty & _).
    apply Hnone, Hempty. intros i Hi.
    unfold daysBack in Hi. simpl in Hi.
    destruct Hi as [<- | [<- | [<- | [<- | [<- | [<- | [<- | []]]]]]]];
      vm_compute; reflexivity.
Defined.

(** The two nights in New York: 6 hours on Saturday, 8 on Sunday, 7 on
    average.  With the fixed offset of the day of the question (UTC-4) the
    Saturday night would be counted on Sunday. *)
Example getWeeklyStats_newYork :
  let nights := [Zones.sundayNight; Zones.saturdayNight] in
  let w := Local.getWeeklyStats Zones.newYork Zones.noonInNewYork nights in
  dailyDurations w = [0; 0; 0; 6; 8; 0; 0]%Q /\
  (averageDuration w == 7)%Q /\
  dailyDurations (Local.getWeeklyStats 240 Zones.noonInNewYork nights)
  = [0; 0; 0; 0; 14; 0; 0]%Q.
Proof. vm_compute. repeat split. Qed.

(** C4 as stated fails.  [addEntry] is given a wake time two days before
    the bedtime and stores the duration -24.  Today's total is then -24, a
    nonzero total, but the day is not counted: the average is 0, which is
    not the mean of the nonzero totals rounded to one decimal place. *)
Lemma getWeeklyStats_negative_day_not_counted :
  let s := snd (Local.addEntry (Scenario.workingStorage None) "n"
                               (bedtime Scenario.lastNight) Scenario.twoDaysBefore
                               None Scenario.mounted) in
  let w := Local.getWeeklyStats 0 Scenario.lateEvening (entries s) in
  (nth 6 (dailyDurations w) 0 == -24)%Q /\
  filter isNonzero (dailyDurations w) = [nth 6 (dailyDurations w) 0%Q] /\
  (averageDuration w == 0)%Q /\
  ~ roundedTenths (averageOf (filter isNonzero (dailyDurations w)))
                  (averageDuration w).
Proof.
  cbv zeta. split; [reflexivity |]. split; [reflexivity |]. split; [reflexivity |].
  intros (n & Hr & Hlo & _).
  vm_compute in Hr. vm_compute in Hlo.
  destruct n as [| p | p]; try discriminate.
  apply Hlo. reflexivity.
Qed.

(** ** User settings *)




Lemma cancelBedtimeReminder_runs (os : Notifications.Os)
      (trace : list Notifications.Event) :
  Notifications.cancelBedtimeReminder os trace
  = (Return tt,
     trace ++ [Notifications.CallCancelBedtimeReminder;
               Notifications.OsCancelAllScheduled]).
Proof.
  unfold Notifications.cancelBedtimeReminder, Notifications.emit,
    tryCatch, bind, modify, await, ret.
  rewrite <- app_assoc. simpl.
  destruct (Notifications.cancelAllScheduledNotificationsAsync os) as [[] | e];
    reflexivity.
Qed.

Lemma scheduleBedtimeReminder_runs (os : Notifications.Os)
      (reminderTime : string) (targetHours : Q)
      (trace : list Notifications.Event) :
  exists identifier,
    Notifications.scheduleBedtimeReminder os reminderTime targetHours trace
    = (Return identifier,
       trace ++ [Notifications.CallScheduleBedtimeReminder reminderTime targetHours;
                 Notifications.CallCancelBedtimeReminder;
                 Notifications.OsCancelAllScheduled;
                 Notifications.OsScheduleDaily (reminderHour reminderTime)
                                               (reminderMinute reminderTime)
                                               targetHours]).
Proof.
  unfold Notifications.scheduleBedtimeReminder, tryCatch, bind.
  unfold Notifications.emit at 1. unfold modify at 1.
  rewrite cancelBedtimeReminder_runs.
  unfold Notifications.emit, modify, await, ret.
  fold (reminderHour reminderTime). fold (reminderMinute reminderTime).
  rewrite <- !app_assoc. simpl.
  destruct (Notifications.scheduleNotificationAsync os _ _ _) as [i | e];
    eexists; reflexivity.
Qed.

(** After the database has answered an update with the row [row], the hook
    stores it, asks the notification service, and returns [true], whatever
    the OS notification service does. *)
Lemma updateSettings_committed
      (supabase : Settings.Supabase) (os : Notifications.Os) (u : Auth.User)
      (nowIso : string) (updates : Settings.UpdateSettingsInput)
      (s : Settings.State) (previous : Settings.UserSettings)
      (row : Settings.DbUserSettings) :
  let patch :=
    Settings.mkSettingsPatch (Settings.in_targetHours updates)
                             (Settings.in_reminderEnabled updates)
                             (Settings.in_reminderTime updates)
                             (Settings.in_onboardingCompleted updates)
                             (Some nowIso) in
  Settings.settings s = Some previous ->
  Settings.updateSingle supabase (Auth.id u) patch = mkPgResponse (Some row) None ->
  Settings.updateSettings supabase os (Some u) nowIso updates s
  = (Return true,
     Settings.mkState (Some (Settings.toUserSettings row))
                      (Settings.loading s) (Settings.errorMsg s)
                      (Settings.requests s ++ [Settings.Update (Auth.id u) patch])
                      (Settings.notifications s
                       ++ reminderEvents (Settings.toUserSettings row))).
Proof.
  cbv zeta. intros Hprev Hupd.
  unfold Settings.updateSettings, bind, getState.
  rewrite Hprev.
  unfold tryCatch, unwrap, Settings.request, Settings.setSettings,
    Settings.setError, Settings.notify, modify, ret, throw.
  rewrite Hupd.
  unfold reminderEvents.
  cbn [error data Settings.reminderEnabled Settings.toUserSettings
       Settings.reminderTime Settings.targetHours].
  destruct (Settings.reminder_enabled row);
    cbn [Settings.settings Settings.loading Settings.errorMsg
         Settings.requests Settings.notifications].
  - destruct (scheduleBedtimeReminder_runs
                os (Settings.reminder_time row) (Settings.target_hours row)
                (Settings.notifications s)) as [identifier ->].
    reflexivity.
  - rewrite cancelBedtimeReminder_runs. reflexivity.
Qed.




(** With reminders disabled: one cancel, no scheduling. *)
Example updateSettings_disabled_only_cancels :
  let after :=
    Settings.updateSettings Scenario.tableWithDefaults Scenario.workingOs
                            (Some Scenario.someUser) "t1"
                            (Settings.mkUpdateSettingsInput (Some (15 # 2)) None None None)
                            Scenario.defaultsLoaded in
  fst after = Return true /\
  Settings.notifications (snd after)
  = [Notifications.CallCancelBedtimeReminder; Notifications.OsCancelAllScheduled].
Proof. split; reflexivity. Qed.

(** ** Examples from the specification *)

Example formatDuration_examples :
  Local.formatDuration 8 = "8h"%string /\
  Local.formatDuration (15 # 2) = "7h 30m"%string /\
  Local.formatDuration 0 = "0h"%string.
Proof. repeat split. Qed.

Example calculateDuration_overnight :
  (Local.calculateDuration (Js.mkDate 79200000) (Js.mkDate 25200000) == 9)%Q /\
  (Local.calculateDuration (Js.mkDate 79200000) (Js.mkDate 79200000) == 0)%Q.
Proof. split; reflexivity. Qed.

(** Two entries of 3 and 2 hours on one day and one entry of 8 hours on the
    day before: totals 5 and 8, average 6.5 over the two days with data. *)
Example getWeeklyStats_two_days :
  let w :=
    Local.getWeeklyStats 0 Scenario.lateEvening
      [mkSleepEntry "1" (Js.mkDate 8719200000) (Js.mkDate 8730000000) 3 None None;
       mkSleepEntry "2" (Js.mkDate 8690400000) (Js.mkDate 8697600000) 2 None None;
       mkSleepEntry "3" (Js.mkDate 8632800000) (Js.mkDate 8661600000) 8 None None] in
  Forall2 Qeq (dailyDurations w) [0; 0; 0; 0; 0; 8; 5]%Q /\
  dayLabels w = ["Sun"; "Mon"; "Tue"; "Wed"; "Thu"; "Fri"; "Sat"]%string /\
  (averageDuration w == 13 # 2)%Q /\
  totalEntries w = 3%nat.
Proof.
  cbv zeta. split; [| repeat split].
  repeat constructor.
Qed.

(** * Further properties of the hooks *)

(** ** The AsyncStorage variant *)

Lemma sort_length (l : list SleepEntry) :
  List.length (Js.sort Local.byBedtimeDesc l) = List.length l.
Proof. symmetry. apply Permutation_length, sort_perm. Qed.

(** X1.  [loadEntries] never throws and always ends with [loading] off.  A
    stored collection becomes the snapshot, sorted by bedtime descending and
    with the same entries; no stored item gives the empty snapshot; a failing
    read keeps the snapshot and raises the error flag. *)
Theorem local_loadEntries_outcome (storage : Local.AsyncStorage) (s : StorageState) :
  let after := Local.loadEntries storage s in
  fst after = Return tt /\
  loading (snd after) = false /\
  match Local.getItem storage with
  | Return (Some parsed) =>
      sortedByBedtimeDesc (entries (snd after)) /\
      Permutation parsed (entries (snd after)) /\
      errorMsg (snd after) = None
  | Return None => entries (snd after) = [] /\ errorMsg (snd after) = None
  | Throw _ =>
      entries (snd after) = entries s /\
      errorMsg (snd after) = Some "Failed to load sleep data"%string
  end.
Proof.
  cbv zeta.
  unfold Local.loadEntries, tryFinally, tryCatch, bind, await, setLoading,
    setError, setEntries, modify.
  destruct (Local.getItem storage) as [[parsed |] | e]; simpl.
  - repeat split; [apply sort_sorted | apply sort_perm].
  - repeat split.
  - repeat split.
Qed.

Lemma findIndex_none {A : Type} (p : A -> bool) (l : list A) :
  (forall x, In x l -> p x = false) -> Js.findIndex p l = None.
Proof.
  induction l as [| x l IH]; intros H; simpl; [reflexivity |].
  rewrite (H x (or_introl eq_refl)), IH; [reflexivity |].
  intros y Hy. apply H. now right.
Qed.

Lemma findIndex_some {A : Type} (p : A -> bool) (l : list A) (x : A) :
  In x l -> p x = true ->
  exists index y, Js.findIndex p l = Some index /\
                  nth_error l index = Some y /\ p y = true /\
                  forall j z, (j < index)%nat -> nth_error l j = Some z -> p z = false.
Proof.
  induction l as [| a l IH]; intros Hin Hp; [contradiction |].
  simpl. destruct (p a) eqn:Ha.
  - exists O, a. repeat split; auto. intros j z Hj. inversion Hj.
  - destruct Hin as [-> | Hin]; [congruence |].
    destruct (IH Hin Hp) as (index & y & -> & Hnth & Hy & Hbefore).
    exists (S index), y. repeat split; auto.
    intros [| j] z Hj Hz; simpl in Hz.
    + now inversion Hz; subst.
    + apply (Hbefore j z); [lia | exact Hz].
Qed.

Lemma setAt_length {A : Type} (l : list A) (index : nat) (v : A) :
  List.length (Js.setAt l index v) = List.length l.
Proof.
  revert index. induction l as [| x l IH]; intros [| n]; simpl; auto.
Qed.

Lemma setAt_In {A : Type} (l : list A) (index : nat) (v y : A) :
  nth_error l index = Some y -> In v (Js.setAt l index v).
Proof.
  revert index. induction l as [| x l IH]; intros [| n] H; simpl in *;
    try discriminate.
  - now left.
  - right. now apply (IH n).
Qed.

(** An element of the array after [arr[index] = v] is [v] or an element found
    at another index before. *)
Lemma setAt_elements {A : Type} (l : list A) (index : nat) (v z : A) :
  In z (Js.setAt l index v) ->
  z = v \/ exists j, j <> index /\ nth_error l j = Some z.
Proof.
  revert index. induction l as [| x l IH]; intros [| n] H; simpl in H;
    try contradiction.
  - destruct H as [<- | H]; [now left |].
    right. apply In_nth_error in H. destruct H as [j Hj].
    exists (S j). split; [discriminate | exact Hj].
  - destruct H as [<- | H].
    + right. exists O. split; [discriminate | reflexivity].
    + destruct (IH n H) as [-> | (j & Hj & Hnth)]; [now left |].
      right. exists (S j). split; [congruence | exact Hnth].
Qed.

Lemma unique_id_index (l : list SleepEntry) (i j : nat) (a b : SleepEntry) :
  NoDup (map id l) ->
  nth_error l i = Some a -> nth_error l j = Some b -> id a = id b -> i = j.
Proof.
  intros Hnd Ha Hb Hid.
  apply (proj1 (NoDup_nth_error (map id l)) Hnd).
  - rewrite length_map. apply nth_error_Some. congruence.
  - rewrite !nth_error_map, Ha, Hb. simpl. now rewrite Hid.
Qed.

Lemma find_first_match {A : Type} (p : A -> bool) (l : list A) (x : A) :
  In x l -> p x = true -> exists y, find p l = Some y.
Proof.
  intros Hin Hp. destruct (find p l) as [y |] eqn:Hf; [now exists y |].
  rewrite (find_none p l Hf x Hin) in Hp. discriminate.
Qed.

(** X2.  [updateEntry] with an id that is not in the snapshot returns [null]
    and changes nothing, whatever the storage would answer: nothing is
    written. *)
Theorem local_updateEntry_unknown_id
        (storage : Local.AsyncStorage) (eid : string) (bedtime wakeTime : Js.Date)
        (note : option string) (s : StorageState) :
  (forall e, In e (entries s) -> id e <> eid) ->
  Local.updateEntry storage eid bedtime wakeTime note s = (Return None, s).
Proof.
  intros Habs.
  assert (Hnone : Js.findIndex (fun e => String.eqb (id e) eid) (entries s) = None).
  { apply findIndex_none. intros e He. apply String.eqb_neq. now apply Habs. }
  unfold Local.updateEntry, bind, getState. rewrite Hnone. reflexivity.
Qed.

Lemma local_updateEntry_unknown_id_witness :
  Local.updateEntry (Scenario.readOnlyStorage Scenario.quotaExceeded) "zz"
                    Scenario.nightBeforeBed Scenario.nightBeforeWake None
                    (mkStorageState [Scenario.lastNight] false None)
  = (Return None, mkStorageState [Scenario.lastNight] false None).
Proof.
  apply (local_updateEntry_unknown_id
           (Scenario.readOnlyStorage Scenario.quotaExceeded) "zz").
  intros e [<- | []]. discriminate.
Defined.



(** X4.  After a successful [addEntry] the new entry carries the generated
    id and the duration computed from its own times; it is the first element
    of the snapshot, in front of the unchanged old entries, and [getEntry]
    finds it under its id (also when an older entry has the same id). *)
Theorem local_addEntry_then_getEntry
        (storage : Local.AsyncStorage) (newId : string) (bedtime wakeTime : Js.Date)
        (note : option string) (s : StorageState) :
  (forall l, Local.setItem storage l = Return tt) ->
  let added :=
    mkSleepEntry newId bedtime wakeTime (Local.calculateDuration bedtime wakeTime)
                 (Js.normalizeNote note) None in
  let after := Local.addEntry storage newId bedtime wakeTime note s in
  fst after = Return added /\
  entries (snd after) = added :: entries s /\
  Local.getEntry (snd after) newId = Some added /\
  Local.getLatestEntry (snd after) = Some added /\
  (forall eid, eid <> newId ->
               Local.getEntry (snd after) eid = Local.getEntry s eid).
Proof.
  intros Hwrite. cbv zeta.
  unfold Local.addEntry, Local.saveEntries, bind, getState, tryCatch, await,
    setEntries, modify, ret.
  rewrite Hwrite. simpl.
  split; [reflexivity |]. split; [reflexivity |].
  unfold Local.getEntry, Local.getLatestEntry. simpl.
  rewrite String.eqb_refl.
  split; [reflexivity |]. split; [reflexivity |].
  intros eid Hne.
  destruct (String.eqb_spec newId eid) as [Heq | _]; [congruence | reflexivity].
Qed.

Lemma local_addEntry_then_getEntry_witness :
  Local.getEntry
    (snd (Local.addEntry (Scenario.workingStorage None) "b"
                         Scenario.nightBeforeBed Scenario.nightBeforeWake
                         (Some "  slept well "%string) Scenario.mounted)) "b"
  = Some (mkSleepEntry "b" Scenario.nightBeforeBed Scenario.nightBeforeWake
                       (Local.calculateDuration Scenario.nightBeforeBed
                                                Scenario.nightBeforeWake)
                       (Some "slept well"%string) None).
Proof.
  apply (local_addEntry_then_getEntry
           (Scenario.workingStorage None) "b"
           Scenario.nightBeforeBed Scenario.nightBeforeWake
           (Some "  slept well "%string) Scenario.mounted).
  intros l. reflexivity.
Defined.

Lemma filter_length_lt {A : Type} (f : A -> bool) (l : list A) (x : A) :
  In x l -> f x = false -> (List.length (filter f l) < List.length l)%nat.
Proof.
  induction l as [| a l IH]; intros Hin Hf; [contradiction |].
  simpl. pose proof (filter_length_le f l) as Hle.
  destruct Hin as [-> | Hin].
  - rewrite Hf. lia.
  - specialize (IH Hin Hf). destruct (f a); simpl; lia.
Qed.

Lemma notEarlier_trans (a b c : SleepEntry) :
  notEarlier a b -> notEarlier b c -> notEarlier a c.
Proof. unfold notEarlier. lia. Qed.

(** Removing entries keeps the snapshot sorted. *)
Lemma filter_sorted (f : SleepEntry -> bool) (l : list SleepEntry) :
  sortedByBedtimeDesc l -> sortedByBedtimeDesc (filter f l).
Proof.
  unfold sortedByBedtimeDesc. intros Hs.
  apply StronglySorted_Sorted.
  apply Sorted_StronglySorted in Hs; [| exact notEarlier_trans].
  induction Hs as [| a l Hl IH Hall]; simpl; [constructor |].
  destruct (f a); [| exact IH].
  constructor; [exact IH |].
  apply Forall_forall. intros x Hx. apply filter_In in Hx.
  rewrite Forall_forall in Hall. apply Hall. tauto.
Qed.

Lemma find_absent {A : Type} (p : A -> bool) (l : list A) :
  (forall x, In x l -> p x = false) -> find p l = None.
Proof.
  intros H. destruct (find p l) as [y |] eqn:Hf; [| reflexivity].
  apply find_some in Hf. destruct Hf as [Hin Hp].
  rewrite (H y Hin) in Hp. discriminate.
Qed.

(** X5.  [deleteEntry] with an id of the snapshot, the write succeeding,
    returns [true]; the snapshot then holds exactly the old entries with
    another id, in their old order (so it stays sorted when it was), it is
    shorter, and [getEntry] no longer finds the id. *)
Theorem local_deleteEntry_removes
        (storage : Local.AsyncStorage) (eid : string) (s : StorageState)
        (target : SleepEntry) :
  In target (entries s) -> id target = eid ->
  (forall l, Local.setItem storage l = Return tt) ->
  let after := Local.deleteEntry storage eid s in
  fst after = Return true /\
  entries (snd after) = filter (fun e => negb (hasId eid e)) (entries s) /\
  (forall e, In e (entries (snd after)) <-> In e (entries s) /\ id e <> eid) /\
  Local.getEntry (snd after) eid = None /\
  (List.length (entries (snd after)) < List.length (entries s))%nat /\
  (sortedByBedtimeDesc (entries s) -> sortedByBedtimeDesc (entries (snd after))).
Proof.
  intros Hin Hid Hwrite. cbv zeta.
  assert (Hlt : (List.length (filter (fun e => negb (String.eqb (id e) eid)) (entries s))
                 < List.length (entries s))%nat).
  { apply (filter_length_lt _ _ target Hin). rewrite Hid, String.eqb_refl. reflexivity. }
  assert (Hrun : Local.deleteEntry storage eid s
                 = (Return true,
                    mkStorageState (filter (fun e => negb (String.eqb (id e) eid)) (entries s))
                                   (loading s) (errorMsg s))).
  { unfold Local.deleteEntry, Local.saveEntries, bind, getState, tryCatch, await,
      setEntries, modify, ret.
    destruct (Nat.eqb_spec
                (List.length (filter (fun e => negb (String.eqb (id e) eid)) (entries s)))
                (List.length (entries s))) as [Heq | _]; [lia |].
    rewrite Hwrite. reflexivity. }
  rewrite Hrun. simpl.
  split; [reflexivity |]. split; [reflexivity |].
  split; [| split; [| split]].
  - intros e. rewrite filter_In, negb_true_iff, String.eqb_neq. reflexivity.
  - unfold Local.getEntry. simpl. apply find_absent.
    intros x Hx. apply filter_In in Hx. destruct Hx as [_ Hx].
    now apply negb_true_iff in Hx.
  - exact Hlt.
  - apply filter_sorted.
Qed.

Lemma local_deleteEntry_removes_witness :
  fst (Local.deleteEntry (Scenario.workingStorage None) "a"
                         (mkStorageState [Scenario.lastNight] false None))
  = Return true /\
  Local.getEntry
    (snd (Local.deleteEntry (Scenario.workingStorage None) "a"
                            (mkStorageState [Scenario.lastNight] false None))) "a"
  = None.
Proof.
  pose proof (local_deleteEntry_removes
                (Scenario.workingStorage None) "a"
                (mkStorageState [Scenario.lastNight] false None)
                Scenario.lastNight (or_introl eq_refl) eq_refl (fun _ => eq_refl)) as H.
  cbv zeta in H. destruct H as (Hret & _ & _ & Hget & _).
  split; [exact Hret | exact Hget].
Defined.

(** X6.  A failing write never changes the snapshot.  When the storage
    rejects the write with [e], [updateEntry] and [deleteEntry] of a known id
    throw [e] with the snapshot as before and the flag "Failed to save sleep
    data"; when it rejects the removal, [clearAllData] throws [e] with the
    snapshot as before and the flag "Failed to clear sleep data". *)
Theorem local_failed_write_keeps_snapshot
        (storage : Local.AsyncStorage) (eid : string) (bedtime wakeTime : Js.Date)
        (note : option string) (s : StorageState) (e : JsError) :
  (forall l, Local.setItem storage l = Throw e) ->
  Local.removeItem storage = Throw e ->
  (forall target,
      In target (entries s) -> id target = eid ->
      Local.updateEntry storage eid bedtime wakeTime note s
      = (Throw e, mkStorageState (entries s) (loading s)
                                 (Some "Failed to save sleep data"%string)) /\
      Local.deleteEntry storage eid s
      = (Throw e, mkStorageState (entries s) (loading s)
                                 (Some "Failed to save sleep data"%string))) /\
  Local.clearAllData storage s
  = (Throw e, mkStorageState (entries s) (loading s)
                             (Some "Failed to clear sleep data"%string)).
Proof.
  intros Hwrite Hremove. split.
  - intros target Hin Hid. split.
    + destruct (findIndex_some (fun x => String.eqb (id x) eid) (entries s) target Hin)
        as (index & y & Hfind & _).
      { now apply String.eqb_eq. }
      unfold Local.updateEntry, Local.saveEntries, bind, getState, tryCatch, await,
        setError, modify, throw.
      rewrite Hfind, Hwrite. reflexivity.
    + unfold Local.deleteEntry, Local.saveEntries, bind, getState, tryCatch, await,
        setError, modify, throw.
      destruct (Nat.eqb_spec
                  (List.length (filter (fun x => negb (String.eqb (id x) eid)) (entries s)))
                  (List.length (entries s))) as [Heq | _].
      * pose proof (filter_length_lt (fun x => negb (String.eqb (id x) eid))
                                     (entries s) target Hin) as Hlt.
        cbv beta in Hlt. rewrite Hid, String.eqb_refl in Hlt.
        specialize (Hlt eq_refl). lia.
      * rewrite Hwrite. reflexivity.
  - unfold Local.clearAllData, bind, tryCatch, await, setError, modify, throw.
    rewrite Hremove. reflexivity.
Qed.

Lemma local_failed_write_keeps_snapshot_witness :
  Local.deleteEntry (Scenario.readOnlyStorage Scenario.quotaExceeded) "a"
                    (mkStorageState [Scenario.lastNight] false None)
  = (Throw Scenario.quotaExceeded,
     mkStorageState [Scenario.lastNight] false (Some "Failed to save sleep data"%string)).
Proof.
  pose proof (local_failed_write_keeps_snapshot
                (Local.mkAsyncStorage (Return None)
                                      (fun _ => Throw Scenario.quotaExceeded)
                                      (Throw Scenario.quotaExceeded))
                "a" Scenario.nightBeforeBed Scenario.nightBeforeWake None
                (mkStorageState [Scenario.lastNight] false None)
                Scenario.quotaExceeded (fun _ => eq_refl) eq_refl) as [H _].
  exact (proj2 (H Scenario.lastNight (or_introl eq_refl) eq_refl)).
Defined.

(** ** The Supabase variant *)

(** X7.  Signed out, the Supabase variant permits no write: [addEntry],
    [updateEntry], [deleteEntry] and [clearAllData] throw "User not
    authenticated" and leave the state as it is, whatever the database would
    answer; [loadEntries] does nothing; the effect run on sign-out empties
    the snapshot and switches [loading] off. *)
Theorem remote_signed_out
        (supabase : Remote.Supabase) (eid : string) (bedtime wakeTime : Js.Date)
        (note : option string) (quality : option Z) (s : StorageState) :
  Remote.addEntry supabase None bedtime wakeTime note quality s
  = (Throw notAuthenticated, s) /\
  Remote.updateEntry supabase None eid bedtime wakeTime note quality s
  = (Throw notAuthenticated, s) /\
  Remote.deleteEntry supabase None eid s = (Throw notAuthenticated, s) /\
  Remote.clearAllData supabase None s = (Throw notAuthenticated, s) /\
  Remote.loadEntries supabase None s = (Return tt, s) /\
  RemoteEffects.onUserChange supabase None s
  = (Return tt, mkStorageState [] false (errorMsg s)).
Proof. repeat split. Qed.

Lemma map_replace_length (eid : string) (updated : SleepEntry) (l : list SleepEntry) :
  List.length (map (fun e => if String.eqb (id e) eid then updated else e) l)
  = List.length l.
Proof. apply length_map. Qed.

Lemma map_replace_absent (eid : string) (updated : SleepEntry) (l : list SleepEntry) :
  (forall e, In e l -> id e <> eid) ->
  map (fun e => if String.eqb (id e) eid then updated else e) l = l.
Proof.
  induction l as [| x l IH]; intros H; simpl; [reflexivity |].
  destruct (String.eqb_spec (id x) eid) as [Heq | _].
  - exfalso. now apply (H x (or_introl eq_refl)).
  - f_equal. apply IH. intros e He. apply H. now right.
Qed.



(** X9.  [deleteEntry] of the Supabase variant: a database error is thrown
    and nothing changes; otherwise it returns [true] and the snapshot holds
    exactly the old entries with another id, in their old order (sorted when
    it was sorted), so [getEntry] no longer finds the id. *)
Theorem remote_deleteEntry_outcome
        (supabase : Remote.Supabase) (u : Auth.User) (eid : string)
        (s : StorageState) :
  let after := Remote.deleteEntry supabase (Some u) eid s in
  match error (Remote.deleteRow supabase eid (Auth.id u)) with
  | Some e => after = (Throw e, s)
  | None =>
      fst after = Return true /\
      entries (snd after) = filter (fun e => negb (hasId eid e)) (entries s) /\
      (forall e, In e (entries (snd after)) <-> In e (entries s) /\ id e <> eid) /\
      Remote.getEntry (snd after) eid = None /\
      (sortedByBedtimeDesc (entries s) -> sortedByBedtimeDesc (entries (snd after))) /\
      loading (snd after) = loading s /\ errorMsg (snd after) = errorMsg s
  end.
Proof.
  cbv zeta.
  unfold Remote.deleteEntry, bind, setEntries, modify, ret, throw.
  destruct (error (Remote.deleteRow supabase eid (Auth.id u))) as [e |];
    [reflexivity |].
  simpl.
  split; [reflexivity |]. split; [reflexivity |].
  split; [| split; [| split; [| split; reflexivity]]].
  - intros e. rewrite filter_In, negb_true_iff, String.eqb_neq. reflexivity.
  - unfold Remote.getEntry. simpl. apply find_absent.
    intros x Hx. apply filter_In in Hx. destruct Hx as [_ Hx].
    now apply negb_true_iff in Hx.
  - apply filter_sorted.
Qed.

Lemma remote_deleteEntry_outcome_witness :
  sortedByBedtimeDesc
    (entries (snd (Remote.deleteEntry RemoteScenario.twoNights (Some Scenario.someUser)
                                      "a" RemoteScenario.loaded))).
Proof.
  pose proof (remote_deleteEntry_outcome
                RemoteScenario.twoNights Scenario.someUser "a"
                RemoteScenario.loaded) as H.
  cbv zeta in H. simpl error in H. cbv iota in H.
  destruct H as (_ & _ & _ & _ & Hsorted & _).
  apply Hsorted. repeat constructor. unfold notEarlier. simpl. lia.
Defined.

Lemma rows_sorted_entries_sorted (rows : list Remote.DbSleepEntry) :
  rowsByBedtimeDesc rows ->
  sortedByBedtimeDesc (map Remote.toSleepEntry rows).
Proof.
  unfold rowsByBedtimeDesc, sortedByBedtimeDesc.
  induction 1 as [| a l Hl IH Hhd]; simpl; [constructor |].
  constructor; [exact IH |].
  destruct Hhd as [| b l' Hab]; simpl; constructor. exact Hab.
Qed.

(** X10.  [loadEntries] of the Supabase variant, signed in, never throws and
    ends with [loading] off.  The rows become the snapshot in the order the
    database returns them, without a sort on the client, so the snapshot is
    sorted by bedtime descending when the rows are; an answer without rows
    gives the empty snapshot; a database error keeps the snapshot and raises
    the error flag. *)
Theorem remote_loadEntries_outcome
        (supabase : Remote.Supabase) (u : Auth.User) (s : StorageState) :
  let response := Remote.selectEntries supabase (Auth.id u) in
  let after := Remote.loadEntries supabase (Some u) s in
  fst after = Return tt /\
  loading (snd after) = false /\
  match error response, data response with
  | Some _, _ =>
      entries (snd after) = entries s /\
      errorMsg (snd after) = Some "Failed to load sleep data"%string
  | None, Some rows =>
      entries (snd after) = map Remote.toSleepEntry rows /\
      errorMsg (snd after) = None /\
      (rowsByBedtimeDesc rows -> sortedByBedtimeDesc (entries (snd after)))
  | None, None => entries (snd after) = [] /\ errorMsg (snd after) = None
  end.
Proof.
  cbv zeta.
  unfold Remote.loadEntries, tryFinally, tryCatch, unwrap, bind, setLoading,
    setError, setEntries, modify, ret, throw.
  destruct (Remote.selectEntries supabase (Auth.id u)) as [d err].
  destruct err as [e |]; [| destruct d as [rows |]]; simpl.
  - repeat split.
  - split; [reflexivity |]. split; [reflexivity |].
    split; [reflexivity |]. split; [reflexivity |].
    apply rows_sorted_entries_sorted.
  - repeat split.
Qed.

Lemma remote_loadEntries_outcome_witness :
  sortedByBedtimeDesc (entries RemoteScenario.loaded).
Proof.
  pose proof (remote_loadEntries_outcome
                RemoteScenario.twoNights Scenario.someUser Scenario.mounted) as H.
  cbv zeta in H. simpl error in H. simpl data in H. cbv iota in H.
  destruct H as (_ & _ & _ & _ & Hsorted).
  apply Hsorted. repeat constructor. simpl. lia.
Defined.

(** ** More on the weekly statistics *)

(** The sums are sums of doubles, taken in the order of the snapshot and of
    the days: the same nights in another order can give another average.
    Three nights of 0.5, 0.6 and 0.6 hours on one day and a night of 1.4
    hours on the next: the average is 1.6 or 1.5. *)
Example getWeeklyStats_order_matters :
  let nap (eid : string) (bedtime : Z) (hours : Q) :=
    mkSleepEntry eid (Js.mkDate bedtime) (Js.mkDate bedtime) hours None None in
  let a := nap "a"%string 8640000000 (5 # 10)%Q in
  let b := nap "b"%string 8640000001 (6 # 10)%Q in
  let c := nap "c"%string 8640000002 (6 # 10)%Q in
  let d := nap "d"%string 8553600000 (14 # 10)%Q in
  averageDuration (Local.getWeeklyStats 0 Scenario.lateEvening [a; b; c; d])
  = (16 # 10)%Q /\
  averageDuration (Local.getWeeklyStats 0 Scenario.lateEvening [c; b; a; d])
  = (15 # 10)%Q.
Proof. vm_compute. split; reflexivity. Qed.

Lemma inBucket_count (zone : Js.Zone) (now : Js.Date) (e : SleepEntry) :
  wholeWeek zone now ->
  filter (fun i => inBucket zone now i e) daysBack
  = filter (fun i => bedtimeDay zone e =? Js.localDay zone now - i) daysBack.
Proof.
  intros Hweek. apply filter_ext_in. intros i Hi.
  assert (Hrange : 0 <= i <= 6).
  { unfold daysBack in Hi. simpl in Hi.
    destruct Hi as [<- | [<- | [<- | [<- | [<- | [<- | [<- | []]]]]]]]; lia. }
  apply inBucket_day; [now apply wholeWeek_lands | now apply wholeWeek_whole].
Qed.

(** X13.  When no clock change touches the midnights of the seven days
    ending today, every entry whose bedtime falls in the window is put in
    exactly one bucket, and an entry outside the window in none; the totals
    are the sums of the buckets. *)
Theorem getWeeklyStats_buckets_partition
        (zone : Js.Zone) (now : Js.Date) (entries : list SleepEntry) :
  wholeWeek zone now ->
  dailyDurations (Local.getWeeklyStats zone now entries)
  = map (fun i => total (filter (inBucket zone now i) entries)) daysBack /\
  forall e,
    List.length (filter (fun i => inBucket zone now i e) daysBack)
    = if inWindow zone now e then 1%nat else 0%nat.
Proof.
  intros Hweek. split; [apply dailyDurations_buckets |].
  intros e. rewrite inBucket_count by exact Hweek.
  unfold inWindow, daysBack. cbn [filter].
  set (d := bedtimeDay zone e). set (t := Js.localDay zone now).
  destruct (Z.eqb_spec d (t - 6)); destruct (Z.eqb_spec d (t - 5));
    destruct (Z.eqb_spec d (t - 4)); destruct (Z.eqb_spec d (t - 3));
    destruct (Z.eqb_spec d (t - 2)); destruct (Z.eqb_spec d (t - 1));
    destruct (Z.eqb_spec d (t - 0)); try lia;
    destruct (Z.leb_spec (t - 6) d); destruct (Z.leb_spec d t); try lia;
    reflexivity.
Qed.

Lemma getWeeklyStats_buckets_partition_witness :
  List.length (filter (fun i => inBucket Zones.newYork Zones.noonInNewYork i
                                         Zones.saturdayNight) daysBack)
  = 1%nat.
Proof.
  exact (proj2 (getWeeklyStats_buckets_partition
                  Zones.newYork Zones.noonInNewYork [Zones.saturdayNight]
                  wholeWeek_newYork) Zones.saturdayNight).
Defined.

(** ** More on the time utilities *)

Lemma Math_round_comp (x y : Q) : (x == y)%Q -> Js.Math_round x = Js.Math_round y.
Proof. intros H. unfold Js.Math_round. now rewrite H. Qed.

Lemma Math_round_Z (k : Z) : Js.Math_round (inject_Z k) = k.
Proof.
  unfold Js.Math_round. apply Qfloor_unique.
  - rewrite <- (Qplus_0_r (inject_Z k)) at 1. apply Qplus_le_r. discriminate.
  - rewrite inject_Z_plus. apply Qplus_lt_r. reflexivity.
Qed.

Lemma Math_round_mono (x y : Q) : (x <= y)%Q -> Js.Math_round x <= Js.Math_round y.
Proof.
  intros H. unfold Js.Math_round. apply Qfloor_resp_le. now apply Qplus_le_l.
Qed.

Lemma Math_floor_tenths (n : Z) : Js.Math_floor (inject_Z n / 10) = n / 10.
Proof.
  unfold Js.Math_floor, Qfloor, Qdiv, Qmult, Qinv, inject_Z. simpl.
  now rewrite Z.mul_1_r.
Qed.

Lemma tenths_minutes (n : Z) :
  Js.Math_round ((inject_Z n / 10 - inject_Z (n / 10)) * 60) = 6 * (n mod 10).
Proof.
  rewrite <- (Math_round_Z (6 * (n mod 10))). apply Math_round_comp.
  rewrite (Z.div_mod n 10) at 1 by lia.
  rewrite !inject_Z_plus, !inject_Z_mult. field.
Qed.

(** A duration of [n] tenths of an hour is printed with six minutes a tenth. *)
Lemma formatDuration_tenths (n : Z) :
  Local.formatDuration (inject_Z n / 10) = tenthsText n.
Proof.
  unfold Local.formatDuration, tenthsText.
  rewrite Math_floor_tenths, tenths_minutes.
  destruct (Z.eqb_spec (n mod 10) 0) as [-> | Hne]; [reflexivity |].
  destruct (Z.eqb_spec (6 * (n mod 10)) 0); [lia | reflexivity].
Qed.

(** X14.  On the numbers the hooks compute, [formatDuration] never prints 60
    minutes: a duration returned by [calculateDuration] and the average of
    the weekly statistics are whole numbers of tenths of an hour, and such a
    number [k/10] is printed with the hour part [floor(k/10)] and the minutes
    [6 * (k mod 10)], at most 54, omitted when 0. *)
Theorem formatDuration_of_computed_values
        (bedtime wakeTime : Js.Date) (zone : Js.Zone) (now : Js.Date)
        (entries : list SleepEntry) :
  (exists k,
      Local.calculateDuration bedtime wakeTime = (inject_Z k / 10)%Q /\
      Local.formatDuration (Local.calculateDuration bedtime wakeTime) = tenthsText k /\
      0 <= 6 * (k mod 10) <= 54) /\
  (exists k,
      averageDuration (Local.getWeeklyStats zone now entries) = (inject_Z k / 10)%Q /\
      Local.formatDuration (averageDuration (Local.getWeeklyStats zone now entries))
      = tenthsText k /\
      0 <= 6 * (k mod 10) <= 54).
Proof.
  split.
  - unfold Local.calculateDuration.
    eexists. split; [reflexivity |]. split; [apply formatDuration_tenths |].
    match goal with |- context [?k mod 10] => pose proof (Z.mod_pos_bound k 10) end.
    lia.
  - rewrite averageDuration_spec.
    eexists. split; [reflexivity |]. split; [apply formatDuration_tenths |].
    match goal with |- context [?k mod 10] => pose proof (Z.mod_pos_bound k 10) end.
    lia.
Qed.

(** X15.  When bedtime and wake time fall on the same local calendar day
    and the clock is not changed between them (the offset from UTC is the
    same at both instants), as with two times picked on an ordinary day,
    [calculateDuration] is between 0 and 24 hours. *)
Theorem calculateDuration_same_day (zone : Js.Zone) (bedtime wakeTime : Js.Date) :
  Js.localDay zone bedtime = Js.localDay zone wakeTime ->
  Js.offsetAt zone (Js.getTime bedtime) = Js.offsetAt zone (Js.getTime wakeTime) ->
  (0 <= Local.calculateDuration bedtime wakeTime)%Q /\
  (Local.calculateDuration bedtime wakeTime <= 24)%Q.
Proof.
  unfold Js.localDay, Js.localTime. change Js.msPerDay with 86400000.
  intros Hday Hoffset. rewrite Hoffset in Hday.
  assert (Hdiff : -86400000 < Js.getTime wakeTime - Js.getTime bedtime < 86400000).
  { revert Hday.
    generalize (Js.getTime bedtime), (Js.getTime wakeTime),
      (Js.offsetAt zone (Js.getTime wakeTime)).
    intros b w o Hday. Z.div_mod_to_equations. lia. }
  unfold Local.calculateDuration.
  set (diff := Js.getTime wakeTime - Js.getTime bedtime) in *.
  set (wrapped := if diff <? 0 then diff + 24 * 60 * 60 * 1000 else diff).
  assert (Hw : 0 <= wrapped <= 86400000).
  { unfold wrapped. destruct (Z.ltb_spec diff 0); lia. }
  assert (Hk : 0 <= Js.Math_round (inject_Z wrapped / inject_Z (1000 * 60 * 60) * 10)
               <= 240).
  { split.
    - apply Math_round_nonneg. apply hoursOfMs_nonneg. lia.
    - rewrite <- (Math_round_Z 240). apply Math_round_mono.
      apply Qle_trans with (inject_Z 86400000 / inject_Z (1000 * 60 * 60) * 10)%Q;
        [| discriminate].
      apply Qmult_le_compat_r; [| discriminate].
      apply Qmult_le_compat_r; [| discriminate].
      rewrite <- Zle_Qle. lia. }
  split.
  - apply Qle_shift_div_l; [reflexivity |]. rewrite Qmult_0_l.
    change 0%Q with (inject_Z 0). rewrite <- Zle_Qle. lia.
  - apply Qle_shift_div_r; [reflexivity |].
    change (24 * 10)%Q with (inject_Z 240). rewrite <- Zle_Qle. lia.
Qed.

(** In New York, on the Sunday of the change to summer time: to bed at
    22:00, a wake time entered as 06:00 of the same day. *)
Lemma calculateDuration_same_day_witness :
  (0 <= Local.calculateDuration (Js.mkDate 1710122400000) (Js.mkDate 1710064800000))%Q /\
  (Local.calculateDuration (Js.mkDate 1710122400000) (Js.mkDate 1710064800000) <= 24)%Q.
Proof.
  apply (calculateDuration_same_day Zones.newYork
           (Js.mkDate 1710122400000) (Js.mkDate 1710064800000));
    reflexivity.
Defined.

(** ** More on the settings hook and the notification service *)

(** X16.  [scheduleBedtimeReminder] never throws.  It always cancels first
    and then sends one schedule request, also when the cancel request fails;
    it returns the identifier the OS gives, and [null] when the schedule
    request throws. *)
Theorem scheduleBedtimeReminder_result
        (os : Notifications.Os) (reminderTime : string) (targetHours : Q)
        (trace : list Notifications.Event) :
  Notifications.scheduleBedtimeReminder os reminderTime targetHours trace
  = (Return
       match Notifications.scheduleNotificationAsync
               os (reminderHour reminderTime) (reminderMinute reminderTime)
               targetHours with
       | Return identifier => Some identifier
       | Throw _ => None
       end,
     trace ++ [Notifications.CallScheduleBedtimeReminder reminderTime targetHours;
               Notifications.CallCancelBedtimeReminder;
               Notifications.OsCancelAllScheduled;
               Notifications.OsScheduleDaily (reminderHour reminderTime)
                                             (reminderMinute reminderTime)
                                             targetHours]).
Proof.
  unfold Notifications.scheduleBedtimeReminder, tryCatch, bind.
  unfold Notifications.emit at 1. unfold modify at 1.
  rewrite cancelBedtimeReminder_runs.
  unfold Notifications.emit, modify, await, ret.
  fold (reminderHour reminderTime). fold (reminderMinute reminderTime).
  rewrite <- !app_assoc. simpl.
  destruct (Notifications.scheduleNotificationAsync os _ _ _) as [i | e];
    reflexivity.
Qed.

(** X17.  [updateSettings] never throws.  Signed out, or before the settings
    are loaded, it returns [false] without any request and without touching
    the state.  When the database answers with an error or without a row, it
    returns [false] and raises the flag "Failed to update settings".
    Whenever it returns [false], the stored settings are the old ones and
    the notification service has not been called. *)
Theorem updateSettings_failure
        (supabase : Settings.Supabase) (os : Notifications.Os)
        (user : option Auth.User) (nowIso : string)
        (updates : Settings.UpdateSettingsInput) (s : Settings.State) :
  let after := Settings.updateSettings supabase os user nowIso updates s in
  (exists done, fst after = Return done) /\
  (user = None \/ Settings.settings s = None -> after = (Return false, s)) /\
  (fst after = Return false ->
   Settings.settings (snd after) = Settings.settings s /\
   Settings.notifications (snd after) = Settings.notifications s) /\
  (forall u previous,
      user = Some u -> Settings.settings s = Some previous ->
      fst after = Return false ->
      Settings.errorMsg (snd after) = Some "Failed to update settings"%string /\
      exists patch,
        Settings.requests (snd after)
        = Settings.requests s ++ [Settings.Update (Auth.id u) patch]).
Proof.
  cbv zeta.
  destruct user as [u |].
  2:{ split; [now exists false |]. split; [reflexivity |].
      split; [intros _; split; reflexivity |]. intros u previous Hu. discriminate Hu. }
  destruct (Settings.settings s) as [previous |] eqn:Hprev.
  2:{ assert (Hrun : Settings.updateSettings supabase os (Some u) nowIso updates s
                     = (Return false, s)).
      { unfold Settings.updateSettings, bind, getState. now rewrite Hprev. }
      rewrite Hrun. simpl.
      split; [now exists false |]. split; [reflexivity |].
      split; [intros _; split; [now rewrite Hprev | reflexivity] |].
      intros u' previous _ Hp. discriminate Hp. }
  destruct (Settings.updateSingle supabase (Auth.id u)
              (Settings.mkSettingsPatch (Settings.in_targetHours updates)
                                        (Settings.in_reminderEnabled updates)
                                        (Settings.in_reminderTime updates)
                                        (Settings.in_onboardingCompleted updates)
                                        (Some nowIso))) as [d err] eqn:Hupd.
  assert (Hfail : (err <> None \/ d = None) ->
                  Settings.updateSettings supabase os (Some u) nowIso updates s
                  = (Return false,
                     Settings.mkState
                       (Some previous) (Settings.loading s)
                       (Some "Failed to update settings"%string)
                       (Settings.requests s
                        ++ [Settings.Update (Auth.id u)
                              (Settings.mkSettingsPatch
                                 (Settings.in_targetHours updates)
                                 (Settings.in_reminderEnabled updates)
                                 (Settings.in_reminderTime updates)
                                 (Settings.in_onboardingCompleted updates)
                                 (Some nowIso))])
                       (Settings.notifications s))).
  { intros Hbad.
    unfold Settings.updateSettings, bind, getState. rewrite Hprev.
    unfold tryCatch, unwrap, Settings.request, Settings.setError, modify, ret, throw.
    rewrite Hupd.
    destruct err as [e |];
      [cbn [error data Settings.settings Settings.loading Settings.errorMsg
            Settings.requests Settings.notifications];
       now rewrite Hprev |].
    destruct d as [row |];
      [| cbn [error data Settings.settings Settings.loading Settings.errorMsg
              Settings.requests Settings.notifications];
         now rewrite Hprev].
    destruct Hbad as [Hbad | Hbad]; [now elim Hbad | discriminate Hbad]. }
  destruct err as [e |]; [| destruct d as [row |]].
  - rewrite Hfail by (left; discriminate). simpl.
    split; [now exists false |]. split; [intros [H | H]; discriminate H |].
    split; [intros _; split; [now symmetry | reflexivity] |].
    intros u' previous' Hu _ _. inversion Hu; subst u'.
    split; [reflexivity | eexists; reflexivity].
  - rewrite (updateSettings_committed supabase os u nowIso updates s previous row
                                      Hprev Hupd).
    simpl.
    split; [now exists true |]. split; [intros [H | H]; discriminate H |].
    split; [intros H; discriminate H |].
    intros u' previous' _ _ H. discriminate H.
  - rewrite Hfail by (now right). simpl.
    split; [now exists false |]. split; [intros [H | H]; discriminate H |].
    split; [intros _; split; [now symmetry | reflexivity] |].
    intros u' previous' Hu _ _. inversion Hu; subst u'.
    split; [reflexivity | eexists; reflexivity].
Qed.

Lemma updateSettings_failure_witness :
  Settings.updateSettings Scenario.tableWithDefaults Scenario.workingOs
                          (Some Scenario.someUser) "t1"
                          Scenario.enableReminderAtSeven Scenario.settingsMounted
  = (Return false, Scenario.settingsMounted).
Proof.
  apply (updateSettings_failure Scenario.tableWithDefaults Scenario.workingOs
                                (Some Scenario.someUser) "t1"
                                Scenario.enableReminderAtSeven
                                Scenario.settingsMounted).
  right. reflexivity.
Defined.

(** X18.  [fetchSettings] never throws and always ends with [loading] off.
    Signed out, it clears the settings without any request.  When the select
    returns the user's row, the row becomes the settings and nothing is
    inserted.  When the select fails with another code than PGRST116, or
    answers with neither a row nor an error, the flag "Failed to load
    settings" is raised, the settings are kept and nothing is inserted. *)
Theorem fetchSettings_outcome
        (supabase : Settings.Supabase) (user : option Auth.User) (s : Settings.State) :
  let after := Settings.fetchSettings supabase user s in
  fst after = Return tt /\
  Settings.loading (snd after) = false /\
  match user with
  | None =>
      Settings.settings (snd after) = None /\
      Settings.requests (snd after) = Settings.requests s /\
      Settings.errorMsg (snd after) = Settings.errorMsg s
  | Some u =>
      let response := Settings.selectSingle supabase (Auth.id u) in
      match error response, data response with
      | None, Some row =>
          Settings.settings (snd after) = Some (Settings.toUserSettings row) /\
          Settings.errorMsg (snd after) = None /\
          Settings.requests (snd after)
          = Settings.requests s ++ [Settings.Select (Auth.id u)]
      | None, None =>
          Settings.settings (snd after) = Settings.settings s /\
          Settings.errorMsg (snd after) = Some "Failed to load settings"%string /\
          Settings.requests (snd after)
          = Settings.requests s ++ [Settings.Select (Auth.id u)]
      | Some fetchError, _ =>
          code fetchError <> "PGRST116"%string ->
          Settings.settings (snd after) = Settings.settings s /\
          Settings.errorMsg (snd after) = Some "Failed to load settings"%string /\
          Settings.requests (snd after)
          = Settings.requests s ++ [Settings.Select (Auth.id u)]
      end
  end.
Proof.
  cbv zeta. destruct user as [u |]; [| repeat split].
  unfold Settings.fetchSettings, Settings.createDefaultSettings,
    tryFinally, tryCatch, bind, unwrap, ret, throw,
    Settings.setLoading, Settings.setError, Settings.setSettings,
    Settings.request, modify.
  simpl.
  destruct (Settings.selectSingle supabase (Auth.id u)) as [d err].
  destruct err as [fetchError |]; [| destruct d as [row |]]; simpl.
  - destruct (String.eqb_spec (code fetchError) "PGRST116") as [Heq | Hne].
    + destruct (error (Settings.insertSingle supabase _));
        [| destruct (data (Settings.insertSingle supabase _))];
        simpl; (split; [reflexivity |]); (split; [reflexivity |]);
        intros Hcode; contradiction.
    + simpl. repeat split.
  - repeat split.
  - repeat split.
Qed.

Lemma fetchSettings_outcome_witness :
  Settings.settings
    (snd (Settings.fetchSettings
            (Settings.mkSupabase
               (fun _ => mkPgResponse None (Some (mkJsError "500" "unavailable")))
               (fun p => mkPgResponse (Some (Scenario.insertedRow p)) None)
               (fun _ _ => mkPgResponse None None))
            (Some Scenario.someUser) Scenario.defaultsLoaded))
  = Settings.settings Scenario.defaultsLoaded.
Proof.
  pose proof (fetchSettings_outcome
                (Settings.mkSupabase
                   (fun _ => mkPgResponse None (Some (mkJsError "500" "unavailable")))
                   (fun p => mkPgResponse (Some (Scenario.insertedRow p)) None)
                   (fun _ _ => mkPgResponse None None))
                (Some Scenario.someUser) Scenario.defaultsLoaded) as H.
  cbv zeta in H. destruct H as (_ & _ & H).
  simpl error in H. simpl data in H. cbv iota in H.
  apply H. discriminate.
Defined.

(** The settings after [fetchSettings] found no row: the inserted row when
    the insert answers with one, none otherwise. *)
Lemma fetchSettings_no_row (supabase : Settings.Supabase) (u : Auth.User)
      (s : Settings.State) (fetchError : JsError) :
  noSettingsRow supabase u fetchError ->
  Settings.settings (snd (Settings.fetchSettings supabase (Some u) s))
  = match error (Settings.insertSingle supabase (defaultRow u)),
          data (Settings.insertSingle supabase (defaultRow u)) with
    | None, Some row => Some (Settings.toUserSettings row)
    | _, _ => None
    end.
Proof.
  intros [Hsel Hcode].
  unfold Settings.fetchSettings, Settings.createDefaultSettings,
    tryFinally, tryCatch, bind, unwrap, ret, throw,
    Settings.setLoading, Settings.setError, Settings.setSettings,
    Settings.request, modify.
  simpl. rewrite Hsel, Hcode. simpl.
  change (Settings.mkSettingsInsert
            (Auth.id u)
            Settings.DEFAULT_SETTINGS.targetHours
            Settings.DEFAULT_SETTINGS.reminderEnabled
            Settings.DEFAULT_SETTINGS.reminderTime
            Settings.DEFAULT_SETTINGS.onboardingCompleted)
    with (defaultRow u).
  destruct (Settings.insertSingle supabase (defaultRow u)) as [d err].
  destruct err as [e |]; [| destruct d as [row |]]; reflexivity.
Qed.

(** X19.  A new user (no row yet) is asked to onboard exactly when the
    default record could be created: after [fetchSettings],
    [needsOnboarding] is [true] when the insert returned the stored
    defaults, and [false] when the insert failed (the settings are then
    absent and no error is shown). *)
Theorem needsOnboarding_new_user
        (supabase : Settings.Supabase) (u : Auth.User) (s : Settings.State)
        (fetchError : JsError) :
  noSettingsRow supabase u fetchError ->
  let after := snd (Settings.fetchSettings supabase (Some u) s) in
  (forall row,
      Settings.insertSingle supabase (defaultRow u) = mkPgResponse (Some row) None ->
      storedAs (defaultRow u) row ->
      Settings.needsOnboarding after = true) /\
  (forall insertError,
      error (Settings.insertSingle supabase (defaultRow u)) = Some insertError ->
      Settings.needsOnboarding after = false /\
      Settings.settings after = None).
Proof.
  intros Hno. cbv zeta. unfold Settings.needsOnboarding.
  rewrite (fetchSettings_no_row supabase u s fetchError Hno).
  split.
  - intros row Hins (_ & _ & _ & _ & Hoc). rewrite Hins. simpl.
    now rewrite Hoc.
  - intros insertError Herr. rewrite Herr. split; reflexivity.
Qed.

Lemma needsOnboarding_new_user_witness :
  Settings.needsOnboarding Scenario.defaultsLoaded = true /\
  Settings.needsOnboarding
    (snd (Settings.fetchSettings
            (Settings.mkSupabase
               (fun _ => mkPgResponse None (Some Scenario.noRows))
               (fun _ => mkPgResponse None (Some (mkJsError "500" "unavailable")))
               (fun _ _ => mkPgResponse None None))
            (Some Scenario.someUser) Scenario.settingsMounted)) = false.
Proof.
  split.
  - apply (proj1 (needsOnboarding_new_user
                    (Scenario.settingsTable None) Scenario.someUser
                    Scenario.settingsMounted Scenario.noRows (conj eq_refl eq_refl))
                 (Scenario.insertedRow (defaultRow Scenario.someUser)) eq_refl).
    repeat split; reflexivity.
  - apply (proj2 (needsOnboarding_new_user
                    (Settings.mkSupabase
                       (fun _ => mkPgResponse None (Some Scenario.noRows))
                       (fun _ => mkPgResponse None (Some (mkJsError "500" "unavailable")))
                       (fun _ _ => mkPgResponse None None))
                    Scenario.someUser
                    Scenario.settingsMounted Scenario.noRows (conj eq_refl eq_refl))
                 (mkJsError "500" "unavailable") eq_refl).
Defined.

(** X20.  [completeOnboarding] sends one update carrying the three chosen
    values and [onboarding_completed = true].  When the database commits it
    and returns the merged row, the call returns [true], the row becomes the
    settings and [needsOnboarding] is [false] from then on; the reminder is
    scheduled or cancelled according to the row. *)
Theorem completeOnboarding_completes
        (supabase : Settings.Supabase) (os : Notifications.Os) (u : Auth.User)
        (nowIso : string) (targetHours : Q) (reminderEnabled : bool)
        (reminderTime : string) (s : Settings.State)
        (previous : Settings.UserSettings) (row : Settings.DbUserSettings) :
  let patch :=
    Settings.mkSettingsPatch (Some targetHours) (Some reminderEnabled)
                             (Some reminderTime) (Some true) (Some nowIso) in
  Settings.settings s = Some previous ->
  Settings.updateSingle supabase (Auth.id u) patch = mkPgResponse (Some row) None ->
  Settings.onboarding_completed row = true ->
  let after :=
    Settings.completeOnboarding supabase os (Some u) nowIso
                                targetHours reminderEnabled reminderTime s in
  fst after = Return true /\
  Settings.requests (snd after)
  = Settings.requests s ++ [Settings.Update (Auth.id u) patch] /\
  Settings.settings (snd after) = Some (Settings.toUserSettings row) /\
  Settings.needsOnboarding (snd after) = false /\
  Settings.notifications (snd after)
  = Settings.notifications s ++ reminderEvents (Settings.toUserSettings row).
Proof.
  cbv zeta. intros Hprev Hupd Hdone.
  unfold Settings.completeOnboarding.
  rewrite (updateSettings_committed
             supabase os u nowIso
             (Settings.mkUpdateSettingsInput (Some targetHours) (Some reminderEnabled)
                                             (Some reminderTime) (Some true))
             s previous row Hprev Hupd).
  unfold Settings.needsOnboarding. simpl. rewrite Hdone. repeat split.
Qed.

Lemma completeOnboarding_completes_witness :
  Settings.needsOnboarding
    (snd (Settings.completeOnboarding
            Scenario.tableWithDefaults Scenario.workingOs (Some Scenario.someUser)
            "t1" (15 # 2) true "23:30" Scenario.defaultsLoaded)) = false.
Proof.
  refine (proj1 (proj2 (proj2 (proj2
            (completeOnboarding_completes
               Scenario.tableWithDefaults Scenario.workingOs Scenario.someUser
               "t1" (15 # 2) true "23:30" Scenario.defaultsLoaded
               (Settings.toUserSettings
                  (Scenario.insertedRow (defaultRow Scenario.someUser)))
               (Scenario.mergedRow
                  (Scenario.insertedRow (defaultRow Scenario.someUser))
                  (Settings.mkSettingsPatch (Some (15 # 2)) (Some true)
                                            (Some "23:30"%string) (Some true)
                                            (Some "t1"%string)))
               eq_refl eq_refl eq_refl))))).
Defined.

(** * Reminder times, permissions and screens *)

Lemma allTimes_spec (hours minutes : nat) (check : Z -> Z -> bool) :
  allTimes hours minutes check = true ->
  forall h m, 0 <= h < Z.of_nat hours -> 0 <= m < Z.of_nat minutes ->
              check h m = true.
Proof.
  unfold allTimes. intros Hall h m Hh Hm.
  rewrite forallb_forall in Hall.
  assert (Hrow : forallb (fun m' => check (Z.of_nat (Z.to_nat h)) (Z.of_nat m'))
                         (seq 0 minutes) = true).
  { apply Hall. apply in_seq. lia. }
  rewrite forallb_forall in Hrow.
  specialize (Hrow (Z.to_nat m)).
  rewrite !Z2Nat.id in Hrow by lia. apply Hrow.
  apply in_seq. lia.
Qed.

Lemma returnsText_spec (o : Outcome string) (expected : string) :
  returnsText o expected = true -> o = Return expected.
Proof.
  destruct o as [text | e]; simpl; [| discriminate].
  intros H. apply String.eqb_eq in H. now subst.
Qed.

(** X21.  [formatReminderTime] and [parseDisplayTime] are inverse of each
    other on the times of the day.  A 24-hour time "HH:MM" is displayed as
    the 12-hour time with the same minute, midnight and noon as 12, and the
    displayed text parses back to "HH:MM"; a 12-hour time "H:MM AM/PM" parses
    to a 24-hour time that is displayed as the same text. *)
Theorem reminder_time_round_trip (h m : Z) :
  0 <= h < 24 -> 0 <= m < 60 ->
  ReminderFormat.formatReminderTime (time24 h m)
  = Return (time12 (hour12 h) m (12 <=? h)) /\
  ReminderFormat.parseDisplayTime (time12 (hour12 h) m (12 <=? h)) = time24 h m /\
  (1 <= h <= 12 ->
   forall pm,
     ReminderFormat.formatReminderTime
       (ReminderFormat.parseDisplayTime (time12 h m pm))
     = Return (time12 h m pm)).
Proof.
  intros Hh Hm.
  assert (Hfmt : allTimes 24 60
                   (fun h m => returnsText
                                 (ReminderFormat.formatReminderTime (time24 h m))
                                 (time12 (hour12 h) m (12 <=? h))) = true)
    by (vm_compute; reflexivity).
  assert (Hparse : allTimes 24 60
                     (fun h m => String.eqb
                                   (ReminderFormat.parseDisplayTime
                                      (time12 (hour12 h) m (12 <=? h)))
                                   (time24 h m)) = true)
    by (vm_compute; reflexivity).
  assert (Hback : allTimes 13 60
                    (fun h m =>
                       (h =? 0)
                       || forallb (fun pm =>
                                     returnsText
                                       (ReminderFormat.formatReminderTime
                                          (ReminderFormat.parseDisplayTime (time12 h m pm)))
                                       (time12 h m pm))
                                  [true; false]) = true)
    by (vm_compute; reflexivity).
  split; [| split].
  - apply returnsText_spec. now apply (allTimes_spec 24 60 _ Hfmt).
  - apply String.eqb_eq. now apply (allTimes_spec 24 60 _ Hparse).
  - intros Hh12 pm.
    pose proof (allTimes_spec 13 60 _ Hback h m) as H. cbv beta in H.
    assert (Hall : (h =? 0)
                   || forallb (fun pm =>
                                 returnsText
                                   (ReminderFormat.formatReminderTime
                                      (ReminderFormat.parseDisplayTime (time12 h m pm)))
                                   (time12 h m pm))
                              [true; false] = true) by (apply H; lia).
    destruct (Z.eqb_spec h 0); [lia |]. simpl in Hall.
    apply andb_true_iff in Hall. destruct Hall as [Ht Hf].
    apply andb_true_iff in Hf. destruct Hf as [Hf _].
    apply returnsText_spec. destruct pm; assumption.
Qed.

Lemma reminder_time_round_trip_witness :
  ReminderFormat.formatReminderTime "22:00" = Return "10:00 PM"%string /\
  ReminderFormat.parseDisplayTime "10:00 PM" = "22:00"%string.
Proof.
  destruct (reminder_time_round_trip 22 0) as (Hf & Hp & _); [lia | lia |].
  split; [exact Hf | exact Hp].
Defined.

(** Fallbacks of the two functions, outside the times of the day. *)
Example reminder_time_fallbacks :
  ReminderFormat.parseDisplayTime "10:00" = "22:00"%string /\
  ReminderFormat.parseDisplayTime EmptyString = "22:00"%string /\
  ReminderFormat.parseDisplayTime "13:00 PM" = "25:00"%string /\
  ReminderFormat.formatReminderTime "2200" = Throw typeError /\
  ReminderFormat.formatReminderTime "ab:cd" = Return "12:NaN AM"%string.
Proof. repeat split. Qed.

Lemma clock_bounds (zone : Js.Zone) (date : Js.Date) :
  0 <= JsLib.getHours zone date < 24 /\
  0 <= JsLib.getMinutes zone date < 60.
Proof.
  unfold JsLib.getHours, JsLib.getMinutes, Js.timeWithinDay.
  change Js.msPerDay with 86400000.
  generalize (Js.localTime zone date). intros t.
  split; Z.div_mod_to_equations; lia.
Qed.

Lemma clock_setHours (tzOffset : Z) (now : Js.Date) (h m : Z) :
  0 <= h < 24 -> 0 <= m < 60 ->
  JsLib.getHours tzOffset (Js.setHours tzOffset now h m 0 0) = h /\
  JsLib.getMinutes tzOffset (Js.setHours tzOffset now h m 0 0) = m /\
  Js.localDay tzOffset (Js.setHours tzOffset now h m 0 0) = Js.localDay tzOffset now.
Proof.
  intros Hh Hm.
  unfold JsLib.getHours, JsLib.getMinutes, Js.timeWithinDay, Js.setHours,
    Js.ofLocal, Js.UTC, Js.localDay, Js.localTime, Js.fixedOffset; simpl.
  change Js.msPerDay with 86400000.
  generalize (Js.getTime now + - (tzOffset * 60000)). intros t.
  repeat split; Z.div_mod_to_equations; lia.
Qed.

(** X22.  The time chosen in a time picker survives the trip through the
    settings: the text "HH:MM" made from the picked date holds its local hour
    and minute; [scheduleBedtimeReminder] reads from the text that hour and
    that minute for the OS; and [parseTimeToDate] turns the text into a date
    of today with that hour and minute, for the picker to show. *)
Theorem picked_time_round_trip (tzOffset : Z) (picked now : Js.Date) :
  let text := Onboarding.formatTimeFor24h tzOffset picked in
  let hours := JsLib.getHours tzOffset picked in
  let minutes := JsLib.getMinutes tzOffset picked in
  text = time24 hours minutes /\
  0 <= hours < 24 /\ 0 <= minutes < 60 /\
  reminderHour text = Some hours /\
  reminderMinute text = Some minutes /\
  exists shown,
    SettingsScreen.parseTimeToDate tzOffset now text = Some shown /\
    JsLib.getHours tzOffset shown = hours /\
    JsLib.getMinutes tzOffset shown = minutes /\
    Js.localDay tzOffset shown = Js.localDay tzOffset now /\
    Onboarding.formatTimeFor24h tzOffset shown = text.
Proof.
  cbv zeta.
  destruct (clock_bounds tzOffset picked) as [Hh Hm].
  assert (Hread : allTimes 24 60
                    (fun h m =>
                       match reminderHour (time24 h m), reminderMinute (time24 h m) with
                       | Some a, Some b => (a =? h) && (b =? m)
                       | _, _ => false
                       end) = true)
    by (vm_compute; reflexivity).
  pose proof (allTimes_spec 24 60 _ Hread _ _ Hh Hm) as Hparts. cbv beta in Hparts.
  change (Onboarding.formatTimeFor24h tzOffset picked)
    with (time24 (JsLib.getHours tzOffset picked) (JsLib.getMinutes tzOffset picked)).
  destruct (reminderHour (time24 _ _)) as [a |] eqn:Ha; [| discriminate].
  destruct (reminderMinute (time24 _ _)) as [b |] eqn:Hb; [| discriminate].
  apply andb_true_iff in Hparts. destruct Hparts as [Hah Hbm].
  apply Z.eqb_eq in Hah, Hbm. subst a b.
  split; [reflexivity |]. split; [exact Hh |]. split; [exact Hm |].
  split; [reflexivity |]. split; [reflexivity |].
  exists (Js.setHours tzOffset now (JsLib.getHours tzOffset picked)
                      (JsLib.getMinutes tzOffset picked) 0 0).
  destruct (clock_setHours tzOffset now _ _ Hh Hm) as (Hsh & Hsm & Hday).
  split.
  - unfold SettingsScreen.parseTimeToDate.
    fold (reminderHour (time24 (JsLib.getHours tzOffset picked)
                               (JsLib.getMinutes tzOffset picked))).
    fold (reminderMinute (time24 (JsLib.getHours tzOffset picked)
                                 (JsLib.getMinutes tzOffset picked))).
    now rewrite Ha, Hb.
  - split; [exact Hsh |]. split; [exact Hsm |]. split; [exact Hday |].
    unfold Onboarding.formatTimeFor24h. now rewrite Hsh, Hsm.
Qed.

(** ** Target hours *)

Lemma Qeq_bool_comp_r (y q q' : Q) : (q == q')%Q -> Qeq_bool y q = Qeq_bool y q'.
Proof.
  intros H. apply eq_true_iff_eq. rewrite !Qeq_bool_iff. now rewrite H.
Qed.

Lemma Qeq_bool_comp_l (y q q' : Q) : (q == q')%Q -> Qeq_bool q y = Qeq_bool q' y.
Proof.
  intros H. apply eq_true_iff_eq. rewrite !Qeq_bool_iff. now rewrite H.
Qed.

(** The position of a number among the options: [Some k] when it equals the
    option of index [k], [None] when it equals none. *)
Lemma hour_option_index (q : Q) :
  (isHourOption q = true /\
   exists k v, 0 <= k <= 10 /\ JsLib.indexOf Onboarding.HOUR_OPTIONS q = k /\
               JsLib.at_ Onboarding.HOUR_OPTIONS k = Some v /\ (v == q)%Q) \/
  (isHourOption q = false /\ JsLib.indexOf Onboarding.HOUR_OPTIONS q = -1).
Proof.
  unfold isHourOption, JsLib.indexOf, Onboarding.HOUR_OPTIONS.
  cbn [existsb JsLib.indexOfFrom].
  repeat match goal with
         | |- context [Qeq_bool ?v q] =>
             let E := fresh "E" in
             destruct (Qeq_bool v q) eqn:E;
             [left; split; [reflexivity |];
              eexists; exists v; split; [| split; [reflexivity | split; [reflexivity |]]];
              [lia | now apply Qeq_bool_iff] |]
         end.
  right. split; reflexivity.
Qed.

Lemma isHourOption_comp (q q' : Q) : (q == q')%Q -> isHourOption q = isHourOption q'.
Proof.
  intros H. unfold isHourOption, Onboarding.HOUR_OPTIONS. cbn [existsb].
  now rewrite !(Qeq_bool_comp_r _ q q' H).
Qed.

Lemma hour_option_range (q : Q) : isHourOption q = true -> (5 <= q <= 10)%Q.
Proof.
  intros H. destruct (hour_option_index q) as [(_ & k & v & Hk & _ & Hat & Hv) | [Hno _]];
    [| congruence].
  rewrite <- Hv.
  assert (Hcases : k = 0 \/ k = 1 \/ k = 2 \/ k = 3 \/ k = 4 \/ k = 5 \/ k = 6 \/
                   k = 7 \/ k = 8 \/ k = 9 \/ k = 10) by lia.
  repeat destruct Hcases as [-> | Hcases]; try subst k;
    vm_compute in Hat; inversion Hat; subst v; split; discriminate.
Qed.

(** One press, on an option: half an hour up or down, and no move at the
    ends of the range; off the options, plus goes to 5 and minus does
    nothing. *)
Lemma pressHours_step (q : Q) (plus : bool) :
  (isHourOption q = true ->
   isHourOption (pressHours q plus) = true /\
   (pressHours q plus
    == if plus then (if Qeq_bool q 10 then q else q + (1 # 2))
       else (if Qeq_bool q 5 then q else q - (1 # 2)))%Q) /\
  (isHourOption q = false ->
   pressHours q plus = if plus then 5%Q else q).
Proof.
  unfold pressHours, Onboarding.increaseHours, Onboarding.decreaseHours.
  destruct (hour_option_index q) as [(Hyes & k & v & Hk & Hidx & Hat & Hv) | [Hno Hidx]];
    rewrite Hidx; (split; [| congruence]) || (split; [congruence |]).
  - intros _. clear Hidx.
    rewrite <- !(Qeq_bool_comp_l _ v q Hv).
    assert (Hcases : k = 0 \/ k = 1 \/ k = 2 \/ k = 3 \/ k = 4 \/ k = 5 \/ k = 6 \/
                     k = 7 \/ k = 8 \/ k = 9 \/ k = 10) by lia.
    repeat destruct Hcases as [-> | Hcases]; try subst k;
      vm_compute in Hat; inversion Hat; try subst v;
      destruct plus; cbn;
      (split; [first [reflexivity | exact Hyes] | rewrite <- ?Hv; reflexivity]).
  - intros _. destruct plus; reflexivity.
Qed.

(** X23.  In the onboarding dialog the target hours never leave the
    options: starting from 8, after any sequence of presses on plus and
    minus the value is one of 5, 5.5, ..., 10.  On an option, plus adds half
    an hour except at 10 and minus removes half an hour except at 5, where
    the value stays. *)
Theorem onboarding_hours_stay_options (presses : list bool) (q : Q) :
  let reached := fold_left pressHours presses 8%Q in
  isHourOption reached = true /\
  (5 <= reached <= 10)%Q /\
  (isHourOption q = true ->
   (Onboarding.increaseHours q == if Qeq_bool q 10 then q else q + (1 # 2))%Q /\
   (Onboarding.decreaseHours q == if Qeq_bool q 5 then q else q - (1 # 2))%Q).
Proof.
  cbv zeta.
  assert (Hinv : forall start, isHourOption start = true ->
                               isHourOption (fold_left pressHours presses start) = true).
  { induction presses as [| p ps IH]; intros start Hs; simpl; [exact Hs |].
    apply IH. now apply (proj1 (pressHours_step start p)). }
  split; [now apply Hinv |].
  split; [apply hour_option_range; now apply Hinv |].
  intros Hq. split.
  - exact (proj2 (proj1 (pressHours_step q true) Hq)).
  - exact (proj2 (proj1 (pressHours_step q false) Hq)).
Qed.

Lemma onboarding_hours_stay_options_witness :
  (Onboarding.increaseHours 10 == 10)%Q /\ (Onboarding.decreaseHours 8 == 15 # 2)%Q.
Proof.
  destruct (onboarding_hours_stay_options [] 10) as (_ & _ & H10).
  destruct (onboarding_hours_stay_options [] 8) as (_ & _ & H8).
  split.
  - exact (proj1 (H10 eq_refl)).
  - exact (proj2 (H8 eq_refl)).
Defined.

(** Signed in and with settings loaded, [updateSettings] sends exactly one
    update request, and returns. *)
Lemma updateSettings_logs_request
      (supabase : Settings.Supabase) (os : Notifications.Os) (u : Auth.User)
      (nowIso : string) (updates : Settings.UpdateSettingsInput)
      (s : Settings.State) (previous : Settings.UserSettings) :
  Settings.settings s = Some previous ->
  exists done s',
    Settings.updateSettings supabase os (Some u) nowIso updates s = (Return done, s') /\
    Settings.requests s'
    = Settings.requests s
      ++ [Settings.Update (Auth.id u)
            (Settings.mkSettingsPatch (Settings.in_targetHours updates)
                                      (Settings.in_reminderEnabled updates)
                                      (Settings.in_reminderTime updates)
                                      (Settings.in_onboardingCompleted updates)
                                      (Some nowIso))].
Proof.
  intros Hprev.
  destruct (Settings.updateSingle supabase (Auth.id u)
              (Settings.mkSettingsPatch (Settings.in_targetHours updates)
                                        (Settings.in_reminderEnabled updates)
                                        (Settings.in_reminderTime updates)
                                        (Settings.in_onboardingCompleted updates)
                                        (Some nowIso))) as [d err] eqn:Hupd.
  destruct err as [e |]; [| destruct d as [row |]].
  - eexists; eexists. split.
    + unfold Settings.updateSettings, bind, getState. rewrite Hprev.
      unfold tryCatch, unwrap, Settings.request, Settings.setError, modify, ret, throw.
      rewrite Hupd. reflexivity.
    + reflexivity.
  - eexists; eexists. split.
    + apply (updateSettings_committed supabase os u nowIso updates s previous row
                                      Hprev Hupd).
    + reflexivity.
  - eexists; eexists. split.
    + unfold Settings.updateSettings, bind, getState. rewrite Hprev.
      unfold tryCatch, unwrap, Settings.request, Settings.setError, modify, ret, throw.
      rewrite Hupd. reflexivity.
    + reflexivity.
Qed.

(** The options, index by index: the last is 10, the first is 5, and the
    neighbours are half an hour away. *)
Lemma hour_options_table (k : Z) (v : Q) :
  0 <= k <= 10 ->
  JsLib.at_ SettingsScreen.HOUR_OPTIONS k = Some v ->
  (k = 10 <-> Qeq_bool v 10 = true) /\
  (k = 0 <-> Qeq_bool v 5 = true) /\
  (k < 10 ->
   exists v', JsLib.at_ SettingsScreen.HOUR_OPTIONS (k + 1) = Some v' /\
              (v' == v + (1 # 2))%Q /\ isHourOption v' = true) /\
  (0 < k ->
   exists v', JsLib.at_ SettingsScreen.HOUR_OPTIONS (k + -1) = Some v' /\
              (v' == v - (1 # 2))%Q /\ isHourOption v' = true).
Proof.
  intros Hk Hat.
  assert (Hcases : k = 0 \/ k = 1 \/ k = 2 \/ k = 3 \/ k = 4 \/ k = 5 \/ k = 6 \/
                   k = 7 \/ k = 8 \/ k = 9 \/ k = 10) by lia.
  repeat destruct Hcases as [Hc | Hcases]; try rename Hcases into Hc;
    subst k; vm_compute in Hat; inversion Hat; try subst v;
    (split;
     [split; intros H; first [reflexivity | lia | vm_compute in H; discriminate H] |]);
    (split;
     [split; intros H; first [reflexivity | lia | vm_compute in H; discriminate H] |]);
    (split; intros H;
     first [lia | eexists; split; [vm_compute; reflexivity |]; split; reflexivity]).
Qed.

(** X24.  The plus and minus buttons of the settings screen never throw.
    When the stored target is one of the options, a press sends one update
    asking for the next option, half an hour up or down, and nothing at all
    at the end of the range (10 for plus, 5 for minus).  When the stored
    target is none of the options, minus does nothing and plus asks for 5,
    the first option. *)
Theorem settings_target_hours_buttons
        (supabase : Settings.Supabase) (os : Notifications.Os) (u : Auth.User)
        (nowIso : string) (plus : bool) (s : Settings.State)
        (stored : Settings.UserSettings) :
  Settings.settings s = Some stored ->
  let target := Settings.targetHours stored in
  let after :=
    SettingsScreen.handleTargetHoursChange supabase os (Some u) nowIso
                                           (if plus then 1 else -1) s in
  let asksFor v :=
    Settings.requests (snd after)
    = Settings.requests s
      ++ [Settings.Update (Auth.id u)
            (Settings.mkSettingsPatch (Some v) None None None (Some nowIso))] in
  fst after = Return tt /\
  (isHourOption target = true ->
   if (if plus then Qeq_bool target 10 else Qeq_bool target 5)
   then after = (Return tt, s)
   else exists v,
       (v == target + (if plus then 1 # 2 else - (1 # 2)))%Q /\
       isHourOption v = true /\ asksFor v) /\
  (isHourOption target = false ->
   if plus then asksFor 5%Q else after = (Return tt, s)).
Proof.
  intros Hprev. cbv zeta.
  assert (Hrun : forall k v,
             JsLib.indexOf SettingsScreen.HOUR_OPTIONS (Settings.targetHours stored) = k ->
             0 <= k + (if plus then 1 else -1) < 11 ->
             JsLib.at_ SettingsScreen.HOUR_OPTIONS (k + (if plus then 1 else -1)) = Some v ->
             exists s',
               SettingsScreen.handleTargetHoursChange
                 supabase os (Some u) nowIso (if plus then 1 else -1) s = (Return tt, s') /\
               Settings.requests s'
               = Settings.requests s
                 ++ [Settings.Update (Auth.id u)
                       (Settings.mkSettingsPatch (Some v) None None None (Some nowIso))]).
  { intros k v Hk Hrange Hat.
    destruct (updateSettings_logs_request
                supabase os u nowIso
                (Settings.mkUpdateSettingsInput (Some v) None None None)
                s stored Hprev) as (done & s' & Hupd & Hreq).
    exists s'. split; [| exact Hreq].
    unfold SettingsScreen.handleTargetHoursChange, bind at 1, getState.
    rewrite Hprev, Hk.
    destruct (Z.leb_spec 0 (k + (if plus then 1 else -1))); [| lia].
    destruct (Z.ltb_spec (k + (if plus then 1 else -1))
                         (Z.of_nat (List.length SettingsScreen.HOUR_OPTIONS)));
      [| simpl in *; lia].
    cbn [andb]. rewrite Hat. unfold bind. rewrite Hupd. reflexivity. }
  assert (Hskip : forall k,
             JsLib.indexOf SettingsScreen.HOUR_OPTIONS (Settings.targetHours stored) = k ->
             ~ (0 <= k + (if plus then 1 else -1) < 11) ->
             SettingsScreen.handleTargetHoursChange
               supabase os (Some u) nowIso (if plus then 1 else -1) s = (Return tt, s)).
  { intros k Hk Hrange.
    unfold SettingsScreen.handleTargetHoursChange, bind at 1, getState.
    rewrite Hprev, Hk.
    destruct (Z.leb_spec 0 (k + (if plus then 1 else -1)));
      destruct (Z.ltb_spec (k + (if plus then 1 else -1))
                           (Z.of_nat (List.length SettingsScreen.HOUR_OPTIONS)));
      simpl in *; try reflexivity; lia. }
  destruct (hour_option_index (Settings.targetHours stored))
    as [(Hyes & k & v & Hk & Hidx & Hat & Hv) | [Hno Hidx]].
  - change Onboarding.HOUR_OPTIONS with SettingsScreen.HOUR_OPTIONS in Hidx, Hat.
    rewrite <- !(Qeq_bool_comp_l _ v _ Hv).
    destruct (hour_options_table k v Hk Hat) as (Hlast & Hfirst & Hup & Hdown).
    destruct plus.
    + destruct (Z.eq_dec k 10) as [-> | Hne].
      * rewrite (proj1 Hlast eq_refl).
        rewrite (Hskip 10 Hidx) by lia.
        split; [reflexivity |]. split; [intros _; reflexivity | congruence].
      * destruct (Qeq_bool v 10) eqn:Hten; [elim Hne; now apply Hlast |].
        destruct (Hup ltac:(lia)) as (v' & Hat' & Hv' & Hopt').
        destruct (Hrun k v' Hidx ltac:(lia) Hat') as (s' & Hs' & Hreq).
        rewrite Hs'. split; [reflexivity |]. split; [| congruence].
        intros _. exists v'. split; [| split; [exact Hopt' | exact Hreq]].
        now rewrite Hv', Hv.
    + destruct (Z.eq_dec k 0) as [-> | Hne].
      * rewrite (proj1 Hfirst eq_refl).
        rewrite (Hskip 0 Hidx) by lia.
        split; [reflexivity |]. split; [intros _; reflexivity | congruence].
      * destruct (Qeq_bool v 5) eqn:Hfive; [elim Hne; now apply Hfirst |].
        destruct (Hdown ltac:(lia)) as (v' & Hat' & Hv' & Hopt').
        destruct (Hrun k v' Hidx ltac:(lia) Hat') as (s' & Hs' & Hreq).
        rewrite Hs'. split; [reflexivity |]. split; [| congruence].
        intros _. exists v'. split; [| split; [exact Hopt' | exact Hreq]].
        rewrite Hv', Hv. unfold Qminus. reflexivity.
  - change Onboarding.HOUR_OPTIONS with SettingsScreen.HOUR_OPTIONS in Hidx.
    destruct plus.
    + destruct (Hrun (-1) 5%Q Hidx ltac:(lia) eq_refl) as (s' & Hs' & Hreq).
      rewrite Hs'. split; [reflexivity |]. split; [congruence |].
      intros _. exact Hreq.
    + rewrite (Hskip (-1) Hidx) by lia.
      split; [reflexivity |]. split; [congruence | reflexivity].
Qed.

Lemma settings_target_hours_buttons_witness :
  exists v,
    (v == 8 + (1 # 2))%Q /\
    isHourOption v = true /\
    Settings.requests
      (snd (SettingsScreen.handleTargetHoursChange
              Scenario.tableWithDefaults Scenario.workingOs (Some Scenario.someUser)
              "t1" 1 Scenario.defaultsLoaded))
    = Settings.requests Scenario.defaultsLoaded
      ++ [Settings.Update "u1" (Settings.mkSettingsPatch (Some v) None None None
                                                         (Some "t1"%string))].
Proof.
  pose proof (settings_target_hours_buttons
                Scenario.tableWithDefaults Scenario.workingOs Scenario.someUser
                "t1" true Scenario.defaultsLoaded
                (Settings.toUserSettings
                   (Scenario.insertedRow (defaultRow Scenario.someUser)))
                eq_refl) as H.
  cbv zeta in H. destruct H as (_ & Hopt & _).
  exact (Hopt eq_refl).
Defined.

(** ** The add and detail screens *)

Lemma lt_iff (a b : Q) : JsLib.lt a b = true <-> (a < b)%Q.
Proof.
  unfold JsLib.lt. rewrite Qlt_alt.
  destruct (a ?= b)%Q; split; intros H; congruence.
Qed.

Lemma gt_iff (a b : Q) : Js.gt a b = true <-> (b < a)%Q.
Proof.
  unfold Js.gt. rewrite Qgt_alt.
  destruct (a ?= b)%Q; split; intros H; congruence.
Qed.

Lemma lt_false_iff (a b : Q) : JsLib.lt a b = false <-> (b <= a)%Q.
Proof.
  rewrite <- not_true_iff_false, lt_iff.
  split; [apply Qnot_lt_le | apply Qle_not_lt].
Qed.

Lemma gt_false_iff (a b : Q) : Js.gt a b = false <-> (a <= b)%Q.
Proof.
  rewrite <- not_true_iff_false, gt_iff.
  split; [apply Qnot_lt_le | apply Qle_not_lt].
Qed.

(** X25.  The add screen never lets [handleSave] throw, and it calls
    [addEntry] only for a duration between half an hour and 24 hours.  For a
    shorter or longer duration (so for every negative one) the storage hook
    is left untouched, one "Invalid Duration" alert is shown and the screen
    stays.  Otherwise the hook is left as [addEntry] leaves it and [isSaving]
    ends off; the screen goes back when [addEntry] returned, and shows an
    error alert and stays when it threw. *)
Theorem addScreen_handleSave
        (addEntry : Js.Date -> Js.Date -> option string -> option Z ->
                    Hook StorageState SleepEntry)
        (bedtime wakeTime : Js.Date) (note : string) (quality : Z)
        (s : ScreenState) :
  let duration := Remote.calculateDuration bedtime wakeTime in
  let saved := addEntry bedtime wakeTime (Some note) (Some quality) (hook s) in
  let after := AddScreen.handleSave addEntry bedtime wakeTime note quality s in
  fst after = Return tt /\
  ((duration < 1 # 2)%Q \/ (24 < duration)%Q ->
   hook (snd after) = hook s /\
   wentBack (snd after) = wentBack s /\
   isSaving (snd after) = isSaving s /\
   exists message,
     alerts (snd after) = alerts s ++ [("Invalid Duration"%string, message)]) /\
  ((1 # 2 <= duration)%Q /\ (duration <= 24)%Q ->
   hook (snd after) = snd saved /\
   isSaving (snd after) = false /\
   match fst saved with
   | Return _ =>
       wentBack (snd after) = true /\ alerts (snd after) = alerts s
   | Throw _ =>
       wentBack (snd after) = wentBack s /\
       alerts (snd after)
       = alerts s ++ [("Error"%string,
                       "Failed to save sleep entry. Please try again."%string)]
   end).
Proof.
  cbv zeta. unfold AddScreen.handleSave.
  destruct (JsLib.lt (Remote.calculateDuration bedtime wakeTime) (1 # 2)) eqn:Hshort.
  { apply lt_iff in Hshort.
    split; [reflexivity |]. split.
    - intros _. repeat split. eexists. reflexivity.
    - intros [Hlo _]. exfalso. apply (Qlt_not_le _ _ Hshort Hlo). }
  apply lt_false_iff in Hshort.
  destruct (Js.gt (Remote.calculateDuration bedtime wakeTime) 24) eqn:Hlong.
  { apply gt_iff in Hlong.
    split; [reflexivity |]. split.
    - intros _. repeat split. eexists. reflexivity.
    - intros [_ Hhi]. exfalso. apply (Qlt_not_le _ _ Hlong Hhi). }
  apply gt_false_iff in Hlong.
  unfold tryFinally, tryCatch, bind, Screen.setIsSaving, Screen.onHook,
    Screen.routerBack, Screen.alert, modify.
  cbn [hook isSaving isEditing alerts wentBack].
  destruct (addEntry bedtime wakeTime (Some note) (Some quality) (hook s))
    as [[added | e] h]; cbn [fst snd hook isSaving isEditing alerts wentBack].
  - split; [reflexivity |]. split.
    + intros [H | H]; exfalso;
        [apply (Qlt_not_le _ _ H Hshort) | apply (Qlt_not_le _ _ H Hlong)].
    + intros _. repeat split.
  - split; [reflexivity |]. split.
    + intros [H | H]; exfalso;
        [apply (Qlt_not_le _ _ H Hshort) | apply (Qlt_not_le _ _ H Hlong)].
    + intros _. repeat split.
Qed.

Lemma addScreen_handleSave_witness :
  hook (snd (AddScreen.handleSave
               (Remote.addEntry Scenario.quietSupabase (Some Scenario.someUser))
               (bedtime Scenario.lastNight) Scenario.twoDaysBefore
               "note" 3
               (mkScreenState Scenario.mounted false false [] false)))
  = Scenario.mounted.
Proof.
  pose proof (addScreen_handleSave
                (Remote.addEntry Scenario.quietSupabase (Some Scenario.someUser))
                (bedtime Scenario.lastNight) Scenario.twoDaysBefore
                "note" 3
                (mkScreenState Scenario.mounted false false [] false)) as H.
  cbv zeta in H. destruct H as (_ & Hout & _).
  apply Hout. left. reflexivity.
Defined.

(** X26.  The detail screen never lets [handleSave] throw.  Without an id
    nothing happens.  For a duration below half an hour or above 24 hours
    [updateEntry] is not called: the hook is untouched and one "Invalid
    Duration" alert is shown.  Otherwise the hook is left as [updateEntry]
    leaves it and [isSaving] ends off; when [updateEntry] returns, edit mode
    is left and the "Success" alert is shown, also when it returned [null]
    because the entry is unknown; when it throws, the "Error" alert is shown
    and edit mode is kept. *)
Theorem detailScreen_handleSave
        (updateEntry : string -> Js.Date -> Js.Date -> option string ->
                       Hook StorageState (option SleepEntry))
        (eid : string) (bedtime wakeTime : Js.Date) (note : string)
        (s : ScreenState) :
  let duration := Remote.calculateDuration bedtime wakeTime in
  let saved := updateEntry eid bedtime wakeTime (Some note) (hook s) in
  let after := DetailScreen.handleSave updateEntry (Some eid) bedtime wakeTime note s in
  fst after = Return tt /\
  DetailScreen.handleSave updateEntry None bedtime wakeTime note s = (Return tt, s) /\
  (eid = EmptyString -> after = (Return tt, s)) /\
  (eid <> EmptyString ->
   ((duration < 1 # 2)%Q \/ (24 < duration)%Q ->
    hook (snd after) = hook s /\
    isEditing (snd after) = isEditing s /\
    alerts (snd after)
    = alerts s ++ [("Invalid Duration"%string,
                    "Sleep duration should be between 30 minutes and 24 hours."%string)]) /\
   ((1 # 2 <= duration)%Q /\ (duration <= 24)%Q ->
    hook (snd after) = snd saved /\
    isSaving (snd after) = false /\
    match fst saved with
    | Return _ =>
        isEditing (snd after) = false /\
        alerts (snd after)
        = alerts s ++ [("Success"%string, "Sleep entry updated successfully."%string)]
    | Throw _ =>
        isEditing (snd after) = isEditing s /\
        alerts (snd after)
        = alerts s ++ [("Error"%string,
                        "Failed to update sleep entry. Please try again."%string)]
    end)).
Proof.
  cbv zeta. unfold DetailScreen.handleSave.
  destruct eid as [| c rest].
  { split; [reflexivity |]. split; [reflexivity |]. split; [reflexivity |].
    intros Hne. now elim Hne. }
  split; [| split; [reflexivity | split; [discriminate |]]].
  - destruct (JsLib.lt _ _ || Js.gt _ _); [reflexivity |].
    unfold tryFinally, tryCatch, bind, Screen.setIsSaving, Screen.setIsEditing,
      Screen.onHook, Screen.alert, modify.
    cbn [hook isSaving isEditing alerts wentBack].
    destruct (updateEntry _ _ _ _ _) as [[updated | e] h]; reflexivity.
  - intros _.
    destruct (JsLib.lt (Remote.calculateDuration bedtime wakeTime) (1 # 2)) eqn:Hshort;
      destruct (Js.gt (Remote.calculateDuration bedtime wakeTime) 24) eqn:Hlong;
      cbn [orb];
      try (split;
           [intros _; repeat split
           | intros [Hlo Hhi]; exfalso;
             first [apply lt_iff in Hshort; apply (Qlt_not_le _ _ Hshort Hlo)
                   | apply gt_iff in Hlong; apply (Qlt_not_le _ _ Hlong Hhi)]]).
    apply lt_false_iff in Hshort. apply gt_false_iff in Hlong.
    unfold tryFinally, tryCatch, bind, Screen.setIsSaving, Screen.setIsEditing,
      Screen.onHook, Screen.alert, modify.
    cbn [hook isSaving isEditing alerts wentBack].
    split.
    + intros [H | H]; exfalso;
        [apply (Qlt_not_le _ _ H Hshort) | apply (Qlt_not_le _ _ H Hlong)].
    + intros _.
      destruct (updateEntry _ _ _ _ _) as [[updated | e] h];
        cbn [fst snd hook isSaving isEditing alerts wentBack]; repeat split.
Qed.

Lemma detailScreen_handleSave_witness :
  alerts (snd (DetailScreen.handleSave
                 (Local.updateEntry (Scenario.workingStorage None))
                 (Some "zz"%string) Scenario.nightBeforeBed Scenario.nightBeforeWake
                 "note"
                 (mkScreenState (mkStorageState [Scenario.lastNight] false None)
                                false true [] false)))
  = [("Success"%string, "Sleep entry updated successfully."%string)].
Proof.
  pose proof (detailScreen_handleSave
                (Local.updateEntry (Scenario.workingStorage None))
                "zz" Scenario.nightBeforeBed Scenario.nightBeforeWake "note"
                (mkScreenState (mkStorageState [Scenario.lastNight] false None)
                               false true [] false)) as H.
  cbv zeta in H. destruct H as (_ & _ & _ & H).
  destruct (H ltac:(discriminate)) as [_ Hin].
  destruct Hin as (_ & _ & Hsaved).
  - split; vm_compute; discriminate.
  - exact (proj2 Hsaved).
Defined.

(** ** The statistics screen *)

Lemma ge_iff (a b : Q) : JsLib.ge a b = true <-> (b <= a)%Q.
Proof. unfold JsLib.ge. rewrite negb_true_iff. apply lt_false_iff. Qed.

Lemma le_iff (a b : Q) : JsLib.le a b = true <-> (a <= b)%Q.
Proof. unfold JsLib.le. rewrite negb_true_iff. apply gt_false_iff. Qed.

Lemma ge_false_iff (a b : Q) : JsLib.ge a b = false <-> (a < b)%Q.
Proof. unfold JsLib.ge. rewrite negb_false_iff. apply lt_iff. Qed.

Lemma le_false_iff (a b : Q) : JsLib.le a b = false <-> (b < a)%Q.
Proof. unfold JsLib.le. rewrite negb_false_iff. apply gt_iff. Qed.

Lemma getSleepQuality_label (avg : Q) :
  StatsScreen.label (StatsScreen.getSleepQuality avg)
  = if JsLib.ge avg 7 && JsLib.le avg 9 then "Excellent"%string
    else if JsLib.ge avg 6 && JsLib.lt avg 7 then "Good"%string
    else if JsLib.ge avg 5 && JsLib.lt avg 6 then "Fair"%string
    else "Poor"%string.
Proof.
  unfold StatsScreen.getSleepQuality.
  destruct (JsLib.ge avg 7 && JsLib.le avg 9); [reflexivity |].
  destruct (JsLib.ge avg 6 && JsLib.lt avg 7); [reflexivity |].
  destruct (JsLib.ge avg 5 && JsLib.lt avg 6); reflexivity.
Qed.



(** ** Notification permissions and the onboarding dialog *)

(** X28.  [requestNotificationPermissions] reads the permission status
    first.  It asks the user exactly when the status read is not "granted";
    it creates the Android channel "bedtime-reminders" only on Android and
    only once the permission is granted, and then always; it returns [true]
    only when the permission is granted and [false] only when it is not,
    without creating a channel. *)
Theorem requestNotificationPermissions_outcome
        (api : Permissions.Api) (trace : list Permissions.Event) :
  let after := Permissions.requestNotificationPermissions api trace in
  exists events,
    snd after = trace ++ Permissions.GetPermissions :: events /\
    (In Permissions.RequestPermissions events <->
     exists status, Permissions.getPermissionsAsync api = Return status /\
                    status <> "granted"%string) /\
    (forall name,
        In (Permissions.SetNotificationChannel name) events ->
        name = "bedtime-reminders"%string /\
        Permissions.platformOS api = "android"%string /\
        permissionGranted api) /\
    (permissionGranted api -> Permissions.platformOS api = "android"%string ->
     In (Permissions.SetNotificationChannel "bedtime-reminders") events) /\
    (fst after = Return true -> permissionGranted api) /\
    (fst after = Return false ->
     ~ permissionGranted api /\
     forall name, ~ In (Permissions.SetNotificationChannel name) events).
Proof.
  cbv zeta. unfold permissionGranted.
  unfold Permissions.requestNotificationPermissions, Permissions.emit, bind,
    await, modify, ret.
  destruct (Permissions.getPermissionsAsync api) as [existing | e1] eqn:Hget.
  2:{ exists []. split; [reflexivity |].
      split; [split; [intros [] | intros (status & Hs & _); discriminate Hs] |].
      split; [intros name [] |].
      split; [intros [H | (status & Hs & _)]; discriminate |].
      split; intros H; discriminate H. }
  destruct (String.eqb_spec existing "granted") as [-> | Hnot].
  - (* already granted *)
    rewrite ?String.eqb_refl. cbn [negb].
    destruct (String.eqb_spec (Permissions.platformOS api) "android") as [Hos | Hos].
    + destruct (Permissions.setNotificationChannelAsync api "bedtime-reminders")
        as [[] | e3];
        (exists [Permissions.SetNotificationChannel "bedtime-reminders"];
         split; [cbn [fst snd]; rewrite <- ?app_assoc; reflexivity |];
         split; [split; [intros [H | []]; discriminate H
                        | intros (status & Hs & Hne); inversion Hs; subst; now elim Hne] |];
         split; [intros name [H | []]; inversion H; auto |];
         split; [intros _ _; now left |];
         split; [intros _; now left | intros H; discriminate H]).
    + exists []. split; [reflexivity |].
      split; [split; [intros []
                     | intros (status & Hs & Hne); inversion Hs; subst; now elim Hne] |].
      split; [intros name [] |].
      split; [intros _ H; contradiction |].
      split; [intros _; now left | intros H; discriminate H].
  - (* the user is asked *)
    destruct (Permissions.requestPermissionsAsync api) as [answer | e2] eqn:Hask.
    2:{ exists [Permissions.RequestPermissions].
        split; [cbn [fst snd]; rewrite <- ?app_assoc; reflexivity |].
        split; [split; [intros _; now exists existing | intros _; now left] |].
        split; [intros name [H | []]; discriminate H |].
        split; [intros [H | (status & _ & _ & H)];
                [inversion H; subst; now elim Hnot | discriminate H] |].
        split; intros H; discriminate H. }
    destruct (String.eqb_spec answer "granted") as [-> | Hdenied];
      rewrite ?String.eqb_refl; cbn [negb].
    + destruct (String.eqb_spec (Permissions.platformOS api) "android") as [Hos | Hos].
      * destruct (Permissions.setNotificationChannelAsync api "bedtime-reminders")
          as [[] | e3];
          (exists [Permissions.RequestPermissions;
                   Permissions.SetNotificationChannel "bedtime-reminders"];
           split; [cbn [fst snd]; rewrite <- ?app_assoc; reflexivity |];
           split; [split; [intros _; now exists existing | intros _; now left] |];
           split; [intros name [H | [H | []]]; [discriminate H |];
                   inversion H; repeat split; auto; right; now exists existing |];
           split; [intros _ _; right; now left |];
           split; [intros _; right; now exists existing | intros H; discriminate H]).
      * exists [Permissions.RequestPermissions].
        split; [cbn [fst snd]; rewrite <- ?app_assoc; reflexivity |].
        split; [split; [intros _; now exists existing | intros _; now left] |].
        split; [intros name [H | []]; discriminate H |].
        split; [intros _ H; contradiction |].
        split; [intros _; right; now exists existing | intros H; discriminate H].
    + exists [Permissions.RequestPermissions].
      split; [cbn [fst snd]; rewrite <- ?app_assoc; reflexivity |].
      split; [split; [intros _; now exists existing | intros _; now left] |].
      split; [intros name [H | []]; discriminate H |].
      split; [intros [H | (status & _ & _ & H)];
              [inversion H; subst; now elim Hnot | inversion H; now elim Hdenied] |].
      split; [intros H; discriminate H |].
      intros _. split.
      * intros [H | (status & _ & _ & H)];
          [inversion H; subst; now elim Hnot | inversion H; now elim Hdenied].
      * intros name [H | []]. discriminate H.
Qed.

Lemma requestNotificationPermissions_outcome_witness :
  exists events,
    snd (Permissions.requestNotificationPermissions RemoteScenario.grantedAndroid [])
    = [] ++ Permissions.GetPermissions :: events /\
    In (Permissions.SetNotificationChannel "bedtime-reminders") events.
Proof.
  destruct (requestNotificationPermissions_outcome RemoteScenario.grantedAndroid [])
    as (events & Htrace & _ & _ & Hchannel & _).
  exists events. split; [exact Htrace |].
  apply Hchannel; [left |]; reflexivity.
Defined.

(** X29.  [handleComplete] of the onboarding dialog asks for the
    notification permission only when reminders are enabled, and passes the
    choices on to [onComplete] (target hours, reminder switch, time as
    "HH:MM") whatever the answer: a refusal does not switch the reminder
    off.  When the permission request throws, [handleComplete] throws,
    [onComplete] is not called and [isLoading] stays on. *)
Theorem onboarding_handleComplete
        (api : Permissions.Api) (zone : Js.Zone) (targetHours : Q)
        (reminderEnabled : bool) (reminderTime : Js.Date) (s : Onboarding.State) :
  let text := Onboarding.formatTimeFor24h zone reminderTime in
  let asked :=
    Permissions.requestNotificationPermissions api (Onboarding.permissionTrace s) in
  let after :=
    Onboarding.handleComplete api zone targetHours reminderEnabled reminderTime s in
  if reminderEnabled then
    match fst asked with
    | Return _ =>
        after = (Return tt,
                 Onboarding.mkState false (snd asked)
                                    (Onboarding.completed s
                                     ++ [(targetHours, true, text)]))
    | Throw e =>
        after = (Throw e, Onboarding.mkState true (snd asked) (Onboarding.completed s))
    end
  else
    after = (Return tt,
             Onboarding.mkState false (Onboarding.permissionTrace s)
                                (Onboarding.completed s
                                 ++ [(targetHours, false, text)])).
Proof.
  cbv zeta.
  unfold Onboarding.handleComplete, Onboarding.askPermissions,
    Onboarding.setIsLoading, Onboarding.onComplete, bind, modify, ret.
  destruct reminderEnabled; [| reflexivity].
  cbn [Onboarding.isLoading Onboarding.permissionTrace Onboarding.completed].
  destruct (Permissions.requestNotificationPermissions api (Onboarding.permissionTrace s))
    as [[granted | e] trace]; reflexivity.
Qed.

(** ** The text of a displayed time *)

Lemma span_run (p : ascii -> bool) (run rest : string) :
  allChars p run = true ->
  match rest with
  | String c _ => p c = false
  | EmptyString => True
  end ->
  JsLib.span p (run ++ rest) = (run, rest).
Proof.
  intros Hrun Hrest. induction run as [| c run IH]; simpl.
  - destruct rest as [| c rest]; [reflexivity |]. simpl. now rewrite Hrest.
  - simpl in Hrun. apply andb_true_iff in Hrun. destruct Hrun as [Hc Hrun].
    now rewrite Hc, (IH Hrun).
Qed.

Lemma period_letter (a : ascii) :
  JsLib.upperChar a = "A"%char \/ JsLib.upperChar a = "P"%char ->
  JsLib.isDigit a = false /\ Js.isSpace a = false.
Proof.
  destruct a as [[] [] [] [] [] [] [] []]; vm_compute;
    intros [H | H]; try discriminate H; auto.
Qed.

Lemma blank_not_digit (c : ascii) : Js.isSpace c = true -> JsLib.isDigit c = false.
Proof.
  destruct c as [[] [] [] [] [] [] [] []]; vm_compute; intros H;
    try discriminate H; reflexivity.
Qed.

Lemma firstMatch_here (s : string) (groups : string * string * string) :
  ReminderFormat.matchHere s = Some groups ->
  ReminderFormat.firstMatch s = Some groups.
Proof.
  intros H. destruct s; cbn [ReminderFormat.firstMatch]; now rewrite H.
Qed.


